(** * EduMentor mini app: knowledge base, quiz parsing and export

    A shallow embedding of the helper functions and of the export/import
    handlers of [final_project_min.py], and the properties of the design
    document checked against it.

    Conventions of the embedding.
    - A Python [str] is a [string]; one [ascii] stands for one character
      (code points up to U+00FF).  [bytes] is [list byte].
    - Python objects that travel through JSON are the type [value].
    - A call that may raise returns a [result]; [Raise e] carries [str(e)].
    - Third-party and codec calls (the langchain splitter, the [json]
      module, PyPDF2, UTF-8 decoding, [repr]) are the fields of the class
      [Runtime]; the generation client is an argument, as in the source. *)

From Stdlib Require Import String Ascii List ZArith Lia Bool.
From Stdlib.Strings Require Import Byte.
Import ListNotations.

Set Warnings "-register-all".


Local Open Scope list_scope.
Local Open Scope string_scope.
Local Open Scope nat_scope.

(* ------------------------------------------------------------------ *)
(** ** Results of calls that may raise *)

Inductive result (A : Type) : Type :=
| Ok (a : A)
| Raise (e : string).

Arguments Ok {A} a.
Arguments Raise {A} e.

Definition bind {A B : Type} (r : result A) (k : A -> result B) : result B :=
  match r with
  | Ok a => k a
  | Raise e => Raise e
  end.

Notation "x <- r ;; k" := (bind r (fun x => k))
  (at level 61, r at next level, right associativity).

(* ------------------------------------------------------------------ *)
(** ** Python values *)

(** A Python float is a NaN, an infinity or a dyadic number [m * 2^e]. *)
Inductive pyfloat : Type :=
| FNan
| FInf (negative : bool)
| FFin (m e : Z).

Inductive value : Type :=
| VNone
| VBool (b : bool)
| VInt (z : Z)
| VFloat (f : pyfloat)
| VStr (s : string)
| VList (items : list value)
| VDict (fields : list (string * value)).

(* ------------------------------------------------------------------ *)
(** ** String methods *)

Module Str.

Definition nl : string := String "010"%char "".
Definition nlnl : string := nl ++ nl.
Definition comma : ascii := ","%char.
Definition dquote : ascii := "034"%char.

Definition is_empty (s : string) : bool :=
  match s with
  | EmptyString => true
  | String _ _ => false
  end.

(** Truth value of a string: non-empty. *)
Definition truthy (s : string) : bool := negb (is_empty s).

Definition len (s : string) : Z := Z.of_nat (String.length s).

(** [sep.join(parts)] *)
Definition join (sep : string) (parts : list string) : string :=
  String.concat sep parts.

(** [str.isspace] on one character, for code points up to U+00FF. *)
Definition is_space (c : ascii) : bool :=
  let n := nat_of_ascii c in
  ((9 <=? n) && (n <=? 13)) || ((28 <=? n) && (n <=? 32))
  || (n =? 133) || (n =? 160).

Fixpoint lstrip (s : string) : string :=
  match s with
  | EmptyString => EmptyString
  | String c s' => if is_space c then lstrip s' else s
  end.

Fixpoint rstrip (s : string) : string :=
  match s with
  | EmptyString => EmptyString
  | String c s' =>
      match rstrip s' with
      | EmptyString => if is_space c then EmptyString else String c EmptyString
      | r => String c r
      end
  end.

(** [s.strip()] *)
Definition strip (s : string) : string := rstrip (lstrip s).

(** [c in s] for a one-character pattern. *)
Fixpoint contains (c : ascii) (s : string) : bool :=
  match s with
  | EmptyString => false
  | String d s' => Ascii.eqb c d || contains c s'
  end.

(** [s.replace(c, t)] for a one-character pattern. *)
Fixpoint replace (c : ascii) (t : string) (s : string) : string :=
  match s with
  | EmptyString => EmptyString
  | String d s' =>
      if Ascii.eqb c d then t ++ replace c t s' else String d (replace c t s')
  end.

(** [s.find(c)]: index of the first occurrence, or -1. *)
Fixpoint find_from (c : ascii) (i : Z) (s : string) : Z :=
  match s with
  | EmptyString => (-1)%Z
  | String d s' => if Ascii.eqb c d then i else find_from c (i + 1)%Z s'
  end.

Definition find (c : ascii) (s : string) : Z := find_from c 0%Z s.

(** [s.rfind(c)]: index of the last occurrence, or -1. *)
Fixpoint rfind_from (c : ascii) (i : Z) (s : string) : Z :=
  match s with
  | EmptyString => (-1)%Z
  | String d s' =>
      let r := rfind_from c (i + 1)%Z s' in
      if (0 <=? r)%Z then r else if Ascii.eqb c d then i else (-1)%Z
  end.

Definition rfind (c : ascii) (s : string) : Z := rfind_from c 0%Z s.

(** Slice bound normalisation: a negative index counts from the end, and
    the result is clamped to [0 .. len]. *)
Definition clamp (n : Z) (i : Z) : Z :=
  if (i <? 0)%Z then Z.max (i + n) 0 else Z.min i n.

(** [s[start:stop]] *)
Definition slice (s : string) (start stop : Z) : string :=
  let n := len s in
  let i := clamp n start in
  let j := clamp n stop in
  String.substring (Z.to_nat i) (Z.to_nat (j - i)) s.

(** [s.lower()] on one character, for code points up to U+00FF. *)
Definition lower_char (c : ascii) : ascii :=
  let n := nat_of_ascii c in
  if ((65 <=? n) && (n <=? 90))
     || ((192 <=? n) && (n <=? 222) && negb (n =? 215))
  then ascii_of_nat (n + 32) else c.

Fixpoint lower (s : string) : string :=
  match s with
  | EmptyString => EmptyString
  | String c s' => String (lower_char c) (lower s')
  end.

(** [s.endswith(suffix)] *)
Definition endswith (s suffix : string) : bool :=
  (String.length suffix <=? String.length s)
  && String.eqb
       (String.substring (String.length s - String.length suffix)
                         (String.length suffix) s)
       suffix.

(** The decimal digits of [n], least significant first onto [acc]. *)
Fixpoint digits (fuel : nat) (n : Z) (acc : string) : string :=
  match fuel with
  | O => acc
  | S fuel' =>
      let acc' := String (ascii_of_nat (48 + Z.to_nat (n mod 10))) acc in
      if (n <? 10)%Z then acc' else digits fuel' (n / 10)%Z acc'
  end.

Definition of_nonneg (n : Z) : string :=
  digits (S (Z.to_nat (Z.log2 n))) n EmptyString.

(** [str(n)] for an [int]. *)
Definition of_Z (z : Z) : string :=
  if (z <? 0)%Z then String "-"%char (of_nonneg (- z)) else of_nonneg z.

(** The sum of the lengths of the strings of a list. *)
Definition total_len (parts : list string) : Z :=
  fold_right (fun s acc => (len s + acc)%Z) 0%Z parts.

(** Whether every character is white space, and whether the first or the
    last one is. *)
Fixpoint all_space (s : string) : bool :=
  match s with
  | EmptyString => true
  | String c s' => is_space c && all_space s'
  end.

Definition head_space (s : string) : bool :=
  match s with
  | EmptyString => false
  | String c _ => is_space c
  end.

Fixpoint last_space (s : string) : bool :=
  match s with
  | EmptyString => false
  | String c EmptyString => is_space c
  | String _ s' => last_space s'
  end.

(** [c * n] *)
Fixpoint replicate (n : nat) (c : ascii) : string :=
  match n with
  | O => EmptyString
  | S n' => String c (replicate n' c)
  end.

End Str.

(** [bytes.decode("latin-1")]: one character per byte, never fails. *)
Definition decode_latin1 (bs : list byte) : string :=
  string_of_list_byte bs.

(** [str.encode("utf-8")] for code points up to U+00FF: one byte below
    U+0080, two bytes from there on. *)
Fixpoint encode_utf8 (s : string) : list byte :=
  match s with
  | EmptyString => []
  | String c s' =>
      let n := N_of_ascii c in
      if (n <? 128)%N then byte_of_ascii c :: encode_utf8 s'
      else
        match Byte.of_N (192 + n / 64)%N, Byte.of_N (128 + n mod 64)%N with
        | Some b1, Some b2 => b1 :: b2 :: encode_utf8 s'
        | _, _ => encode_utf8 s'
        end
  end.

(* ------------------------------------------------------------------ *)
(** ** The runtime the program runs against *)

Class Runtime : Type := {
  (** [bytes.decode("utf-8")] *)
  decode_utf8 : list byte -> result string;
  (** [_PDF_OK]: whether PyPDF2 could be imported *)
  pdf_ok : bool;
  (** [PdfReader(...).pages] with [extract_text()] of every page *)
  pdf_pages : list byte -> result (list (option string));
  (** [RecursiveCharacterTextSplitter(chunk_size, chunk_overlap).split_text] *)
  split_text : Z -> Z -> string -> list string;
  (** [json.loads] *)
  json_loads : string -> result value;
  (** [json.dumps(..., ensure_ascii=False, indent=2)] *)
  json_dumps : value -> string;
  (** [str()] of a float, a list or a dict *)
  py_repr : value -> string
}.

(* ------------------------------------------------------------------ *)
(** ** Knowledge base assembly *)

(** An uploaded file: its name and what [read()] returns. *)
Record File : Type := mkFile {
  name : string;
  data : list byte
}.

Section KnowledgeBase.
Context `{Runtime}.

Definition read_text_file (file : File) : string :=
  match decode_utf8 (data file) with
  | Ok s => s
  | Raise _ => decode_latin1 (data file)
  end.

Definition extract_pdf (file : File) : string :=
  if negb pdf_ok then ""
  else
    match pdf_pages (data file) with
    | Ok pages =>
        Str.join Str.nl
          (map (fun p => match p with
                         | Some t => t
                         | None => ""
                         end) pages)
    | Raise _ => ""
    end.

(** The loop over [files]: the texts appended to [all_texts]. *)
Fixpoint file_texts (files : list File) : list string :=
  match files with
  | [] => []
  | f :: rest =>
      let name := Str.lower (name f) in
      if Str.endswith name ".txt" || Str.endswith name ".md"
      then read_text_file f :: file_texts rest
      else if Str.endswith name ".pdf"
      then
        let txt := extract_pdf f in
        if Str.truthy txt then txt :: file_texts rest else file_texts rest
      else file_texts rest
  end.

(** The loop over [chunks]: [out] after the loop, starting from [size]. *)
Fixpoint take_chunks (limit size : Z) (chunks : list string) : list string :=
  match chunks with
  | [] => []
  | c :: rest =>
      if (size + Str.len c >? limit)%Z then []
      else c :: take_chunks limit (size + Str.len c)%Z rest
  end.

Definition build_kb_text (files : list File) (pasted_text : string) : string :=
  let all_texts :=
    (file_texts files
     ++ (if Str.truthy (Str.strip pasted_text)
         then [Str.strip pasted_text] else []))%list in
  let full := Str.join Str.nlnl (filter Str.truthy all_texts) in
  if negb (Str.truthy full) then ""
  else
    let chunks := split_text 1200 150 full in
    Str.join Str.nlnl (take_chunks 25000 0 chunks).

End KnowledgeBase.

(* ------------------------------------------------------------------ *)
(** ** Built-in operations on values *)

Module Py.

Definition type_name (v : value) : string :=
  match v with
  | VNone => "NoneType"
  | VBool _ => "bool"
  | VInt _ => "int"
  | VFloat _ => "float"
  | VStr _ => "str"
  | VList _ => "list"
  | VDict _ => "dict"
  end.

(** Truth value of an object, as [if x:] and [x or y] test it. *)
Definition truthy (v : value) : bool :=
  match v with
  | VNone => false
  | VBool b => b
  | VInt z => negb (z =? 0)%Z
  | VFloat (FFin m _) => negb (m =? 0)%Z
  | VFloat _ => true
  | VStr s => Str.truthy s
  | VList l => match l with [] => false | _ :: _ => true end
  | VDict d => match d with [] => false | _ :: _ => true end
  end.

Definition isinstance_dict (v : value) : bool :=
  match v with VDict _ => true | _ => false end.

Definition isinstance_list (v : value) : bool :=
  match v with VList _ => true | _ => false end.

Definition isinstance_str (v : value) : bool :=
  match v with VStr _ => true | _ => false end.

Definition isinstance_int (v : value) : bool :=
  match v with VInt _ | VBool _ => true | _ => false end.

(** Lookup in a dict, kept as the list of its items in insertion order. *)
Fixpoint lookup (d : list (string * value)) (k : string) : option value :=
  match d with
  | [] => None
  | (k', v) :: rest => if String.eqb k k' then Some v else lookup rest k
  end.

(** [d[k] = v] on a dict: an existing key keeps its place. *)
Fixpoint store (d : list (string * value)) (k : string) (v : value)
  : list (string * value) :=
  match d with
  | [] => [(k, v)]
  | (k', v') :: rest =>
      if String.eqb k k' then (k, v) :: rest else (k', v') :: store rest k v
  end.

(** [k in d], evaluated after [isinstance(d, dict)]. *)
Definition contains (k : string) (v : value) : bool :=
  match v with
  | VDict d => match lookup d k with Some _ => true | None => false end
  | _ => false
  end.

(** [d[k]] for a string key. *)
Definition getitem (v : value) (k : string) : result value :=
  match v with
  | VDict d =>
      match lookup d k with
      | Some x => Ok x
      | None => Raise ("'" ++ k ++ "'")
      end
  | _ => Raise ("'" ++ type_name v ++ "' object is not subscriptable")
  end.

(** [d.get(k, default)] *)
Definition get (v : value) (k : string) (default : value) : result value :=
  match v with
  | VDict d =>
      match lookup d k with
      | Some x => Ok x
      | None => Ok default
      end
  | _ => Raise ("'" ++ type_name v ++ "' object has no attribute 'get'")
  end.

(** [len(x)] where the source calls it: on a list. *)
Definition len (v : value) : Z :=
  match v with
  | VList l => Z.of_nat (List.length l)
  | VDict d => Z.of_nat (List.length d)
  | VStr s => Str.len s
  | _ => 0%Z
  end.

(** [l[:n]] on a list: a negative bound counts from the end. *)
Definition take {A : Type} (l : list A) (n : Z) : list A :=
  firstn (Z.to_nat (Str.clamp (Z.of_nat (List.length l)) n)) l.

Fixpoint chars (s : string) : list value :=
  match s with
  | EmptyString => []
  | String c s' => VStr (String c EmptyString) :: chars s'
  end.

(** The items a [for] loop over [v] visits. *)
Definition iter (v : value) : result (list value) :=
  match v with
  | VList l => Ok l
  | VDict d => Ok (map (fun kv => VStr (fst kv)) d)
  | VStr s => Ok (chars s)
  | _ => Raise ("'" ++ type_name v ++ "' object is not iterable")
  end.

Definition is_digit (c : ascii) : bool :=
  let n := nat_of_ascii c in (48 <=? n) && (n <=? 57).

Definition digit (c : ascii) : Z := Z.of_nat (nat_of_ascii c - 48).

(** The white space [int()] skips around a literal: the ASCII white
    space, and U+0085 and U+00A0, which it turns into spaces before it
    reads the text.  U+001C to U+001F, which [str.strip] removes, are not
    skipped. *)
Definition int_space (c : ascii) : bool :=
  let n := nat_of_ascii c in
  ((9 <=? n) && (n <=? 13)) || (n =? 32) || (n =? 133) || (n =? 160).

Fixpoint skip_int_space (s : string) : string :=
  match s with
  | EmptyString => EmptyString
  | String c s' => if int_space c then skip_int_space s' else s
  end.

(** The decimal digits at the head of [s], with single underscores
    between them: their value, how many there are, and the text after
    them.  [None] for an underscore that does not stand between two
    digits. *)
Fixpoint int_digits (s : string) (acc count : Z) (after_digit : bool)
  : option (Z * Z * string) :=
  let stop :=
    if after_digit || (count =? 0)%Z then Some (acc, count, s) else None in
  match s with
  | EmptyString => stop
  | String c s' =>
      if is_digit c
      then int_digits s' (10 * acc + digit c)%Z (count + 1)%Z true
      else if Ascii.eqb c "_"%char
           then if after_digit then int_digits s' acc count false else None
           else stop
  end.

(** [int(s)] for a string, base 10: white space, a sign, the digits,
    white space; more than 4300 digits are refused (the default of
    [sys.set_int_max_str_digits]).  The message of an invalid literal
    quotes [s] as [repr] does a text without quotes and escapes. *)
Definition int_of_str (s : string) : result Z :=
  let bad := Raise ("invalid literal for int() with base 10: '" ++ s ++ "'") in
  let t := skip_int_space s in
  let signed :=
    match t with
    | String "-"%char ds => (true, ds)
    | String "+"%char ds => (false, ds)
    | ds => (false, ds)
    end in
  match int_digits (snd signed) 0 0 false with
  | None => bad
  | Some (z, count, rest) =>
      if (4300 <? count)%Z then
        Raise ("Exceeds the limit (4300 digits) for integer string conversion: "
               ++ "value has " ++ Str.of_Z count
               ++ " digits; use sys.set_int_max_str_digits() to increase the limit")
      else if (count =? 0)%Z then bad
      else
        match skip_int_space rest with
        | EmptyString => Ok (if fst signed then - z else z)%Z
        | String _ _ => bad
        end
  end.

(** [int(x)] *)
Definition int (v : value) : result Z :=
  match v with
  | VInt z => Ok z
  | VBool b => Ok (if b then 1 else 0)%Z
  | VFloat FNan => Raise "cannot convert float NaN to integer"
  | VFloat (FInf _) => Raise "cannot convert float infinity to integer"
  | VFloat (FFin m e) =>
      Ok (if (0 <=? e)%Z then m * 2 ^ e else Z.quot m (2 ^ (- e)))%Z
  | VStr s => int_of_str s
  | _ =>
      Raise ("int() argument must be a string, a bytes-like object or a "
             ++ "real number, not '" ++ type_name v ++ "'")
  end.

(** [str(x)] *)
Definition str `{Runtime} (v : value) : string :=
  match v with
  | VStr s => s
  | VInt z => Str.of_Z z
  | VBool true => "True"
  | VBool false => "False"
  | VNone => "None"
  | _ => py_repr v
  end.

End Py.

(* ------------------------------------------------------------------ *)
(** ** Generation client *)

(** What [generate_content] is called with. *)
Record Request : Type := mkRequest {
  model : string;
  contents : list (string * list string);
  temperature : pyfloat
}.

(** The client: the call raises, or returns a response whose [text] is a
    string or is missing ([None]). *)
Definition Client : Type := Request -> result (option string).

(** The floats 0.3 and 0.2. *)
Definition temperature_default : pyfloat := FFin 5404319552844595 (-54).
Definition temperature_mcq : pyfloat := FFin 3602879701896397 (-54).

Definition ask_model (client : Client) (model_id system user : string)
    (temperature : pyfloat) : string :=
  let contents :=
    [ ("user", ["SYSTEM:" ++ Str.nl ++ system]); ("user", [user]) ] in
  match client (mkRequest model_id contents temperature) with
  | Ok text =>
      Str.strip (match text with
                 | Some t => if Str.truthy t then t else ""
                 | None => ""
                 end)
  | Raise e => "(Gagal memanggil model: " ++ e ++ ")"
  end.

(* ------------------------------------------------------------------ *)
(** ** Quiz generation *)

Definition mcq_system : string :=
  "Anda adalah asisten edukasi. Bangun 5 soal pilihan ganda (MCQ) dari konteks."
  ++ " Jawab dalam Bahasa Indonesia semi-formal."
  ++ " Format output harus JSON list of objects: "
  ++ Str.replace "'"%char (String Str.dquote "")
       "[{'q':'...','a':['A','B','C','D'],'key':0}, ...] "
  ++ "di mana 'key' adalah index jawaban benar (0..3). Jangan menambahkan penjelasan di luar JSON.".

Definition mcq_user (context : string) (n : Z) : string :=
  "Konteks:" ++ Str.nl ++ context ++ Str.nlnl
  ++ "Buat " ++ Str.of_Z n ++ " soal MCQ seperti spesifikasi di atas.".

(** The test guarding [valid.append]. *)
Definition mcq_accepts (item : value) : bool :=
  Py.isinstance_dict item
  && Py.contains "q" item && Py.contains "a" item && Py.contains "key" item
  && match Py.getitem item "a" with
     | Ok a => Py.isinstance_list a && (4 <=? Py.len a)%Z
     | Raise _ => false
     end.

(** The dict appended for an accepted item. *)
Definition mcq_entry (item : value) : result value :=
  q <- Py.getitem item "q" ;;
  a <- Py.getitem item "a" ;;
  key <- Py.getitem item "key" ;;
  k <- Py.int key ;;
  Ok (VDict [ ("q", q);
              ("a", match a with
                    | VList l => VList (Py.take l 4)
                    | other => other
                    end);
              ("key", VInt k) ]).

(** The loop over [data]: [valid] after the loop. *)
Fixpoint mcq_loop (data : list value) (valid : list value)
  : result (list value) :=
  match data with
  | [] => Ok valid
  | item :: rest =>
      if mcq_accepts item
      then entry <- mcq_entry item ;; mcq_loop rest (valid ++ [entry])%list
      else mcq_loop rest valid
  end.

Section Quiz.
Context `{Runtime}.

(** The body of the [try] block of [gen_mcq]. *)
Definition mcq_parse (raw : string) (n : Z) : result (list value) :=
  let start := Str.find "["%char raw in
  let end_ := (Str.rfind "]"%char raw + 1)%Z in
  data <- json_loads (Str.slice raw start end_) ;;
  items <- Py.iter data ;;
  valid <- mcq_loop items [] ;;
  Ok (Py.take valid n).

Definition gen_mcq (client : Client) (model_id context : string) (n : Z)
  : list value :=
  let raw :=
    ask_model client model_id mcq_system (mcq_user context n) temperature_mcq in
  match mcq_parse raw n with
  | Ok valid => valid
  | Raise _ => []
  end.

End Quiz.

(* ------------------------------------------------------------------ *)
(** ** Delimited-text export *)

Section Csv.
Context `{Runtime}.

(** [r.get(c, "")] on a row *)
Definition row_get (r : list (string * value)) (c : string) : value :=
  match Py.lookup r c with
  | Some v => v
  | None => VStr ""
  end.

(** One value of a line: quotes doubled, then wrapped when it holds a
    comma or a newline. *)
Definition csv_field (x : value) : string :=
  let v := Str.replace Str.dquote
             (String Str.dquote (String Str.dquote "")) (Py.str x) in
  if Str.contains Str.comma v || Str.contains "010"%char v
  then String Str.dquote v ++ String Str.dquote ""
  else v.

Definition csv_line (cols : list string) (r : list (string * value)) : string :=
  Str.join "," (map (fun c => csv_field (row_get r c)) cols).

(** The text that [make_csv_bytes] encodes. *)
Definition csv_lines (rows : list (list (string * value))) : list string :=
  match rows with
  | [] => []
  | first :: _ =>
      let cols := map fst first in
      Str.join "," cols :: map (csv_line cols) rows
  end.

Definition make_csv_bytes (rows : list (list (string * value))) : list byte :=
  match rows with
  | [] => []
  | _ :: _ => encode_utf8 (Str.join Str.nl (csv_lines rows))
  end.

End Csv.

(* ------------------------------------------------------------------ *)
(** ** Session state, export and import *)

(** The keys of [st.session_state]; [last_quiz_result] may be absent. *)
Record Session : Type := mkSession {
  messages : value;
  kb_text : value;
  quiz : value;
  quiz_answers : value;
  last_quiz_result : option value
}.

Definition set_messages (v : value) (s : Session) : Session :=
  mkSession v (kb_text s) (quiz s) (quiz_answers s) (last_quiz_result s).

Definition set_kb_text (v : value) (s : Session) : Session :=
  mkSession (messages s) v (quiz s) (quiz_answers s) (last_quiz_result s).

Definition set_last_quiz_result (v : value) (s : Session) : Session :=
  mkSession (messages s) (kb_text s) (quiz s) (quiz_answers s) (Some v).

(** Statements that read and write the session and may raise. *)
Definition Stmt (A : Type) : Type := Session -> result A * Session.

Definition ret {A : Type} (a : A) : Stmt A := fun s => (Ok a, s).

Definition lift {A : Type} (r : result A) : Stmt A := fun s => (r, s).

Definition and_then {A B : Type} (m : Stmt A) (k : A -> Stmt B) : Stmt B :=
  fun s =>
    match m s with
    | (Ok a, s') => k a s'
    | (Raise e, s') => (Raise e, s')
    end.

Definition assign (f : Session -> Session) : Stmt unit :=
  fun s => (Ok tt, f s).

(** [try: body except Exception as e: handler(e)] *)
Definition try_except {A : Type} (body : Stmt A) (handler : string -> Stmt A)
  : Stmt A :=
  fun s =>
    match body s with
    | (Ok a, s') => (Ok a, s')
    | (Raise e, s') => handler e s'
    end.

Notation "x <~ m ;;; k" := (and_then m (fun x => k))
  (at level 61, m at next level, right associativity).
Notation "m ;;; k" := (and_then m (fun _ => k))
  (at level 61, right associativity).

(** What the handler shows: [st.success] or [st.error]. *)
Inductive notice : Type :=
| Success (msg : string)
| Error (msg : string).

Section SessionExport.
Context `{Runtime}.

(** The dict [dump] of the export tab. *)
Definition dump (s : Session) : value :=
  VDict [ ("messages", messages s);
          ("kb_text", kb_text s);
          ("last_quiz_result",
            match last_quiz_result s with
            | Some r => r
            | None => VNone
            end) ].

Definition json_bytes (s : Session) : list byte :=
  encode_utf8 (json_dumps (dump s)).

(** The import handler, for an uploaded document [up]. *)
Definition import_json (up : list byte) : Stmt notice :=
  try_except
    (data <~ lift (text <- decode_utf8 up ;; json_loads text) ;;;
     m <~ lift (Py.get data "messages" (VList [])) ;;;
     assign (set_messages m) ;;;
     k <~ lift (Py.get data "kb_text" (VStr "")) ;;;
     assign (set_kb_text k) ;;;
     q <~ lift (Py.get data "last_quiz_result" VNone) ;;;
     (if Py.truthy q
      then r <~ lift (Py.getitem data "last_quiz_result") ;;;
           assign (set_last_quiz_result r)
      else ret tt) ;;;
     ret (Success "Berhasil di-import. Buka tab Chat/Quiz untuk melihat hasilnya."))
    (fun e => ret (Error ("Gagal import JSON: " ++ e))).

End SessionExport.

(* ------------------------------------------------------------------ *)
(** ** A reference runtime

    A concrete instance of [Runtime], used to run the program on concrete
    inputs: the grammar and the rounding of Python's [json] module, UTF-8
    for code points up to U+00FF, and the recursive splitter with its
    default separators.  Characters above U+00FF are outside the character
    model and are reported as errors by the decoders. *)

Module Json.

Definition is_ws (c : ascii) : bool :=
  let n := nat_of_ascii c in
  (n =? 32) || (n =? 9) || (n =? 10) || (n =? 13).

Fixpoint skip_ws (s : string) : string :=
  match s with
  | EmptyString => EmptyString
  | String c s' => if is_ws c then skip_ws s' else s
  end.

Definition hex_val (c : ascii) : option nat :=
  let n := nat_of_ascii c in
  if (48 <=? n) && (n <=? 57) then Some (n - 48)
  else if (97 <=? n) && (n <=? 102) then Some (n - 87)
  else if (65 <=? n) && (n <=? 70) then Some (n - 55)
  else None.

(** The character an escape letter stands for. *)
Definition unescape (c : ascii) : option ascii :=
  let n := nat_of_ascii c in
  if n =? 34 then Some c
  else if n =? 92 then Some c
  else if n =? 47 then Some c
  else if n =? 98 then Some (ascii_of_nat 8)
  else if n =? 102 then Some (ascii_of_nat 12)
  else if n =? 110 then Some (ascii_of_nat 10)
  else if n =? 114 then Some (ascii_of_nat 13)
  else if n =? 116 then Some (ascii_of_nat 9)
  else None.

(** The characters of a string literal after its opening quote, and the
    text after its closing quote. *)
Fixpoint scan_string (s : string) : result (string * string) :=
  match s with
  | EmptyString => Raise "Unterminated string"
  | String c s' =>
      if Ascii.eqb c Str.dquote then Ok (EmptyString, s')
      else if Ascii.eqb c "\"%char then
        match s' with
        | EmptyString => Raise "Unterminated string"
        | String "u"%char (String h1 (String h2 (String h3 (String h4 s'')))) =>
            match hex_val h1, hex_val h2, hex_val h3, hex_val h4 with
            | Some a, Some b, Some c3, Some d =>
                let cp := ((a * 16 + b) * 16 + c3) * 16 + d in
                if cp <? 256
                then p <- scan_string s'' ;;
                     Ok (String (ascii_of_nat cp) (fst p), snd p)
                else Raise "character above U+00FF"
            | _, _, _, _ => Raise "Invalid \uXXXX escape"
            end
        | String "u"%char _ => Raise "Invalid \uXXXX escape"
        | String e s'' =>
            match unescape e with
            | Some ch => p <- scan_string s'' ;; Ok (String ch (fst p), snd p)
            | None => Raise "Invalid \escape"
            end
        end
      else if nat_of_ascii c <? 32 then Raise "Invalid control character"
      else p <- scan_string s' ;; Ok (String c (fst p), snd p)
  end.

(** The longest prefix of decimal digits, and the rest. *)
Fixpoint span_digits (s : string) : string * string :=
  match s with
  | EmptyString => (EmptyString, EmptyString)
  | String c s' =>
      if Py.is_digit c
      then let (ds, rest) := span_digits s' in (String c ds, rest)
      else (EmptyString, s)
  end.

Fixpoint digits_value (s : string) (acc : Z) : Z :=
  match s with
  | EmptyString => acc
  | String c s' => digits_value s' (10 * acc + Py.digit c)%Z
  end.

(** Drop the trailing zero bits of a mantissa. *)
Fixpoint normalize_pos (m : positive) (e : Z) : positive * Z :=
  match m with
  | xO m' => normalize_pos m' (e + 1)%Z
  | _ => (m, e)
  end.

Definition normalize (m e : Z) : pyfloat :=
  match m with
  | Z0 => FFin 0 0
  | Zpos p => let (q, e') := normalize_pos p e in FFin (Zpos q) e'
  | Zneg p => let (q, e') := normalize_pos p e in FFin (Zneg q) e'
  end.

(** The binary64 nearest to [num / den] (ties to even), for [0 <= num]
    and [0 < den]. *)
Definition round_binary64 (negative : bool) (num den : Z) : pyfloat :=
  if (num =? 0)%Z then FFin 0 0
  else
    let e0 := (Z.log2 num - Z.log2 den - 52)%Z in
    let quo (e : Z) : Z * Z :=
      if (0 <=? e)%Z then (num / (den * 2 ^ e), den * 2 ^ e)%Z
      else ((num * 2 ^ (- e)) / den, den)%Z in
    let rem (e : Z) : Z :=
      if (0 <=? e)%Z then (num mod (den * 2 ^ e))%Z
      else ((num * 2 ^ (- e)) mod den)%Z in
    let e1 := if (fst (quo e0) <? 2 ^ 52)%Z then (e0 - 1)%Z else e0 in
    let e := Z.max e1 (-1074) in
    let q := fst (quo e) in
    let d := snd (quo e) in
    let r := rem e in
    let q' :=
      if (d <? 2 * r)%Z then (q + 1)%Z
      else if (d =? 2 * r)%Z && Z.odd q then (q + 1)%Z
      else q in
    if (971 <? e)%Z || ((e =? 971)%Z && (2 ^ 53 <=? q')%Z) then FInf negative
    else normalize (if negative then - q' else q')%Z e.

(** The float of a literal with integer digits [ip], fraction digits [fp]
    and decimal exponent [ex]. *)
Definition float_of_parts (negative : bool) (ip fp : string) (ex : Z)
  : pyfloat :=
  let m := digits_value (ip ++ fp) 0 in
  let e10 := (ex - Z.of_nat (String.length fp))%Z in
  if (0 <=? e10)%Z then round_binary64 negative (m * 10 ^ e10)%Z 1
  else round_binary64 negative m (10 ^ (- e10))%Z.

(** The integer part of a number: [0] or a digit run without leading
    zero. *)
Definition span_int (s : string) : string * string :=
  match s with
  | String "0"%char s' => ("0", s')
  | _ => span_digits s
  end.

(** The optional fraction: a dot followed by at least one digit. *)
Definition span_frac (s : string) : string * string :=
  match s with
  | String "."%char s' =>
      match span_digits s' with
      | (EmptyString, _) => (EmptyString, s)
      | (ds, rest) => (ds, rest)
      end
  | _ => (EmptyString, s)
  end.

(** The optional exponent: [e] or [E], a sign, at least one digit. *)
Definition span_exp (s : string) : option Z * string :=
  match s with
  | String c s' =>
      if Ascii.eqb c "e"%char || Ascii.eqb c "E"%char then
        let (negative, s'') :=
          match s' with
          | String "-"%char t => (true, t)
          | String "+"%char t => (false, t)
          | _ => (false, s')
          end in
        match span_digits s'' with
        | (EmptyString, _) => (None, s)
        | (ds, rest) =>
            (Some (if negative then - digits_value ds 0
                   else digits_value ds 0)%Z, rest)
        end
      else (None, s)
  | EmptyString => (None, s)
  end.

(** A number at the head of [s]. *)
Definition scan_number (s : string) : option (value * string) :=
  let (negative, s1) :=
    match s with
    | String "-"%char t => (true, t)
    | _ => (false, s)
    end in
  match span_int s1 with
  | (EmptyString, _) => None
  | (ip, s2) =>
      let (fp, s3) := span_frac s2 in
      let (ex, s4) := span_exp s3 in
      match fp, ex with
      | EmptyString, None =>
          let z := digits_value ip 0 in
          Some (VInt (if negative then - z else z)%Z, s4)
      | _, _ =>
          Some (VFloat (float_of_parts negative ip fp
                          (match ex with Some x => x | None => 0%Z end)), s4)
      end
  end.

(** [s] without the prefix [p], when it starts with it. *)
Fixpoint strip_prefix (p s : string) : option string :=
  match p with
  | EmptyString => Some s
  | String a p' =>
      match s with
      | String b s' => if Ascii.eqb a b then strip_prefix p' s' else None
      | EmptyString => None
      end
  end.

Definition scan_word (word : string) (v : value) (s : string)
  : option (value * string) :=
  match strip_prefix word s with
  | Some rest => Some (v, rest)
  | None => None
  end.

(** The values that are neither strings, arrays nor objects. *)
Definition scan_atom (s : string) : result (value * string) :=
  let first {A : Type} (x y : option A) : option A :=
    match x with Some _ => x | None => y end in
  match
    first (scan_word "null" VNone s)
      (first (scan_word "true" (VBool true) s)
         (first (scan_word "false" (VBool false) s)
            (first (scan_number s)
               (first (scan_word "NaN" (VFloat FNan) s)
                  (first (scan_word "Infinity" (VFloat (FInf false)) s)
                     (scan_word "-Infinity" (VFloat (FInf true)) s))))))
  with
  | Some r => Ok r
  | None => Raise "Expecting value"
  end.

(** [scan_once]: one value at the head of [s]. [scan_items] reads the
    elements of an array after its first one is due, [scan_pairs] the
    members of an object after the opening quote of a key. *)
Fixpoint scan_once (fuel : nat) (s : string) : result (value * string) :=
  match fuel with
  | O => Raise "maximum recursion depth exceeded"
  | S fuel' =>
      match s with
      | EmptyString => Raise "Expecting value"
      | String c s' =>
          if Ascii.eqb c Str.dquote then
            p <- scan_string s' ;; Ok (VStr (fst p), snd p)
          else if Ascii.eqb c "["%char then
            match skip_ws s' with
            | String "]"%char rest => Ok (VList [], rest)
            | body =>
                p <- scan_items fuel' body ;; Ok (VList (fst p), snd p)
            end
          else if Ascii.eqb c "{"%char then
            match skip_ws s' with
            | String "}"%char rest => Ok (VDict [], rest)
            | String q body =>
                if Ascii.eqb q Str.dquote then
                  p <- scan_pairs fuel' body [] ;; Ok (VDict (fst p), snd p)
                else
                  Raise "Expecting property name enclosed in double quotes"
            | EmptyString =>
                Raise "Expecting property name enclosed in double quotes"
            end
          else scan_atom s
      end
  end

with scan_items (fuel : nat) (s : string) : result (list value * string) :=
  match fuel with
  | O => Raise "maximum recursion depth exceeded"
  | S fuel' =>
      p <- scan_once fuel' s ;;
      match skip_ws (snd p) with
      | String "]"%char rest => Ok ([fst p], rest)
      | String ","%char rest =>
          r <- scan_items fuel' (skip_ws rest) ;; Ok (fst p :: fst r, snd r)
      | _ => Raise "Expecting ',' delimiter"
      end
  end

with scan_pairs (fuel : nat) (s : string) (acc : list (string * value))
  : result (list (string * value) * string) :=
  match fuel with
  | O => Raise "maximum recursion depth exceeded"
  | S fuel' =>
      k <- scan_string s ;;
      match skip_ws (snd k) with
      | String ":"%char rest =>
          p <- scan_once fuel' (skip_ws rest) ;;
          let acc' := Py.store acc (fst k) (fst p) in
          match skip_ws (snd p) with
          | String "}"%char rest' => Ok (acc', rest')
          | String ","%char rest' =>
              match skip_ws rest' with
              | String q body =>
                  if Ascii.eqb q Str.dquote then scan_pairs fuel' body acc'
                  else
                    Raise "Expecting property name enclosed in double quotes"
              | EmptyString =>
                  Raise "Expecting property name enclosed in double quotes"
              end
          | _ => Raise "Expecting ',' delimiter"
          end
      | _ => Raise "Expecting ':' delimiter"
      end
  end.

(** [json.loads(s)] *)
Definition loads (s : string) : result value :=
  p <- scan_once (2 * String.length s + 2) (skip_ws s) ;;
  match skip_ws (snd p) with
  | EmptyString => Ok (fst p)
  | String _ _ => Raise "Extra data"
  end.

(** Four lowercase hexadecimal digits, as ['{0:04x}'.format(n)]. *)
Definition hex_digit (n : nat) : ascii :=
  if n <? 10 then ascii_of_nat (48 + n) else ascii_of_nat (87 + n).

Definition hex4 (n : nat) : string :=
  String (hex_digit ((n / 4096) mod 16))
    (String (hex_digit ((n / 256) mod 16))
       (String (hex_digit ((n / 16) mod 16))
          (String (hex_digit (n mod 16)) EmptyString))).

(** The escape of one character with [ensure_ascii=False]. *)
Definition escape_char (c : ascii) : string :=
  let n := nat_of_ascii c in
  if n =? 34 then String "\"%char (String c EmptyString)
  else if n =? 92 then "\\"
  else if n =? 10 then "\n"
  else if n =? 13 then "\r"
  else if n =? 9 then "\t"
  else if n =? 8 then "\b"
  else if n =? 12 then "\f"
  else if n <? 32 then "\u" ++ hex4 n
  else String c EmptyString.

Fixpoint escape (s : string) : string :=
  match s with
  | EmptyString => EmptyString
  | String c s' => escape_char c ++ escape s'
  end.

Definition quote (s : string) : string :=
  String Str.dquote (escape s) ++ String Str.dquote EmptyString.

(** The digits of [n] on exactly [width] places. *)
Fixpoint pad_digits (width : nat) (n : Z) : string :=
  match width with
  | O => EmptyString
  | S w =>
      pad_digits w (n / 10)%Z
      ++ String (ascii_of_nat (48 + Z.to_nat (n mod 10))) EmptyString
  end.

(** A float written by its exact decimal expansion, which reads back to
    the same float (CPython writes the shortest such decimal). *)
Definition float_text (f : pyfloat) : string :=
  match f with
  | FNan => "NaN"
  | FInf false => "Infinity"
  | FInf true => "-Infinity"
  | FFin m e =>
      let sign := if (m <? 0)%Z then "-" else "" in
      let a := Z.abs m in
      if (0 <=? e)%Z then sign ++ Str.of_Z (a * 2 ^ e) ++ ".0"
      else
        let k := Z.to_nat (- e) in
        let scaled := (a * 5 ^ (- e))%Z in
        sign ++ Str.of_Z (scaled / 10 ^ (- e)) ++ "."
        ++ pad_digits k (scaled mod 10 ^ (- e))
  end.

Fixpoint indent (level : nat) : string :=
  match level with
  | O => EmptyString
  | S l => "  " ++ indent l
  end.

(** The text of [v] at nesting depth [level] with [indent=2], followed by
    [k]: the chunks the encoder yields, in order, and then [k]. *)
Fixpoint emit (v : value) (level : nat) (k : string) : string :=
  match v with
  | VNone => "null" ++ k
  | VBool true => "true" ++ k
  | VBool false => "false" ++ k
  | VInt z => Str.of_Z z ++ k
  | VFloat f => float_text f ++ k
  | VStr s => quote s ++ k
  | VList [] => "[]" ++ k
  | VList (x :: xs) =>
      "[" ++ Str.nl ++ indent (S level)
      ++ emit x (S level)
           ((fix items (xs : list value) : string :=
               match xs with
               | [] => Str.nl ++ indent level ++ "]" ++ k
               | y :: ys =>
                   "," ++ Str.nl ++ indent (S level)
                   ++ emit y (S level) (items ys)
               end) xs)
  | VDict [] => "{}" ++ k
  | VDict ((key, x) :: more) =>
      "{" ++ Str.nl ++ indent (S level)
      ++ quote key ++ ": "
      ++ emit x (S level)
           ((fix fields (more : list (string * value)) : string :=
               match more with
               | [] => Str.nl ++ indent level ++ "}" ++ k
               | (key', y) :: more' =>
                   "," ++ Str.nl ++ indent (S level)
                   ++ quote key' ++ ": "
                   ++ emit y (S level) (fields more')
               end) more)
  end.

(** The text after the first element of a list, and after the first
    member of a dict. *)
Fixpoint emit_items (level : nat) (k : string) (xs : list value) : string :=
  match xs with
  | [] => Str.nl ++ indent level ++ "]" ++ k
  | y :: ys =>
      "," ++ Str.nl ++ indent (S level)
      ++ emit y (S level) (emit_items level k ys)
  end.

Fixpoint emit_fields (level : nat) (k : string)
    (more : list (string * value)) : string :=
  match more with
  | [] => Str.nl ++ indent level ++ "}" ++ k
  | (key', y) :: more' =>
      "," ++ Str.nl ++ indent (S level)
      ++ quote key' ++ ": "
      ++ emit y (S level) (emit_fields level k more')
  end.

(** [json.dumps(v, ensure_ascii=False, indent=2)] *)
Definition dumps (v : value) : string := emit v 0 EmptyString.

End Json.

(** [bytes.decode("utf-8")] for code points up to U+00FF. *)
Fixpoint decode_utf8_latin (bs : list byte) : result string :=
  match bs with
  | [] => Ok EmptyString
  | b :: rest =>
      let n := Byte.to_nat b in
      if n <? 128 then
        s <- decode_utf8_latin rest ;; Ok (String (ascii_of_byte b) s)
      else if (n =? 194) || (n =? 195) then
        match rest with
        | b2 :: rest' =>
            let n2 := Byte.to_nat b2 in
            if (128 <=? n2) && (n2 <? 192) then
              s <- decode_utf8_latin rest' ;;
              Ok (String (ascii_of_nat ((n - 192) * 64 + (n2 - 128))) s)
            else Raise "'utf-8' codec can't decode byte: invalid continuation byte"
        | [] => Raise "'utf-8' codec can't decode byte: unexpected end of data"
        end
      else if (196 <=? n) && (n <=? 244) then Raise "character above U+00FF"
      else Raise "'utf-8' codec can't decode byte: invalid start byte"
  end.

(** The recursive character splitter with its default separators, kept
    separators and stripped chunks. *)
Module Splitter.

(** [text] cut at every occurrence of [sep]; [skip] characters of a
    separator found earlier are still to be passed over. *)
Fixpoint split_on (sep : string) (skip : nat) (text cur : string)
  : list string :=
  match text with
  | EmptyString => [cur]
  | String c text' =>
      match skip with
      | S k => split_on sep k text' cur
      | O =>
          if String.prefix sep text
          then cur :: split_on sep (String.length sep - 1) text' EmptyString
          else split_on sep 0 text' (cur ++ String c EmptyString)
      end
  end.

Fixpoint occurs (sep text : string) : bool :=
  match text with
  | EmptyString => false
  | String _ text' => String.prefix sep text || occurs sep text'
  end.

Fixpoint each_char (text : string) : list string :=
  match text with
  | EmptyString => []
  | String c text' => String c EmptyString :: each_char text'
  end.

(** The pieces of [text], each later piece keeping its separator in
    front; empty pieces are dropped. *)
Definition split_keep (sep text : string) : list string :=
  match sep with
  | EmptyString => each_char text
  | _ =>
      match split_on sep 0 text EmptyString with
      | [] => []
      | p :: ps => filter Str.truthy (p :: map (fun x => sep ++ x) ps)
      end
  end.

(** Drop pieces from the front of the current chunk while it is longer
    than the overlap, or too long to take the next piece. *)
Fixpoint pop_front (size overlap next : Z) (doc : list string) : list string :=
  match doc with
  | [] => []
  | d :: rest =>
      let total := Str.total_len doc in
      if (overlap <? total)%Z || ((size <? total + next)%Z && (0 <? total)%Z)
      then pop_front size overlap next rest
      else doc
  end.

Definition join_doc (doc : list string) : list string :=
  let text := Str.strip (Str.join EmptyString doc) in
  if Str.truthy text then [text] else [].

Fixpoint merge_splits (size overlap : Z) (splits : list string)
    (current : list string) : list string :=
  match splits with
  | [] => join_doc current
  | d :: rest =>
      if (size <? Str.total_len current + Str.len d)%Z then
        match current with
        | [] => merge_splits size overlap rest [d]
        | _ :: _ =>
            (join_doc current
             ++ merge_splits size overlap rest
                  (pop_front size overlap (Str.len d) current ++ [d]))%list
        end
      else merge_splits size overlap rest (current ++ [d])%list
  end.

(** The loop over the pieces: short ones are collected and merged, a
    long one is cut again by [deeper]. *)
Fixpoint gather (size overlap : Z) (deeper : option (string -> list string))
    (splits good : list string) : list string :=
  match splits with
  | [] =>
      match good with
      | [] => []
      | _ :: _ => merge_splits size overlap good []
      end
  | s :: rest =>
      if (Str.len s <? size)%Z
      then gather size overlap deeper rest (good ++ [s])%list
      else
        ((match good with
          | [] => []
          | _ :: _ => merge_splits size overlap good []
          end)
         ++ (match deeper with
             | Some f => f s
             | None => [s]
             end)
         ++ gather size overlap deeper rest [])%list
  end.

Fixpoint split_with (size overlap : Z) (separators : list string)
    (text : string) : list string :=
  match separators with
  | [] => gather size overlap None (split_keep EmptyString text) []
  | sep :: rest =>
      if Str.is_empty sep
      then gather size overlap None (split_keep sep text) []
      else if occurs sep text
      then
        gather size overlap
          (match rest with
           | [] => None
           | _ :: _ => Some (split_with size overlap rest)
           end)
          (split_keep sep text) []
      else split_with size overlap rest text
  end.

Definition split_text (size overlap : Z) (text : string) : list string :=
  split_with size overlap [Str.nlnl; Str.nl; " "; EmptyString] text.

End Splitter.

(** [repr] of a float, a list or a dict; strings inside are written
    between single quotes without escapes. *)
Fixpoint repr (v : value) : string :=
  match v with
  | VNone => "None"
  | VBool true => "True"
  | VBool false => "False"
  | VInt z => Str.of_Z z
  | VFloat FNan => "nan"
  | VFloat (FInf false) => "inf"
  | VFloat (FInf true) => "-inf"
  | VFloat f => Json.float_text f
  | VStr s => "'" ++ s ++ "'"
  | VList items => "[" ++ Str.join ", " (map repr items) ++ "]"
  | VDict fields =>
      "{" ++ Str.join ", "
               (map (fun kv : string * value => let (k, x) := kv in
                               "'" ++ k ++ "': " ++ repr x) fields)
      ++ "}"
  end.

#[export] Instance reference_runtime : Runtime := {|
  decode_utf8 := decode_utf8_latin;
  pdf_ok := false;
  pdf_pages := fun _ => Raise "PyPDF2 is not installed";
  split_text := Splitter.split_text;
  json_loads := Json.loads;
  json_dumps := Json.dumps;
  py_repr := repr
|}.

(* ------------------------------------------------------------------ *)
(** ** Quiz grading *)

(** Operators of the grading code. *)
Module Op.

(** A number as a float: an [int] or a [bool] is the dyadic [z * 2^0]. *)
Definition number (v : value) : option pyfloat :=
  match v with
  | VInt z => Some (FFin z 0)
  | VBool b => Some (FFin (if b then 1 else 0) 0)
  | VFloat f => Some f
  | _ => None
  end.

(** Equality of two numbers by their exact values; a NaN equals nothing. *)
Definition float_eq (f g : pyfloat) : bool :=
  match f, g with
  | FFin m e, FFin m' e' =>
      let k := Z.min e e' in
      (m * 2 ^ (e - k) =? m' * 2 ^ (e' - k))%Z
  | FInf a, FInf b => Bool.eqb a b
  | _, _ => false
  end.

(** [x == y] on values.  Numbers compare by value across [bool], [int]
    and [float]; lists compare element by element; dicts compare as
    mappings.  Object identity is not part of the model. *)
Fixpoint eq (x y : value) : bool :=
  match x, y with
  | VNone, VNone => true
  | VStr s, VStr t => String.eqb s t
  | VList xs, VList ys =>
      (fix all (xs ys : list value) : bool :=
         match xs, ys with
         | [], [] => true
         | a :: xs', b :: ys' => eq a b && all xs' ys'
         | _, _ => false
         end) xs ys
  | VDict d, VDict d' =>
      (List.length d =? List.length d')
      && (fix all (d : list (string * value)) : bool :=
            match d with
            | [] => true
            | (k, a) :: rest =>
                match Py.lookup d' k with
                | Some b => eq a b
                | None => false
                end && all rest
            end) d
  | _, _ =>
      match number x, number y with
      | Some f, Some g => float_eq f g
      | _, _ => false
      end
  end.

(** [seq[i]] *)
Definition index (seq i : value) : result value :=
  match seq with
  | VList l =>
      match i with
      | VInt _ | VBool _ =>
          let k := match i with
                   | VInt z => z
                   | VBool true => 1%Z
                   | _ => 0%Z
                   end in
          let n := Z.of_nat (List.length l) in
          let k' := if (k <? 0)%Z then (k + n)%Z else k in
          if (0 <=? k')%Z && (k' <? n)%Z
          then match nth_error l (Z.to_nat k') with
               | Some x => Ok x
               | None => Raise "list index out of range"
               end
          else Raise "list index out of range"
      | _ =>
          Raise ("list indices must be integers or slices, not "
                 ++ Py.type_name i)
      end
  | VStr s =>
      match i with
      | VInt _ | VBool _ =>
          let k := match i with
                   | VInt z => z
                   | VBool true => 1%Z
                   | _ => 0%Z
                   end in
          let n := Str.len s in
          let k' := if (k <? 0)%Z then (k + n)%Z else k in
          if (0 <=? k')%Z && (k' <? n)%Z
          then match String.get (Z.to_nat k') s with
               | Some c => Ok (VStr (String c EmptyString))
               | None => Raise "string index out of range"
               end
          else Raise "string index out of range"
      | _ => Raise "string indices must be integers"
      end
  | VDict _ =>
      match i with
      | VStr k => Py.getitem seq k
      | _ => Raise (Py.type_name i)
      end
  | _ => Raise ("'" ++ Py.type_name seq ++ "' object is not subscriptable")
  end.

(** [a / b] on two [int]s: the float nearest to the quotient. *)
Definition truediv (a b : Z) : result pyfloat :=
  if (b =? 0)%Z then Raise "division by zero"
  else
    match Json.round_binary64 (Z.sgn a * Z.sgn b =? -1)%Z
            (Z.abs a) (Z.abs b) with
    | FInf _ => Raise "integer division result too large for a float"
    | f => Ok f
    end.

End Op.

(** The key of the radio widget of question [i]. *)
Definition mcq_widget (i : Z) : string := "mcq_" ++ Str.of_Z i.

(** One turn of the grading loop: the row of question [i] and whether
    the answer is the correct option. *)
Definition grade_item (answers : value) (i : Z) (item : value)
  : result (value * bool) :=
  user_ans <- Py.get answers (mcq_widget i) VNone ;;
  a <- Py.getitem item "a" ;;
  key <- Py.getitem item "key" ;;
  correct <- Op.index a key ;;
  let ok := Op.eq user_ans correct in
  q <- Py.getitem item "q" ;;
  Ok (VDict [ ("no", VInt i); ("question", q);
              ("answer", if Py.truthy user_ans then user_ans else VStr "");
              ("correct", correct); ("is_correct", VBool ok) ],
      ok).

(** The loop over [enumerate(quiz, start=1)], from question [i] on:
    [rows] and [benar] after the loop. *)
Fixpoint grade_loop (answers : value) (i : Z) (quiz : list value)
    (rows : list value) (benar : Z) : result (list value * Z) :=
  match quiz with
  | [] => Ok (rows, benar)
  | item :: rest =>
      r <- grade_item answers i item ;;
      grade_loop answers (i + 1)%Z rest (rows ++ [fst r])%list
        (benar + (if snd r then 1 else 0))%Z
  end.

(** [int(100 * benar / len(quiz))] *)
Definition score_of (benar n : Z) : result Z :=
  f <- Op.truediv (100 * benar) n ;; Py.int (VFloat f).

(** The handler of the button that submits the answers; [now] is
    [dt.datetime.now().isoformat()]. *)
Definition submit_quiz (now : string) : Stmt unit :=
  fun s =>
    if Py.truthy (quiz s) then
      (items <~ lift (Py.iter (quiz s)) ;;;
       graded <~ lift (grade_loop (quiz_answers s) 1 items [] 0) ;;;
       score <~ lift (score_of (snd graded) (Py.len (quiz s))) ;;;
       assign (set_last_quiz_result
                 (VDict [ ("score", VInt score); ("rows", VList (fst graded));
                          ("created_at", VStr now) ]))) s
    else (Ok tt, s).

(* ------------------------------------------------------------------ *)
(** ** The rows of the export tab *)

(** [[f(m) for m in xs]] where [f] may raise. *)
Fixpoint comprehension {A B : Type} (f : nat -> A -> result B) (i : nat)
    (xs : list A) : result (list B) :=
  match xs with
  | [] => Ok []
  | x :: rest =>
      y <- f i x ;; ys <- comprehension f (S i) rest ;; Ok (y :: ys)
  end.

(** The loop of the chat tab that shows the history, run at every run of
    the script before the export tab: the role and the text of every
    message, in order, when the loop completes.  The widgets themselves
    are not modelled. *)
Definition show_history (messages : value) : result (list (value * value)) :=
  ms <- Py.iter messages ;;
  comprehension
    (fun _ m =>
       role <- Py.getitem m "role" ;;
       text <- Py.getitem m "text" ;;
       Ok (role, text))
    0 ms.

(** The rows of the chat export; [now i] is what
    [dt.datetime.now().isoformat()] returns for the message at index [i]. *)
Definition chat_rows (now : nat -> string) (messages : value)
  : result (list (list (string * value))) :=
  ms <- Py.iter messages ;;
  comprehension
    (fun i m =>
       role <- Py.getitem m "role" ;;
       text <- Py.getitem m "text" ;;
       Ok [ ("ts", VStr (now i)); ("role", role); ("text", text) ])
    0 ms.

(** The rows of the quiz export, from the stored result [qr]. *)
Definition quiz_rows (qr : value) : result (list (list (string * value))) :=
  rows <- Py.getitem qr "rows" ;;
  rs <- Py.iter rows ;;
  comprehension
    (fun _ r =>
       no <- Py.getitem r "no" ;;
       question <- Py.getitem r "question" ;;
       answer <- Py.getitem r "answer" ;;
       correct <- Py.getitem r "correct" ;;
       is_correct <- Py.getitem r "is_correct" ;;
       Ok [ ("no", no); ("question", question); ("user_answer", answer);
            ("correct", correct); ("is_correct", is_correct) ])
    0 rs.

Section ExportTab.
Context `{Runtime}.

(** [chat_csv] and [quiz_csv] of the export tab. *)
Definition chat_csv (now : nat -> string) (s : Session) : result (list byte) :=
  rows <- chat_rows now (messages s) ;; Ok (make_csv_bytes rows).

Definition quiz_csv (s : Session) : option (result (list byte)) :=
  match last_quiz_result s with
  | Some qr => Some (rows <- quiz_rows qr ;; Ok (make_csv_bytes rows))
  | None => None
  end.

End ExportTab.

(* ------------------------------------------------------------------ *)
(** ** Inputs and shapes the statements refer to *)

(** Twenty-one paragraphs of 1190 characters, and the text made of them
    with blank lines in between. *)
Definition kb_overflow_chunks : list string :=
  repeat (Str.replicate 1190 "a"%char) 21.

Definition kb_overflow_text : string := Str.join Str.nlnl kb_overflow_chunks.

(** JSON text written with apostrophes in place of double quotes. *)
Definition jtext (s : string) : string :=
  Str.replace "'"%char (String Str.dquote EmptyString) s.

(** A chat row whose text holds double quotes and neither a comma nor a
    line break. *)
Definition csv_quote_rows : list (list (string * value)) :=
  [ [ ("text", VStr (jtext "say 'hi'")) ] ].

(** Two records of different shapes: the second lacks the key [a] of the
    first and has a key [z] of its own. *)
Definition ragged_rows : list (list (string * value)) :=
  [ [ ("a", VInt 1); ("b", VInt 2) ]; [ ("b", VInt 3); ("z", VInt 9) ] ].

(** A row without the entries whose key is not in [cols]. *)
Definition restrict (cols : list string) (r : list (string * value))
  : list (string * value) :=
  filter (fun kv => existsb (String.eqb (fst kv)) cols) r.

(** A quiz item as [gen_mcq] builds it: the question, four options and
    an integer key. *)
Definition is_quiz_item (item : value) : Prop :=
  exists (q : value) (a : list value) (k : Z),
    item = VDict [ ("q", q); ("a", VList a); ("key", VInt k) ]
    /\ List.length a = 4.

(** Whether the options of an item are four strings. *)
Definition options_are_strings (item : value) : bool :=
  match Py.getitem item "a" with
  | Ok (VList a) => (List.length a =? 4) && forallb Py.isinstance_str a
  | _ => false
  end.

(** The entries appended for the items of [data] that pass the test and
    whose key converts. *)
Definition mcq_entries (data : list value) : list value :=
  flat_map (fun item =>
              if mcq_accepts item
              then match mcq_entry item with
                   | Ok entry => [entry]
                   | Raise _ => []
                   end
              else []) data.

(** Every text [s[i:j]] of [s]. *)
Definition substrings (s : string) : list string :=
  flat_map (fun i =>
              map (fun m => String.substring i m s)
                  (seq 0 (S (String.length s))))
           (seq 0 (S (String.length s))).

(** Whether some part of [raw] reads as a JSON array. *)
Definition has_json_array `{Runtime} (raw : string) : bool :=
  existsb (fun sub => match json_loads sub with
                      | Ok (VList _) => true
                      | _ => false
                      end) (substrings raw).

(** A response cut off in the middle of the second item: the text from
    the first to the last bracket is malformed, and holds a well-formed
    option list. *)
Definition truncated_response : string :=
  jtext ("[{'q':'Q1','a':['A','B','C','D'],'key':0},"
         ++ " {'q':'Q2','a':['A','B','C','D'],'ke").

(** A client that answers every request with [text]. *)
Definition answering (text : string) : Client := fun _ => Ok (Some text).

(** The response of the scenario: one line of prose, then an array with
    one well-formed item. *)
Definition scenario_prose : string := "Here are your questions:" ++ Str.nl.

Definition scenario_mid : string :=
  jtext "{'q':'Q1','a':['A','B','C','D'],'key':2}".

Definition scenario_response : string :=
  scenario_prose ++ "[" ++ scenario_mid ++ "]".

Definition scenario_items : list value :=
  [ VDict [ ("q", VStr "Q1");
            ("a", VList [VStr "A"; VStr "B"; VStr "C"; VStr "D"]);
            ("key", VInt 2) ] ].

(** Responses for the corner cases of the validation: options that are
    numbers, three well-formed items, and a well-formed item followed by
    one whose key is [null]. *)
Definition numeric_options_response : string :=
  jtext "[{'q':'Q','a':[1,2,3,4],'key':0}]".

Definition three_items_response : string :=
  jtext ("[{'q':'Q1','a':['A','B','C','D'],'key':0},"
         ++ "{'q':'Q2','a':['A','B','C','D'],'key':1},"
         ++ "{'q':'Q3','a':['A','B','C','D'],'key':2}]").

Definition null_key_response : string :=
  jtext ("[{'q':'Q1','a':['A','B','C','D'],'key':2},"
         ++ "{'q':'Q2','a':['A','B','C','D'],'key':null}]").

Definition null_key_item : value :=
  VDict [ ("q", VStr "Q2");
          ("a", VList [VStr "A"; VStr "B"; VStr "C"; VStr "D"]);
          ("key", VNone) ].

(** The dict stored under [last_quiz_result] when a quiz is graded. *)
Definition quiz_result (score : Z) (rows : list value) (created_at : string)
  : value :=
  VDict [ ("score", VInt score); ("rows", VList rows);
          ("created_at", VStr created_at) ].

(** The messages of a chat, as the chat tab appends them. *)
Definition chat_turn (role text : string) : value :=
  VDict [ ("role", VStr role); ("text", VStr text) ].

(** A session with two chat turns, a knowledge text and a graded quiz,
    and the session of a fresh start. *)
Definition sample_session : Session :=
  mkSession
    (VList [ chat_turn "user" (jtext "Apa itu 'sel'?");
             chat_turn "assistant"
               ("Sel adalah unit terkecil kehidupan." ++ Str.nl
                ++ "*Sumber: KB*") ])
    (VStr ("Sel adalah unit terkecil kehidupan." ++ Str.nlnl
           ++ "Mitokondria menghasilkan energi."))
    (VList scenario_items)
    (VDict [ ("mcq_1", VStr "C") ])
    (Some (quiz_result 100
             [ VDict [ ("no", VInt 1); ("question", VStr "Q1");
                       ("answer", VStr "C"); ("correct", VStr "C");
                       ("is_correct", VBool true) ] ]
             "2024-05-01T10:00:00.000000")).

Definition fresh_session : Session :=
  mkSession (VList []) (VStr "") (VList []) (VDict []) None.

(** Values the reference printer and parser agree on: no float inside,
    and no key twice in a dict. *)
Fixpoint distinct (keys : list string) : bool :=
  match keys with
  | [] => true
  | k :: rest => negb (existsb (String.eqb k) rest) && distinct rest
  end.

Fixpoint plain (v : value) : bool :=
  match v with
  | VFloat _ => false
  | VList items => forallb plain items
  | VDict fields =>
      distinct (map fst fields)
      && (fix all (fields : list (string * value)) : bool :=
            match fields with
            | [] => true
            | (_, x) :: rest => plain x && all rest
            end) fields
  | _ => true
  end.

Fixpoint plain_fields (fields : list (string * value)) : bool :=
  match fields with
  | [] => true
  | (_, x) :: rest => plain x && plain_fields rest
  end.

(** The number of nodes of a value, counting every element and member
    once more: a bound on the depth of calls the parser needs. *)
Fixpoint weight (v : value) : nat :=
  match v with
  | VList items =>
      S ((fix sum (items : list value) : nat :=
            match items with
            | [] => 0
            | x :: rest => S (weight x + sum rest)
            end) items)
  | VDict fields =>
      S ((fix sum (fields : list (string * value)) : nat :=
            match fields with
            | [] => 0
            | (_, x) :: rest => S (weight x + sum rest)
            end) fields)
  | _ => 1
  end.

Fixpoint weight_items (items : list value) : nat :=
  match items with
  | [] => 0
  | x :: rest => S (weight x + weight_items rest)
  end.

Fixpoint weight_fields (fields : list (string * value)) : nat :=
  match fields with
  | [] => 0
  | (_, x) :: rest => S (weight x + weight_fields rest)
  end.

(** What comes after a value in printed text: nothing, a comma or a line
    break. *)
Definition follow (k : string) : bool :=
  match k with
  | EmptyString => true
  | String c _ => Ascii.eqb c ","%char || Ascii.eqb c "010"%char
  end.

(** Whether a session holds plain values only. *)
Definition plain_session (s : Session) : bool :=
  plain (messages s) && plain (kb_text s)
  && match last_quiz_result s with
     | Some r => plain r
     | None => true
     end.

(* ------------------------------------------------------------------ *)
(** ** Further inputs and shapes *)

(** The texts collected by [build_kb_text] and the text it splits. *)
Definition kb_texts `{Runtime} (files : list File) (pasted_text : string)
  : list string :=
  (file_texts files
   ++ (if Str.truthy (Str.strip pasted_text)
       then [Str.strip pasted_text] else []))%list.

Definition kb_full `{Runtime} (files : list File) (pasted_text : string)
  : string :=
  Str.join Str.nlnl (filter Str.truthy (kb_texts files pasted_text)).

(** The chunks the budget loop runs over: none when there is no text. *)
Definition kb_chunks `{Runtime} (files : list File) (pasted_text : string)
  : list string :=
  if Str.truthy (kb_full files pasted_text)
  then split_text 1200 150 (kb_full files pasted_text) else [].

(** File names the upload loop reads. *)
Definition is_text_name (f : File) : bool :=
  Str.endswith (Str.lower (name f)) ".txt"
  || Str.endswith (Str.lower (name f)) ".md".

Definition is_pdf_name (f : File) : bool :=
  Str.endswith (Str.lower (name f)) ".pdf".

(** Whether the key of an element converts with [int()]. *)
Definition key_converts (item : value) : bool :=
  match Py.getitem item "key" with
  | Ok key => match Py.int key with Ok _ => true | Raise _ => false end
  | Raise _ => false
  end.

(** The request [gen_mcq] sends. *)
Definition mcq_request (model_id context : string) (n : Z) : Request :=
  mkRequest model_id
    [ ("user", ["SYSTEM:" ++ Str.nl ++ mcq_system]);
      ("user", [mcq_user context n]) ]
    temperature_mcq.

(** A response that mixes well-formed elements with others. *)
Definition mixed_response : string :=
  jtext ("Berikut soalnya: [7, 'teks', {'q':'Q1','a':['A','B','C','D','E'],'key':'3','hint':'x'},"
         ++ " {'q':'Q2','a':['A','B','C'],'key':0}, {'q':'Q3','a':['A','B','C','D'],'key':true},"
         ++ " {'a':['A','B','C','D'],'key':1}, {'q':'Q4','a':['A','B','C','D'],'key':9}] Selamat belajar!").

(** Whether the key of a quiz item indexes one of its four options,
    counting from the front or, when negative, from the back. *)
Definition key_in_range (item : value) : bool :=
  match Py.getitem item "key" with
  | Ok (VInt k) => (-4 <=? k)%Z && (k <? 4)%Z
  | _ => false
  end.

(** The rows of a graded quiz that are marked correct. *)
Definition marked_correct (row : value) : bool :=
  match Py.getitem row "is_correct" with
  | Ok (VBool true) => true
  | _ => false
  end.

Definition correct_rows (rows : list value) : Z :=
  Z.of_nat (List.length (filter marked_correct rows)).

(** Whether [score_of] is the quotient rounded down, for every quiz of at
    most [bound] questions. *)
Definition score_table (bound : nat) : bool :=
  forallb (fun n =>
             forallb (fun b =>
                        match score_of (Z.of_nat b) (Z.of_nat n) with
                        | Ok z => (z =? 100 * Z.of_nat b / Z.of_nat n)%Z
                        | Raise _ => false
                        end)
                     (seq 0 (S n)))
          (seq 1 bound).

(** A quiz of three items, the last with the key -1, and the answers
    given to it; the same quiz with a key out of range. *)
Definition sample_item (q : string) (k : Z) : value :=
  VDict [ ("q", VStr q);
          ("a", VList [VStr "A"; VStr "B"; VStr "C"; VStr "D"]);
          ("key", VInt k) ].

Definition graded_session (keys : list Z) : Session :=
  mkSession (VList []) (VStr "Sel adalah unit terkecil kehidupan.")
    (VList (map (sample_item "Q") keys))
    (VDict [ ("mcq_1", VStr "A"); ("mcq_2", VNone); ("mcq_3", VStr "D") ])
    None.

(** The line of a record whose values are written in their own order. *)
Definition csv_values `{Runtime} (r : list (string * value)) : string :=
  Str.join "," (map (fun kv => csv_field (snd kv)) r).

(** Two records, the second with a comma, a quote and a line break. *)
Definition uniform_rows : list (list (string * value)) :=
  [ [ ("ts", VStr "2024-05-01T10:00:00"); ("role", VStr "user");
      ("text", VStr "Apa itu sel?") ];
    [ ("ts", VStr "2024-05-01T10:00:05"); ("role", VStr "assistant");
      ("text", VStr (jtext "Sel, atau 'cell'," ++ Str.nl ++ "adalah unit.")) ] ].

(** The value under [k] of a parsed document, or [default]. *)
Definition field_or (d : list (string * value)) (k : string) (default : value)
  : value :=
  match Py.lookup d k with
  | Some x => x
  | None => default
  end.

(** The chat turns of a list of (role, text) pairs, and the pairs with
    their positions. *)
Definition turns (pairs : list (value * value)) : value :=
  VList (map (fun p => VDict [ ("role", fst p); ("text", snd p) ]) pairs).

Fixpoint numbered {A : Type} (i : nat) (xs : list A) : list (nat * A) :=
  match xs with
  | [] => []
  | x :: rest => (i, x) :: numbered (S i) rest
  end.

(** The line of the chat export for the turn [p] at position [i]. *)
Definition chat_line `{Runtime} (now : nat -> string)
    (ip : nat * (value * value)) : string :=
  csv_field (VStr (now (fst ip))) ++ ","
  ++ csv_field (fst (snd ip)) ++ "," ++ csv_field (snd (snd ip)).

(** A row as the grading loop stores it. *)
Definition graded_row (row : value) : Prop :=
  exists no question answer correct is_correct : value,
    row = VDict [ ("no", no); ("question", question); ("answer", answer);
                  ("correct", correct); ("is_correct", is_correct) ].

(** The rows of the stored quiz result, none when there is no result. *)
Definition stored_rows (s : Session) : list value :=
  match last_quiz_result s with
  | Some qr =>
      match Py.getitem qr "rows" with
      | Ok (VList rows) => rows
      | _ => []
      end
  | None => []
  end.

(** What a stored row holds under [c]. *)
Definition stored (row : value) (c : string) : value :=
  match Py.getitem row c with
  | Ok x => x
  | Raise _ => VNone
  end.

(** The record the quiz export makes of a stored row, and its line. *)
Definition quiz_record (row : value) : list (string * value) :=
  [ ("no", stored row "no"); ("question", stored row "question");
    ("user_answer", stored row "answer"); ("correct", stored row "correct");
    ("is_correct", stored row "is_correct") ].

Definition quiz_line `{Runtime} (row : value) : string :=
  Str.join ","
    (map (fun c => csv_field (stored row c))
       [ "no"; "question"; "answer"; "correct"; "is_correct" ]).

(** Printed numbers and the first character of a printed value. *)
(** The character of a decimal digit. *)
Definition digit_char (d : Z) : ascii := ascii_of_nat (48 + Z.to_nat d).

(** Text made of digits: what [span_digits] takes when no digit follows. *)
Definition digit_run (s : string) : Prop :=
  forall k, follow k = true -> Json.span_digits (s ++ k) = (s, k).

(** The characters a printed value can start with. *)
Definition starter (c : ascii) : bool :=
  Py.is_digit c
  || existsb (Ascii.eqb c)
       [ "n"%char; "t"%char; "f"%char; "-"%char; Str.dquote; "["%char; "{"%char ].

(** The first character of a text. *)
Definition starts (s : string) : bool :=
  match s with
  | EmptyString => false
  | String c _ => starter c
  end.

(* ------------------------------------------------------------------ *)
(** ** Strings *)

Section StringFacts.

Lemma append_nil_r (s : string) : s ++ "" = s.
Proof. induction s as [|c s IH]; simpl; [reflexivity | now rewrite IH]. Qed.

Lemma append_assoc (a b c : string) : (a ++ b) ++ c = a ++ (b ++ c).
Proof. induction a as [|x a IH]; simpl; [reflexivity | now rewrite IH]. Qed.

Lemma length_append (a b : string) :
  String.length (a ++ b) = String.length a + String.length b.
Proof. induction a as [|x a IH]; simpl; [reflexivity | now rewrite IH]. Qed.

Lemma len_append (a b : string) : Str.len (a ++ b) = (Str.len a + Str.len b)%Z.
Proof. unfold Str.len. rewrite length_append. lia. Qed.

Lemma len_nonneg (s : string) : (0 <= Str.len s)%Z.
Proof. unfold Str.len. lia. Qed.

Lemma total_len_nonneg (l : list string) : (0 <= Str.total_len l)%Z.
Proof.
  induction l as [|x l IH]; simpl; [lia |].
  pose proof (len_nonneg x). lia.
Qed.

(** The length of a joined text: the parts plus one separator between
    each two of them. *)
Lemma len_join (sep : string) (l : list string) :
  l <> [] ->
  Str.len (Str.join sep l)
  = (Str.total_len l + Str.len sep * (Z.of_nat (List.length l) - 1))%Z.
Proof.
  induction l as [|x l IH]; [congruence | intros _].
  destruct l as [|y l].
  - simpl. lia.
  - assert (Hne : y :: l <> []) by congruence.
    specialize (IH Hne).
    change (Str.join sep (x :: y :: l)) with (x ++ sep ++ Str.join sep (y :: l)).
    rewrite !len_append, IH.
    change (Str.total_len (x :: y :: l))
      with (Str.len x + Str.total_len (y :: l))%Z.
    change (List.length (x :: y :: l)) with (S (List.length (y :: l))).
    lia.
Qed.

(** Equality of string lists, decided. *)
Lemma strings_eqb_eq (l1 l2 : list string) :
  (if list_eq_dec string_dec l1 l2 then true else false) = true -> l1 = l2.
Proof. destruct (list_eq_dec string_dec l1 l2); [trivial | discriminate]. Qed.

Lemma contains_append (c : ascii) (a b : string) :
  Str.contains c (a ++ b) = Str.contains c a || Str.contains c b.
Proof.
  induction a as [|x a IH]; simpl; [reflexivity |].
  rewrite IH. now rewrite orb_assoc.
Qed.

Lemma contains_replace (c d : ascii) (t s : string) :
  c <> d ->
  Str.contains c t = false ->
  Str.contains c (Str.replace d t s) = Str.contains c s.
Proof.
  intros Hcd Ht. induction s as [|x s IH]; simpl; [reflexivity |].
  destruct (Ascii.eqb d x) eqn:Hdx.
  - apply Ascii.eqb_eq in Hdx. subst x.
    rewrite contains_append, Ht, IH. simpl.
    apply Ascii.eqb_neq in Hcd. now rewrite Hcd.
  - simpl. now rewrite IH.
Qed.

Lemma all_space_append (a b : string) :
  Str.all_space (a ++ b) = Str.all_space a && Str.all_space b.
Proof.
  induction a as [|x a IH]; simpl; [reflexivity |].
  rewrite IH. now rewrite andb_assoc.
Qed.

(** [lstrip] removes a run of white space at the front, and all of it. *)
Lemma lstrip_spec (s : string) :
  exists l,
    s = l ++ Str.lstrip s
    /\ Str.all_space l = true
    /\ Str.head_space (Str.lstrip s) = false.
Proof.
  induction s as [|c s (l & Hs & Hl & Hh)]; simpl.
  - exists "". now repeat split.
  - destruct (Str.is_space c) eqn:Hc.
    + exists (String c l). simpl. rewrite Hc, Hl, <- Hs. now repeat split.
    + exists "". simpl. now rewrite Hc.
Qed.

(** [rstrip] removes a run of white space at the end, and all of it. *)
Lemma rstrip_spec (s : string) :
  exists r,
    s = Str.rstrip s ++ r
    /\ Str.all_space r = true
    /\ Str.last_space (Str.rstrip s) = false.
Proof.
  induction s as [|c s (r & Hs & Hr & Hl)]; simpl.
  - exists "". now repeat split.
  - destruct (Str.rstrip s) as [|d t] eqn:Hrs.
    + simpl in Hs. subst s. destruct (Str.is_space c) eqn:Hc.
      * exists (String c r). simpl. rewrite Hc, Hr. now repeat split.
      * exists r. simpl. rewrite Hc. now repeat split.
    + exists r. simpl. rewrite Hs at 1. now repeat split.
Qed.

Lemma rstrip_head (s : string) :
  Str.head_space s = false -> Str.head_space (Str.rstrip s) = false.
Proof.
  destruct s as [|c s]; simpl; [trivial | intros Hc].
  destruct (Str.rstrip s); [rewrite Hc |]; simpl; trivial.
Qed.

(** [strip] returns the text between the white space at both ends. *)
Lemma strip_spec (s : string) :
  exists l r,
    s = l ++ Str.strip s ++ r
    /\ Str.all_space l = true /\ Str.all_space r = true
    /\ Str.head_space (Str.strip s) = false
    /\ Str.last_space (Str.strip s) = false.
Proof.
  destruct (lstrip_spec s) as (l & Hs & Hl & Hh).
  destruct (rstrip_spec (Str.lstrip s)) as (r & Hs' & Hr & Hlast).
  exists l, r. unfold Str.strip. repeat split; trivial.
  - now rewrite <- Hs', <- Hs.
  - now apply rstrip_head.
Qed.

Lemma substring_nil (i m : nat) : String.substring i m "" = "".
Proof. destruct i, m; reflexivity. Qed.

Lemma substring_prefix (b c : string) :
  String.substring 0 (String.length b) (b ++ c) = b.
Proof. induction b as [|x b IH]; simpl; [now destruct c | now rewrite IH]. Qed.

(** The part of [a ++ b ++ c] that starts after [a] and is as long as [b]
    is [b]. *)
Lemma substring_middle (a b c : string) :
  String.substring (String.length a) (String.length b) (a ++ b ++ c) = b.
Proof. induction a as [|x a IH]; simpl; [apply substring_prefix | exact IH]. Qed.

Lemma find_from_first (c : ascii) (pre rest : string) (i : Z) :
  Str.contains c pre = false ->
  Str.find_from c i (pre ++ String c rest) = (i + Str.len pre)%Z.
Proof.
  revert i; induction pre as [|d pre IH]; intros i Hpre; simpl.
  - rewrite Ascii.eqb_refl. unfold Str.len. simpl. lia.
  - simpl in Hpre. apply orb_false_elim in Hpre as [Hd Hpre].
    rewrite Hd, IH by exact Hpre. unfold Str.len. simpl String.length. lia.
Qed.

Lemma rfind_from_none (c : ascii) (s : string) (i : Z) :
  Str.contains c s = false -> Str.rfind_from c i s = (-1)%Z.
Proof.
  revert i; induction s as [|d s IH]; intros i Hs; simpl; [reflexivity |].
  simpl in Hs. apply orb_false_elim in Hs as [Hd Hs].
  rewrite IH, Hd by exact Hs. reflexivity.
Qed.

Lemma rfind_from_last (c : ascii) (pre post : string) (i : Z) :
  (0 <= i)%Z ->
  Str.contains c post = false ->
  Str.rfind_from c i (pre ++ String c post) = (i + Str.len pre)%Z.
Proof.
  revert i; induction pre as [|d pre IH]; intros i Hi Hpost; simpl.
  - rewrite rfind_from_none by exact Hpost. simpl.
    rewrite Ascii.eqb_refl. unfold Str.len. simpl. lia.
  - rewrite IH by (trivial; lia).
    assert (Hge : (0 <=? i + 1 + Str.len pre)%Z = true).
    { apply Z.leb_le. pose proof (len_nonneg pre). lia. }
    rewrite Hge. unfold Str.len. simpl String.length. lia.
Qed.

(** A slice within the bounds of the text is the substring between them. *)
Lemma slice_within (s : string) (i j : nat) :
  i <= j <= String.length s ->
  Str.slice s (Z.of_nat i) (Z.of_nat j) = String.substring i (j - i) s.
Proof.
  intros Hij. unfold Str.slice, Str.clamp, Str.len.
  assert (Hi : (Z.of_nat i <? 0)%Z = false) by (apply Z.ltb_ge; lia).
  assert (Hj : (Z.of_nat j <? 0)%Z = false) by (apply Z.ltb_ge; lia).
  rewrite Hi, Hj. rewrite !Z.min_l by lia.
  rewrite Nat2Z.id. f_equal. lia.
Qed.

(** Every slice of a text is one of its substrings. *)
Lemma slice_in_substrings (s : string) (i j : Z) :
  In (Str.slice s i j) (substrings s).
Proof.
  unfold Str.slice, substrings.
  set (n := Str.len s).
  assert (Hclamp : forall k, (0 <= Str.clamp n k <= n)%Z).
  { intros k. unfold Str.clamp. pose proof (len_nonneg s) as Hn. fold n in Hn.
    destruct (Z.ltb_spec k 0); lia. }
  pose proof (Hclamp i) as Hi. pose proof (Hclamp j) as Hj.
  unfold n, Str.len in Hi, Hj.
  apply in_flat_map. exists (Z.to_nat (Str.clamp n i)). split.
  - apply in_seq. unfold n, Str.len. lia.
  - apply in_map_iff. exists (Z.to_nat (Str.clamp n j - Str.clamp n i)).
    split; [reflexivity |]. apply in_seq. unfold n, Str.len. lia.
Qed.

(** In a text [pre[mid]post] with no opening bracket in [pre] and no
    closing bracket in [post], the slice from the first opening bracket to
    the last closing bracket is [[mid]]. *)
Lemma bracket_slice (pre mid post : string) :
  Str.contains "["%char pre = false ->
  Str.contains "]"%char post = false ->
  let raw := pre ++ "[" ++ mid ++ "]" ++ post in
  Str.slice raw (Str.find "["%char raw) (Str.rfind "]"%char raw + 1)
  = "[" ++ mid ++ "]".
Proof.
  intros Hpre Hpost raw.
  assert (Hfind : Str.find "["%char raw = Z.of_nat (String.length pre)).
  { unfold Str.find, raw. change ("[" ++ mid ++ "]" ++ post)
      with (String "["%char (mid ++ "]" ++ post)).
    rewrite find_from_first by exact Hpre. unfold Str.len. lia. }
  assert (Hraw : raw = (pre ++ "[" ++ mid) ++ String "]"%char post).
  { unfold raw. rewrite !append_assoc. reflexivity. }
  assert (Hrfind : (Str.rfind "]"%char raw + 1)%Z
                   = Z.of_nat (String.length pre + String.length ("[" ++ mid ++ "]"))).
  { unfold Str.rfind. rewrite Hraw, rfind_from_last by (trivial; lia).
    unfold Str.len. rewrite ?length_append. simpl String.length.
    rewrite ?length_append. simpl String.length. lia. }
  rewrite Hfind, Hrfind, slice_within.
  - replace (String.length pre + String.length ("[" ++ mid ++ "]")
             - String.length pre) with (String.length ("[" ++ mid ++ "]")) by lia.
    unfold raw.
    replace (pre ++ "[" ++ mid ++ "]" ++ post)
      with (pre ++ ("[" ++ mid ++ "]") ++ post)
      by (now rewrite !append_assoc).
    apply substring_middle.
  - unfold raw. rewrite ?length_append. simpl String.length.
    rewrite ?length_append. simpl String.length. lia.
Qed.

End StringFacts.

(* ------------------------------------------------------------------ *)
(** ** Knowledge base: the character budget *)

Section KnowledgeBaseFacts.
Context {R : Runtime}.

(** The loop keeps a prefix of the chunk sequence. *)
Lemma take_chunks_prefix (limit size : Z) (chunks : list string) :
  exists rest, chunks = (take_chunks limit size chunks ++ rest)%list.
Proof.
  revert size; induction chunks as [|c cs IH]; intros size; simpl.
  - now exists [].
  - destruct (size + Str.len c >? limit)%Z.
    + now exists (c :: cs).
    + destruct (IH (size + Str.len c)%Z) as [rest Hrest].
      exists rest. simpl. now rewrite <- Hrest.
Qed.

(** The loop counts the chunks only: their lengths stay within [limit]. *)
Lemma take_chunks_budget (limit size : Z) (chunks : list string) :
  (size <= limit)%Z ->
  (size + Str.total_len (take_chunks limit size chunks) <= limit)%Z.
Proof.
  revert size; induction chunks as [|c cs IH]; intros size Hsize; simpl.
  - lia.
  - destruct (size + Str.len c >? limit)%Z eqn:Hcmp; simpl.
    + lia.
    + rewrite Z.gtb_ltb in Hcmp. apply Z.ltb_ge in Hcmp.
      specialize (IH (size + Str.len c)%Z Hcmp). lia.
Qed.

(** With no file, and a pasted text without surrounding white space, the
    blob is the join of the chunks the loop keeps. *)
Lemma build_kb_text_pasted (pasted : string) :
  Str.strip pasted = pasted ->
  Str.truthy pasted = true ->
  build_kb_text [] pasted
  = Str.join Str.nlnl (take_chunks 25000 0 (split_text 1200 150 pasted)).
Proof.
  intros Hstrip Htruthy. unfold build_kb_text. simpl file_texts.
  rewrite Hstrip, Htruthy. simpl. rewrite Htruthy. simpl.
  rewrite Htruthy. reflexivity.
Qed.

(** What the budget does bound: the blob is a join of chunks whose
    lengths add up to at most 25,000, so it is longer than that by at most
    the separators. *)
Lemma build_kb_text_chunks_budget (files : list File) (pasted : string) :
  exists out : list string,
    build_kb_text files pasted = Str.join Str.nlnl out
    /\ (Str.total_len out <= 25000)%Z
    /\ (Str.len (build_kb_text files pasted)
        <= 25000 + 2 * Z.max 0 (Z.of_nat (List.length out) - 1))%Z.
Proof.
  unfold build_kb_text.
  set (full := Str.join Str.nlnl _).
  destruct (negb (Str.truthy full)).
  - exists []. simpl. repeat split; try reflexivity; cbn; lia.
  - set (out := take_chunks 25000 0 (split_text 1200 150 full)).
    exists out.
    assert (Hb : (Str.total_len out <= 25000)%Z).
    { pose proof (take_chunks_budget 25000 0 (split_text 1200 150 full)) as Hb.
      fold out in Hb. lia. }
    repeat split; [exact Hb |].
    destruct out as [|x out'] eqn:Hout.
    + cbn. lia.
    + rewrite len_join by congruence.
      change (Str.len Str.nlnl) with 2%Z. lia.
Qed.

End KnowledgeBaseFacts.

(** C1: the blob of [build_kb_text] is meant to stay within 25,000
    characters, separators included.  The loop adds up the chunks only: on
    twenty-one paragraphs of 1190 characters, which the splitter returns as
    twenty-one chunks, every chunk is kept (24,990 characters) and the blob
    joined with blank lines has 25,030 characters. *)
Theorem build_kb_text_over_budget :
  forall R : Runtime,
    split_text 1200 150 kb_overflow_text = kb_overflow_chunks ->
    Str.len (build_kb_text [] kb_overflow_text) = 25030%Z
    /\ (25000 < Str.len (build_kb_text [] kb_overflow_text))%Z.
Proof.
  intros R Hsplit.
  assert (Hlen : Str.len (build_kb_text [] kb_overflow_text) = 25030%Z).
  { rewrite build_kb_text_pasted.
    - rewrite Hsplit. vm_compute. reflexivity.
    - apply String.eqb_eq. vm_compute. reflexivity.
    - vm_compute. reflexivity. }
  split; [exact Hlen | rewrite Hlen; lia].
Qed.

Lemma build_kb_text_over_budget_witness :
  Str.len (@build_kb_text reference_runtime [] kb_overflow_text) = 25030%Z
  /\ (25000 < Str.len (@build_kb_text reference_runtime [] kb_overflow_text))%Z.
Proof.
  apply (build_kb_text_over_budget reference_runtime).
  apply strings_eqb_eq. vm_compute. reflexivity.
Defined.

(* ------------------------------------------------------------------ *)
(** ** Generation client *)

(** C7: [ask_model] is a total function to strings.  When the call raises
    it returns the failure message around the error text; when the
    response has no text it returns the empty string; otherwise it returns
    the response text without the white space at both ends. *)
Theorem ask_model_returns_text :
  forall (client : Client) (model_id system user : string) (temperature : pyfloat),
    match client (mkRequest model_id
                    [ ("user", ["SYSTEM:" ++ Str.nl ++ system]); ("user", [user]) ]
                    temperature) with
    | Raise e =>
        ask_model client model_id system user temperature
        = "(Gagal memanggil model: " ++ e ++ ")"
    | Ok None => ask_model client model_id system user temperature = ""
    | Ok (Some t) =>
        exists l r,
          t = l ++ ask_model client model_id system user temperature ++ r
          /\ Str.all_space l = true /\ Str.all_space r = true
          /\ Str.head_space (ask_model client model_id system user temperature)
             = false
          /\ Str.last_space (ask_model client model_id system user temperature)
             = false
    end.
Proof.
  intros client model_id system user temperature. unfold ask_model.
  destruct (client _) as [[t|]|e]; try reflexivity.
  destruct t as [|c t]; simpl Str.truthy; cbv iota.
  - exists "", "". now repeat split.
  - apply strip_spec.
Qed.

(* ------------------------------------------------------------------ *)
(** ** Delimited-text export *)

Section CsvFacts.
Context {R : Runtime}.

(** A value that holds a comma is written between double quotes, its own
    double quotes doubled. *)
Lemma csv_field_comma (x : value) :
  Str.contains Str.comma (Py.str x) = true ->
  csv_field x
  = String Str.dquote
      (Str.replace Str.dquote (String Str.dquote (String Str.dquote ""))
         (Py.str x))
    ++ String Str.dquote "".
Proof.
  intros Hc. unfold csv_field.
  rewrite contains_replace, Hc; [reflexivity | discriminate | reflexivity].
Qed.

(** A value that holds neither a comma nor a line break is written
    without surrounding quotes, whatever else it holds. *)
Lemma csv_field_plain (x : value) :
  Str.contains Str.comma (Py.str x) = false ->
  Str.contains "010"%char (Py.str x) = false ->
  csv_field x
  = Str.replace Str.dquote (String Str.dquote (String Str.dquote ""))
      (Py.str x).
Proof.
  intros Hc Hn. unfold csv_field.
  rewrite !contains_replace, Hc, Hn;
    solve [reflexivity | discriminate].
Qed.

Lemma lookup_restrict (cols : list string) (r : list (string * value))
    (c : string) :
  In c cols -> Py.lookup (restrict cols r) c = Py.lookup r c.
Proof.
  intros Hin. induction r as [|[k v] r IH]; simpl; [reflexivity |].
  destruct (existsb (String.eqb k) cols) eqn:Hk; simpl.
  - now rewrite IH.
  - destruct (String.eqb c k) eqn:Hck; [| exact IH].
    apply String.eqb_eq in Hck. subst k.
    assert (Hex : existsb (String.eqb c) cols = true).
    { apply existsb_exists. exists c. split; [exact Hin | apply String.eqb_refl]. }
    congruence.
Qed.

Lemma csv_line_restrict (cols : list string) (r : list (string * value)) :
  csv_line cols (restrict cols r) = csv_line cols r.
Proof.
  unfold csv_line. f_equal. apply map_ext_in. intros c Hc.
  unfold row_get. now rewrite lookup_restrict.
Qed.

End CsvFacts.

(** C8: a value that holds a comma is written between double quotes.  A
    value that holds a double quote has it doubled, but the field is
    wrapped only when the value also holds a comma or a line break: the
    text [say "hi"] is written [say ""hi""], with no quotes around it. *)
Theorem csv_quote_not_wrapped :
  forall R : Runtime,
    (forall x : value,
        Str.contains Str.comma (Py.str x) = true ->
        csv_field x
        = String Str.dquote
            (Str.replace Str.dquote (String Str.dquote (String Str.dquote ""))
               (Py.str x))
          ++ String Str.dquote "")
    /\ csv_field (VStr (jtext "say 'hi'")) = jtext "say ''hi''"
    /\ make_csv_bytes csv_quote_rows
       = encode_utf8 ("text" ++ Str.nl ++ jtext "say ''hi''").
Proof.
  intros R. split; [apply csv_field_comma |].
  split; reflexivity.
Qed.

(** C10: the columns of the export are the keys of the first record.
    The bytes returned for a non-empty record list are the header line
    made of these keys and one line per record, each with one value per
    column: the value of the record under that key, or the empty string
    when the record has no such key.  The entries of a later record under
    other keys do not reach the output.  The function is total: no shape
    of the records raises. *)
Theorem make_csv_bytes_first_record_columns :
  forall (R : Runtime) (first : list (string * value))
         (rest : list (list (string * value))),
    let cols := map fst first in
    make_csv_bytes (first :: rest)
    = encode_utf8
        (Str.join Str.nl
           (Str.join "," cols
            :: map (fun r =>
                      Str.join ","
                        (map (fun c => match Py.lookup r c with
                                       | Some v => csv_field v
                                       | None => ""
                                       end) cols))
                   (first :: rest)))
    /\ make_csv_bytes (first :: rest)
       = make_csv_bytes (first :: map (restrict cols) rest)
    /\ make_csv_bytes ragged_rows
       = encode_utf8 ("a,b" ++ Str.nl ++ "1,2" ++ Str.nl ++ ",3").
Proof.
  intros R first rest cols. split; [| split].
  - unfold make_csv_bytes, csv_lines. fold cols. do 3 f_equal.
    apply map_ext. intros r. unfold csv_line. f_equal.
    apply map_ext. intros c. unfold row_get.
    destruct (Py.lookup r c); reflexivity.
  - unfold make_csv_bytes, csv_lines. fold cols. do 3 f_equal.
    simpl. f_equal. rewrite map_map. apply map_ext. intros r.
    symmetry. apply csv_line_restrict.
  - reflexivity.
Qed.

(* ------------------------------------------------------------------ *)
(** ** Quiz generation *)

Section QuizFacts.

Lemma take_length {A : Type} (l : list A) (n : Z) :
  (0 <= n)%Z -> (Z.of_nat (List.length (Py.take l n)) <= n)%Z.
Proof.
  intros Hn. unfold Py.take, Str.clamp.
  destruct (Z.ltb_spec n 0); [lia |].
  rewrite length_firstn. lia.
Qed.

Lemma In_firstn {A : Type} (k : nat) (l : list A) (x : A) :
  In x (firstn k l) -> In x l.
Proof.
  revert l; induction k as [|k IH]; intros [|y l]; simpl; try tauto.
  intros [-> | Hx]; [now left | right; now apply IH].
Qed.

Lemma take_four {A : Type} (l : list A) :
  4 <= List.length l -> List.length (Py.take l 4) = 4.
Proof.
  intros Hl. unfold Py.take, Str.clamp.
  change (4 <? 0)%Z with false. cbv iota.
  rewrite length_firstn. lia.
Qed.

Lemma take_Forall {A : Type} (P : A -> Prop) (l : list A) (n : Z) :
  Forall P l -> Forall P (Py.take l n).
Proof.
  intros Hl. unfold Py.take. rewrite Forall_forall in *.
  intros x Hx. apply Hl. eapply In_firstn; eassumption.
Qed.

Lemma take_nil {A : Type} (n : Z) : Py.take (@nil A) n = [].
Proof. unfold Py.take. apply firstn_nil. Qed.

(** What the test of the loop establishes about an item. *)
Lemma mcq_accepts_inv (item : value) :
  mcq_accepts item = true ->
  exists d q a key,
    item = VDict d
    /\ Py.lookup d "q" = Some q
    /\ Py.lookup d "a" = Some (VList a)
    /\ Py.lookup d "key" = Some key
    /\ 4 <= List.length a.
Proof.
  unfold mcq_accepts. destruct item as [| | | | |l|d]; try discriminate.
  simpl. destruct (Py.lookup d "q") as [q|] eqn:Hq; [| discriminate].
  destruct (Py.lookup d "a") as [a|] eqn:Ha; [| discriminate].
  destruct (Py.lookup d "key") as [key|] eqn:Hk; [| discriminate].
  simpl. destruct a as [| | | | |a|]; try discriminate.
  simpl. intros Hlen. apply Z.leb_le in Hlen.
  exists d, q, a, key. repeat split; trivial. lia.
Qed.

(** An accepted item yields a quiz item, unless its key does not convert. *)
Lemma mcq_entry_accepted (item : value) :
  mcq_accepts item = true ->
  (exists e, mcq_entry item = Raise e)
  \/ (exists entry, mcq_entry item = Ok entry /\ is_quiz_item entry).
Proof.
  intros Hacc.
  destruct (mcq_accepts_inv item Hacc) as (d & q & a & key & -> & Hq & Ha & Hk & Hlen).
  unfold mcq_entry. simpl. rewrite Hq, Ha, Hk. simpl.
  destruct (Py.int key) as [k|e]; simpl.
  - right. eexists. split; [reflexivity |].
    exists q, (Py.take a 4), k. split; [reflexivity | now apply take_four].
  - left. now exists e.
Qed.

(** Items that fail the test leave [valid] as it is. *)
Lemma mcq_loop_rejected (data valid : list value) :
  Forall (fun item => mcq_accepts item = false) data ->
  mcq_loop data valid = Ok valid.
Proof.
  revert valid; induction data as [|item data IH]; intros valid Hall; simpl.
  - reflexivity.
  - inversion Hall as [|? ? Hitem Hrest]; subst. rewrite Hitem. now apply IH.
Qed.

(** The loop keeps the shape of the items collected so far. *)
Lemma mcq_loop_shape (data valid out : list value) :
  Forall is_quiz_item valid ->
  mcq_loop data valid = Ok out ->
  Forall is_quiz_item out.
Proof.
  revert valid; induction data as [|item data IH]; intros valid Hvalid; simpl.
  - intros [= <-]. exact Hvalid.
  - destruct (mcq_accepts item) eqn:Hacc; [| now apply IH].
    destruct (mcq_entry_accepted item Hacc) as [[e He] | (entry & He & Hshape)];
      rewrite He; simpl; [discriminate |].
    apply IH. apply Forall_app. split; [exact Hvalid | now constructor].
Qed.

(** When every accepted item has a key that converts, the loop returns
    the entries of the accepted items, in order. *)
Lemma mcq_loop_entries (data valid : list value) :
  (forall item, In item data -> mcq_accepts item = true ->
                exists entry, mcq_entry item = Ok entry) ->
  mcq_loop data valid = Ok (valid ++ mcq_entries data)%list.
Proof.
  revert valid; induction data as [|item data IH]; intros valid Hconv; simpl.
  - now rewrite app_nil_r.
  - unfold mcq_entries. simpl. fold (mcq_entries data).
    destruct (mcq_accepts item) eqn:Hacc.
    + destruct (Hconv item (or_introl eq_refl) Hacc) as [entry He].
      rewrite He. simpl. rewrite IH.
      * now rewrite <- app_assoc.
      * intros i Hi. apply Hconv. now right.
    + simpl. apply IH. intros i Hi. apply Hconv. now right.
Qed.

(** One accepted item whose key does not convert makes the loop raise,
    whatever the other items are. *)
Lemma mcq_loop_raises (data valid : list value) (bad : value) (e : string) :
  In bad data ->
  mcq_accepts bad = true ->
  mcq_entry bad = Raise e ->
  exists e', mcq_loop data valid = Raise e'.
Proof.
  revert valid; induction data as [|item data IH]; intros valid Hin Hacc Hbad.
  - destruct Hin.
  - simpl. destruct Hin as [-> | Hin].
    + rewrite Hacc, Hbad. simpl. now exists e.
    + destruct (mcq_accepts item).
      * destruct (mcq_entry item) as [entry|e1]; simpl;
          [now apply IH | now exists e1].
      * now apply IH.
Qed.

Context {R : Runtime}.

(** The items of [gen_mcq] have the shape of a quiz item. *)
Lemma mcq_parse_shape (raw : string) (n : Z) (out : list value) :
  mcq_parse raw n = Ok out -> Forall is_quiz_item out.
Proof.
  unfold mcq_parse.
  destruct (json_loads _) as [data|e]; simpl; [| discriminate].
  destruct (Py.iter data) as [items|e]; simpl; [| discriminate].
  destruct (mcq_loop items []) as [valid|e] eqn:Hloop; simpl; [| discriminate].
  intros [= <-]. apply take_Forall.
  now apply (mcq_loop_shape items [] valid).
Qed.

Lemma mcq_parse_length (raw : string) (n : Z) (out : list value) :
  (0 <= n)%Z ->
  mcq_parse raw n = Ok out -> (Z.of_nat (List.length out) <= n)%Z.
Proof.
  intros Hn. unfold mcq_parse.
  destruct (json_loads _) as [data|e]; simpl; [| discriminate].
  destruct (Py.iter data) as [items|e]; simpl; [| discriminate].
  destruct (mcq_loop items []) as [valid|e]; simpl; [| discriminate].
  intros [= <-]. now apply take_length.
Qed.

(** Nothing but a list yields items. *)
Lemma mcq_parse_not_list (raw : string) (n : Z) :
  (forall l, json_loads (Str.slice raw (Str.find "["%char raw)
                                   (Str.rfind "]"%char raw + 1))
             <> Ok (VList l)) ->
  mcq_parse raw n = Ok [] \/ exists e, mcq_parse raw n = Raise e.
Proof.
  intros Hnot. unfold mcq_parse.
  destruct (json_loads _) as [data|e]; simpl; [| right; now exists e].
  assert (Hstr : forall s valid, mcq_loop (Py.chars s) valid = Ok valid).
  { intros s valid. apply mcq_loop_rejected.
    induction s as [|c s IH]; simpl; constructor; trivial. }
  destruct data as [| | | | s | l | d]; simpl;
    try (right; eexists; reflexivity).
  - rewrite Hstr. simpl. left. now rewrite take_nil.
  - now destruct (Hnot l).
  - rewrite mcq_loop_rejected.
    + simpl. left. now rewrite take_nil.
    + clear Hnot. induction d as [|[k v] d IH]; simpl; constructor; trivial.
Qed.

End QuizFacts.

(** C2, as the code has it: for a count [n] that is not negative,
    [gen_mcq] returns at most [n] items, and every item holds a question,
    exactly four options (the first four entries the element had,
    whatever their type) and an integer key. *)
Theorem gen_mcq_items_shape :
  forall (R : Runtime) (client : Client) (model_id context : string) (n : Z),
    (0 <= n)%Z ->
    (Z.of_nat (List.length (gen_mcq client model_id context n)) <= n)%Z
    /\ Forall is_quiz_item (gen_mcq client model_id context n).
Proof.
  intros R client model_id context n Hn. unfold gen_mcq.
  destruct (mcq_parse _ n) as [valid|e] eqn:Hparse.
  - split; [eapply mcq_parse_length | eapply mcq_parse_shape]; eassumption.
  - split; [simpl; lia | constructor].
Qed.

Lemma gen_mcq_items_shape_witness :
  (Z.of_nat (List.length
     (@gen_mcq reference_runtime (answering three_items_response)
        "gemini-1.5-flash" "Sel adalah unit terkecil kehidupan." 2)) <= 2)%Z
  /\ Forall is_quiz_item
       (@gen_mcq reference_runtime (answering three_items_response)
          "gemini-1.5-flash" "Sel adalah unit terkecil kehidupan." 2).
Proof.
  apply (gen_mcq_items_shape reference_runtime). lia.
Defined.

(** C2, as stated, fails: the options of a returned item need not be
    strings, and a negative count returns more items than the count. *)
Lemma gen_mcq_options_need_not_be_strings :
  @gen_mcq reference_runtime (answering numeric_options_response)
     "gemini-1.5-flash" "Sel adalah unit terkecil kehidupan." 5
  = [ VDict [ ("q", VStr "Q");
              ("a", VList [VInt 1; VInt 2; VInt 3; VInt 4]);
              ("key", VInt 0) ] ]
  /\ ~ Forall (fun item => options_are_strings item = true)
         (@gen_mcq reference_runtime (answering numeric_options_response)
            "gemini-1.5-flash" "Sel adalah unit terkecil kehidupan." 5)
  /\ ~ (Z.of_nat (List.length
          (@gen_mcq reference_runtime (answering three_items_response)
             "gemini-1.5-flash" "Sel adalah unit terkecil kehidupan." (-1)))
        <= -1)%Z.
Proof.
  split; [vm_compute; reflexivity |]. split.
  - intros Hall.
    assert (Heq : @gen_mcq reference_runtime (answering numeric_options_response)
              "gemini-1.5-flash" "Sel adalah unit terkecil kehidupan." 5
            = [ VDict [ ("q", VStr "Q");
                        ("a", VList [VInt 1; VInt 2; VInt 3; VInt 4]);
                        ("key", VInt 0) ] ]) by (vm_compute; reflexivity).
    rewrite Heq in Hall. inversion Hall as [|? ? Hitem _]; subst.
    vm_compute in Hitem. discriminate.
  - lia.
Qed.

(** C4: the elements of the array are meant to be accepted one by one.
    The elements that fail the test of the loop are indeed skipped one by
    one, but an element that passes it and whose key does not convert to
    an integer raises inside the loop: [gen_mcq] then returns no item at
    all, the well-formed elements of the array included. *)
Theorem gen_mcq_unconvertible_key_drops_all :
  forall (R : Runtime) (client : Client) (model_id context : string) (n : Z)
         (items : list value) (bad : value) (e : string),
    json_loads
      (Str.slice
         (ask_model client model_id mcq_system (mcq_user context n) temperature_mcq)
         (Str.find "["%char
            (ask_model client model_id mcq_system (mcq_user context n)
               temperature_mcq))
         (Str.rfind "]"%char
            (ask_model client model_id mcq_system (mcq_user context n)
               temperature_mcq) + 1))
    = Ok (VList items) ->
    In bad items ->
    mcq_accepts bad = true ->
    mcq_entry bad = Raise e ->
    gen_mcq client model_id context n = [].
Proof.
  intros R client model_id context n items bad e Hloads Hin Hacc Hbad.
  unfold gen_mcq, mcq_parse. rewrite Hloads. simpl.
  destruct (mcq_loop_raises items [] bad e Hin Hacc Hbad) as [e' He'].
  now rewrite He'.
Qed.

Lemma gen_mcq_unconvertible_key_drops_all_witness :
  @gen_mcq reference_runtime (answering null_key_response)
     "gemini-1.5-flash" "Sel adalah unit terkecil kehidupan." 5 = []
  /\ mcq_entries scenario_items = scenario_items.
Proof.
  split; [| reflexivity].
  apply (gen_mcq_unconvertible_key_drops_all reference_runtime
           (answering null_key_response) "gemini-1.5-flash"
           "Sel adalah unit terkecil kehidupan." 5
           [ VDict [ ("q", VStr "Q1");
                     ("a", VList [VStr "A"; VStr "B"; VStr "C"; VStr "D"]);
                     ("key", VInt 2) ];
             null_key_item ]
           null_key_item
           "int() argument must be a string, a bytes-like object or a real number, not 'NoneType'").
  - vm_compute. reflexivity.
  - right. left. reflexivity.
  - reflexivity.
  - reflexivity.
Defined.

(** C5: [gen_mcq] parses the text from the first opening bracket to the
    last closing bracket of the response.  Whenever that text does not
    read as a JSON array, because the response has no brackets, because
    the text between them is malformed (even when it holds well-formed
    arrays inside), or because it reads as a value of another shape,
    [gen_mcq] returns the empty list; being a total function, it raises
    nothing.  In particular this is so when no part of the response at
    all reads as a JSON array. *)
Theorem gen_mcq_empty_without_array :
  forall (R : Runtime) (client : Client) (model_id context : string) (n : Z),
    let raw :=
      ask_model client model_id mcq_system (mcq_user context n) temperature_mcq
    in
    ((forall items : list value,
         json_loads (Str.slice raw (Str.find "["%char raw)
                       (Str.rfind "]"%char raw + 1))
         <> Ok (VList items)) ->
     gen_mcq client model_id context n = [])
    /\ (has_json_array raw = false -> gen_mcq client model_id context n = []).
Proof.
  intros R client model_id context n raw.
  assert (Hslice : (forall items : list value,
                       json_loads (Str.slice raw (Str.find "["%char raw)
                                     (Str.rfind "]"%char raw + 1))
                       <> Ok (VList items)) ->
                   gen_mcq client model_id context n = []).
  { intros Hnot. unfold gen_mcq. fold raw.
    destruct (mcq_parse_not_list raw n Hnot) as [-> | [e ->]]; reflexivity. }
  split; [exact Hslice |].
  intros Hnone. apply Hslice. intros items Hitems.
  unfold has_json_array in Hnone.
  assert (Hex : existsb (fun sub => match json_loads sub with
                                    | Ok (VList _) => true
                                    | _ => false
                                    end) (substrings raw) = true).
  { apply existsb_exists. eexists. split; [apply slice_in_substrings |].
    now rewrite Hitems. }
  congruence.
Qed.

Lemma gen_mcq_empty_without_array_witness :
  @gen_mcq reference_runtime (answering truncated_response)
     "gemini-1.5-flash" "Sel adalah unit terkecil kehidupan." 5 = []
  /\ @gen_mcq reference_runtime (answering (jtext "{'q':'Q1','key':0}"))
       "gemini-1.5-flash" "Sel adalah unit terkecil kehidupan." 5 = []
  /\ @gen_mcq reference_runtime (answering "Soal: [satu, dua")
       "gemini-1.5-flash" "Sel adalah unit terkecil kehidupan." 5 = []
  /\ @gen_mcq reference_runtime (answering "Maaf, saya tidak bisa.")
       "gemini-1.5-flash" "Sel adalah unit terkecil kehidupan." 5 = []
  /\ @gen_mcq reference_runtime (fun _ => Raise "503 UNAVAILABLE")
       "gemini-1.5-flash" "Sel adalah unit terkecil kehidupan." 5 = [].
Proof.
  split; [| split; [| split; [| split]]].
  - apply (proj1 (gen_mcq_empty_without_array reference_runtime
                      (answering truncated_response)
                      "gemini-1.5-flash" "Sel adalah unit terkecil kehidupan." 5)).
    intros items Hitems. vm_compute in Hitems. discriminate Hitems.
  - apply (proj1 (gen_mcq_empty_without_array reference_runtime
                      (answering (jtext "{'q':'Q1','key':0}"))
                      "gemini-1.5-flash" "Sel adalah unit terkecil kehidupan." 5)).
    intros items Hitems. vm_compute in Hitems. discriminate Hitems.
  - apply (proj2 (gen_mcq_empty_without_array reference_runtime
                      (answering "Soal: [satu, dua")
                      "gemini-1.5-flash" "Sel adalah unit terkecil kehidupan." 5)).
    vm_compute. reflexivity.
  - apply (proj2 (gen_mcq_empty_without_array reference_runtime
                      (answering "Maaf, saya tidak bisa.")
                      "gemini-1.5-flash" "Sel adalah unit terkecil kehidupan." 5)).
    vm_compute. reflexivity.
  - apply (proj2 (gen_mcq_empty_without_array reference_runtime
                      (fun _ => Raise "503 UNAVAILABLE")
                      "gemini-1.5-flash" "Sel adalah unit terkecil kehidupan." 5)).
    vm_compute. reflexivity.
Defined.

(** C6: [gen_mcq] reads the text from the first opening bracket to the
    last closing bracket and nothing else: around an array [[mid]], prose
    without an opening bracket before it and without a closing bracket
    after it changes nothing.  For the response of the scenario, a line of
    prose and an array with one item, it returns exactly that item, with
    its four options and the key 2. *)
Theorem gen_mcq_reads_bracketed_part :
  forall (R : Runtime) (client : Client) (model_id context : string) (n : Z)
         (pre mid post : string) (items : list value),
    ask_model client model_id mcq_system (mcq_user context n) temperature_mcq
    = pre ++ "[" ++ mid ++ "]" ++ post ->
    Str.contains "["%char pre = false ->
    Str.contains "]"%char post = false ->
    json_loads ("[" ++ mid ++ "]") = Ok (VList items) ->
    gen_mcq client model_id context n
    = match mcq_loop items [] with
      | Ok valid => Py.take valid n
      | Raise _ => []
      end
    /\ (mid = scenario_mid -> items = scenario_items -> (1 <= n)%Z ->
        gen_mcq client model_id context n = scenario_items).
Proof.
  intros R client model_id context n pre mid post items Hraw Hpre Hpost Hloads.
  assert (Hgen : gen_mcq client model_id context n
                 = match mcq_loop items [] with
                   | Ok valid => Py.take valid n
                   | Raise _ => []
                   end).
  { unfold gen_mcq, mcq_parse. rewrite Hraw.
    rewrite (bracket_slice pre mid post Hpre Hpost), Hloads. simpl.
    now destruct (mcq_loop items []). }
  split; [exact Hgen |].
  intros _ -> Hn. rewrite Hgen. simpl.
  unfold Py.take, Str.clamp. simpl List.length.
  destruct (Z.ltb_spec n 0); [lia |].
  replace (Z.to_nat (Z.min n (Z.of_nat 1))) with 1%nat by lia.
  reflexivity.
Qed.

Lemma gen_mcq_reads_bracketed_part_witness :
  @gen_mcq reference_runtime (answering scenario_response)
     "gemini-1.5-flash" "Sel adalah unit terkecil kehidupan." 5
  = scenario_items.
Proof.
  apply (gen_mcq_reads_bracketed_part reference_runtime
           (answering scenario_response) "gemini-1.5-flash"
           "Sel adalah unit terkecil kehidupan." 5
           scenario_prose scenario_mid "" scenario_items);
    solve [vm_compute; reflexivity | reflexivity | lia].
Defined.

(* ------------------------------------------------------------------ *)
(** ** Session export and import *)

Section ExportFacts.
Context {R : Runtime}.

(** The handler always ends with a notice. *)
Lemma import_json_notice (up : list byte) (s : Session) :
  exists note, fst (import_json up s) = Ok note.
Proof.
  unfold import_json, try_except, and_then, lift, assign, ret.
  destruct (text <- decode_utf8 up ;; json_loads text) as [data|e]; simpl;
    [| eexists; reflexivity].
  destruct data as [| | | | | |d]; simpl; try (eexists; reflexivity).
  destruct (Py.lookup d "messages"), (Py.lookup d "kb_text"),
    (Py.lookup d "last_quiz_result") as [q|]; simpl;
    try destruct (Py.truthy q); simpl; eexists; reflexivity.
Qed.

(** No partial import: whenever the handler reports an error, the session
    is the one it started from. *)
Lemma import_json_error_unchanged (up : list byte) (s s' : Session)
    (msg : string) :
  import_json up s = (Ok (Error msg), s') -> s' = s.
Proof.
  unfold import_json, try_except, and_then, lift, assign, ret.
  destruct (text <- decode_utf8 up ;; json_loads text) as [data|e]; simpl;
    [| now intros [= _ <-]].
  destruct data as [| | | | | |d]; simpl; try (now intros [= _ <-]).
  destruct (Py.lookup d "messages"), (Py.lookup d "kb_text"),
    (Py.lookup d "last_quiz_result") as [q|]; simpl;
    try destruct (Py.truthy q); simpl; discriminate.
Qed.

(** What the handler does with a document that reads as [dump s]. *)
Lemma import_json_of_dump (up : list byte) (s s0 : Session) :
  (text <- decode_utf8 up ;; json_loads text) = Ok (dump s) ->
  import_json up s0
  = (Ok (Success "Berhasil di-import. Buka tab Chat/Quiz untuk melihat hasilnya."),
     mkSession (messages s) (kb_text s) (quiz s0) (quiz_answers s0)
       (match last_quiz_result s with
        | Some r => if Py.truthy r then Some r else last_quiz_result s0
        | None => last_quiz_result s0
        end)).
Proof.
  intros Hread.
  unfold import_json, try_except, and_then, lift, assign, ret.
  rewrite Hread. unfold dump. simpl.
  destruct (last_quiz_result s) as [r|]; simpl; [| reflexivity].
  destruct (Py.truthy r); reflexivity.
Qed.

End ExportFacts.

(** C9: a document that does not decode or does not parse makes the
    handler report an error that carries the text of the failure, and the
    session stays as it was.  More generally, whenever the handler reports
    an error the session is unchanged: nothing is imported in part. *)
Theorem import_json_parse_failure :
  forall (R : Runtime) (up : list byte) (s : Session) (e : string),
    (text <- decode_utf8 up ;; json_loads text) = Raise e ->
    import_json up s = (Ok (Error ("Gagal import JSON: " ++ e)), s)
    /\ (forall (up' : list byte) (s0 s' : Session) (msg : string),
           import_json up' s0 = (Ok (Error msg), s') -> s' = s0).
Proof.
  intros R up s e Hfail. split.
  - unfold import_json, try_except, and_then, lift, assign, ret.
    rewrite Hfail. reflexivity.
  - intros up' s0 s' msg. apply import_json_error_unchanged.
Qed.

Lemma import_json_parse_failure_witness :
  @import_json reference_runtime
     (encode_utf8 (jtext "{'messages': [")) sample_session
  = (Ok (Error "Gagal import JSON: Expecting value"), sample_session)
  /\ (forall (up' : list byte) (s0 s' : Session) (msg : string),
         @import_json reference_runtime up' s0 = (Ok (Error msg), s') -> s' = s0).
Proof.
  apply (import_json_parse_failure reference_runtime
           (encode_utf8 (jtext "{'messages': [")) sample_session
           "Expecting value").
  vm_compute. reflexivity.
Defined.

(* ------------------------------------------------------------------ *)
(** ** Knowledge base: what the blob is made of *)

Section KnowledgeBaseMore.
Context {R : Runtime}.

Lemma build_kb_text_chunks (files : list File) (pasted : string) :
  build_kb_text files pasted
  = Str.join Str.nlnl (take_chunks 25000 0 (kb_chunks files pasted)).
Proof.
  unfold build_kb_text, kb_chunks, kb_full, kb_texts.
  destruct (Str.truthy (Str.join Str.nlnl _)); reflexivity.
Qed.

(** The loop stops at the first chunk that does not fit. *)
Lemma take_chunks_longest (limit size : Z) (chunks : list string) :
  exists rest,
    chunks = (take_chunks limit size chunks ++ rest)%list
    /\ match rest with
       | [] => True
       | c :: _ =>
           (limit < size + Str.total_len (take_chunks limit size chunks)
                    + Str.len c)%Z
       end.
Proof.
  revert size; induction chunks as [|c cs IH]; intros size; simpl.
  - now exists [].
  - destruct (size + Str.len c >? limit)%Z eqn:Hcmp.
    + exists (c :: cs). split; [reflexivity |].
      rewrite Z.gtb_ltb in Hcmp. apply Z.ltb_lt in Hcmp. simpl. lia.
    + destruct (IH (size + Str.len c)%Z) as (rest & Hrest & Hnext).
      exists rest. split; [simpl; now rewrite <- Hrest |].
      destruct rest as [|d rest']; [trivial |].
      simpl Str.total_len. lia.
Qed.

(** Chunks that fit together are all kept. *)
Lemma take_chunks_all (limit size : Z) (chunks : list string) :
  (size + Str.total_len chunks <= limit)%Z ->
  take_chunks limit size chunks = chunks.
Proof.
  revert size; induction chunks as [|c cs IH]; intros size Hfit; simpl.
  - reflexivity.
  - simpl in Hfit. pose proof (total_len_nonneg cs) as Hcs.
    destruct (Z.gtb_spec (size + Str.len c) limit) as [Hgt | Hle]; [lia |].
    f_equal. apply IH. lia.
Qed.

(** One turn of the loop over the uploads. *)
Lemma file_texts_cons (f : File) (files : list File) :
  file_texts (f :: files)
  = ((if is_text_name f then [read_text_file f]
      else if is_pdf_name f
           then (if Str.truthy (extract_pdf f) then [extract_pdf f] else [])
           else [])
     ++ file_texts files)%list.
Proof.
  unfold is_text_name, is_pdf_name. simpl file_texts.
  destruct (_ || _); [reflexivity |].
  destruct (Str.endswith _ ".pdf"); [| reflexivity].
  destruct (Str.truthy _); reflexivity.
Qed.

Lemma file_texts_supported (files : list File) :
  file_texts (filter (fun f => is_text_name f || is_pdf_name f) files)
  = file_texts files.
Proof.
  induction files as [|f files IH]; [reflexivity |].
  rewrite file_texts_cons. cbn [filter].
  destruct (is_text_name f) eqn:Htext; cbn [orb].
  - now rewrite file_texts_cons, Htext, IH.
  - destruct (is_pdf_name f) eqn:Hpdf.
    + now rewrite file_texts_cons, Htext, Hpdf, IH.
    + exact IH.
Qed.

Lemma file_texts_without_pdf (files : list File) :
  pdf_ok = false ->
  file_texts (filter is_text_name files) = file_texts files.
Proof.
  intros Hpdf. induction files as [|f files IH]; [reflexivity |].
  rewrite file_texts_cons. cbn [filter].
  destruct (is_text_name f) eqn:Htext.
  - now rewrite file_texts_cons, Htext, IH.
  - unfold extract_pdf. rewrite Hpdf. cbn [negb Str.truthy Str.is_empty].
    destruct (is_pdf_name f); exact IH.
Qed.

Lemma strip_all_space (s : string) :
  Str.all_space s = true -> Str.strip s = "".
Proof.
  intros Hs. unfold Str.strip.
  assert (Hl : Str.lstrip s = "").
  { induction s as [|c s IH]; [reflexivity |].
    simpl in *. apply andb_true_iff in Hs as [Hc Hs]. rewrite Hc. now apply IH. }
  now rewrite Hl.
Qed.

Lemma filter_truthy_empty (texts : list string) :
  Forall (fun t => t = "") texts -> filter Str.truthy texts = [].
Proof.
  induction 1 as [|t texts Ht _ IH]; [reflexivity |].
  subst t. simpl. exact IH.
Qed.

End KnowledgeBaseMore.

(** The blob is the join of the longest prefix of the chunk sequence
    whose lengths add up to at most 25,000: chunks are kept in order, and
    from the first chunk that does not fit on nothing is kept, not even a
    later chunk that would fit. *)
Theorem build_kb_text_longest_prefix :
  forall (R : Runtime) (files : list File) (pasted_text : string),
  exists out rest : list string,
    kb_chunks files pasted_text = (out ++ rest)%list
    /\ build_kb_text files pasted_text = Str.join Str.nlnl out
    /\ (Str.total_len out <= 25000)%Z
    /\ match rest with
       | [] => True
       | c :: _ => (25000 < Str.total_len out + Str.len c)%Z
       end.
Proof.
  intros R files pasted.
  destruct (take_chunks_longest 25000 0 (kb_chunks files pasted))
    as (rest & Hsplit & Hnext).
  exists (take_chunks 25000 0 (kb_chunks files pasted)), rest.
  split; [exact Hsplit |]. split; [apply build_kb_text_chunks |].
  split.
  - pose proof (take_chunks_budget 25000 0 (kb_chunks files pasted)). lia.
  - destruct rest; [trivial | lia].
Qed.

(** When the chunks of the whole text add up to at most 25,000
    characters, nothing is dropped: the blob is the join of all of them. *)
Theorem build_kb_text_keeps_all :
  forall (R : Runtime) (files : list File) (pasted_text : string),
    (Str.total_len (kb_chunks files pasted_text) <= 25000)%Z ->
    build_kb_text files pasted_text
    = Str.join Str.nlnl (kb_chunks files pasted_text).
Proof.
  intros R files pasted Hfit.
  rewrite build_kb_text_chunks, take_chunks_all; [reflexivity | lia].
Qed.

Lemma build_kb_text_keeps_all_witness :
  @build_kb_text reference_runtime
     [ mkFile "Catatan.TXT" (encode_utf8 ("Sel adalah unit terkecil." ++ Str.nlnl ++ "Inti sel.")) ]
     "  Mitokondria menghasilkan energi.  "
  = "Sel adalah unit terkecil." ++ Str.nlnl ++ "Inti sel." ++ Str.nlnl
    ++ "Mitokondria menghasilkan energi.".
Proof.
  rewrite (build_kb_text_keeps_all reference_runtime).
  - vm_compute. reflexivity.
  - vm_compute. discriminate.
Defined.

(** Uploads the loop does not read never reach the blob: a file whose
    name ends in none of [.txt], [.md], [.pdf] (in any letter case), and,
    when PyPDF2 is missing, a [.pdf] file as well. *)
Theorem build_kb_text_ignores_unread_files :
  forall (R : Runtime) (files : list File) (pasted_text : string),
    build_kb_text (filter (fun f => is_text_name f || is_pdf_name f) files)
      pasted_text
    = build_kb_text files pasted_text
    /\ (pdf_ok = false ->
        build_kb_text (filter is_text_name files) pasted_text
        = build_kb_text files pasted_text).
Proof.
  intros R files pasted. unfold build_kb_text. split.
  - now rewrite file_texts_supported.
  - intros Hpdf. now rewrite file_texts_without_pdf.
Qed.

Lemma build_kb_text_ignores_unread_files_witness :
  @build_kb_text reference_runtime
     (filter (fun f => is_text_name f || is_pdf_name f)
        [ mkFile "catatan.txt" (encode_utf8 "Sel adalah unit terkecil.");
          mkFile "foto.png" (encode_utf8 "abc");
          mkFile "Slide.PDF" (encode_utf8 "%PDF") ])
     "Inti sel."
  = @build_kb_text reference_runtime
      [ mkFile "catatan.txt" (encode_utf8 "Sel adalah unit terkecil.");
        mkFile "foto.png" (encode_utf8 "abc");
        mkFile "Slide.PDF" (encode_utf8 "%PDF") ]
      "Inti sel."
  /\ @build_kb_text reference_runtime
       (filter is_text_name
          [ mkFile "catatan.txt" (encode_utf8 "Sel adalah unit terkecil.");
            mkFile "foto.png" (encode_utf8 "abc");
            mkFile "Slide.PDF" (encode_utf8 "%PDF") ])
       "Inti sel."
     = "Sel adalah unit terkecil." ++ Str.nlnl ++ "Inti sel.".
Proof.
  destruct (build_kb_text_ignores_unread_files reference_runtime
              [ mkFile "catatan.txt" (encode_utf8 "Sel adalah unit terkecil.");
                mkFile "foto.png" (encode_utf8 "abc");
                mkFile "Slide.PDF" (encode_utf8 "%PDF") ]
              "Inti sel.") as [Hread Hpdf].
  split; [exact Hread |].
  rewrite Hpdf by reflexivity. vm_compute. reflexivity.
Defined.

(** With no text at all (every file text empty, the pasted text empty or
    white space only) the blob is the empty string, and the splitter is
    not consulted. *)
Theorem build_kb_text_empty_input :
  forall (R : Runtime) (files : list File) (pasted_text : string),
    Forall (fun t => t = "") (file_texts files) ->
    Str.all_space pasted_text = true ->
    build_kb_text files pasted_text = "".
Proof.
  intros R files pasted Hfiles Hspace. unfold build_kb_text.
  rewrite (strip_all_space pasted Hspace). simpl Str.truthy. cbv iota.
  rewrite app_nil_r, (filter_truthy_empty _ Hfiles). reflexivity.
Qed.

Lemma build_kb_text_empty_input_witness :
  @build_kb_text reference_runtime
     [ mkFile "kosong.md" []; mkFile "foto.png" (encode_utf8 "abc");
       mkFile "slide.pdf" (encode_utf8 "%PDF") ]
     ("   " ++ Str.nl ++ " ")
  = "".
Proof.
  apply (build_kb_text_empty_input reference_runtime).
  - vm_compute. repeat constructor.
  - reflexivity.
Defined.

(* ------------------------------------------------------------------ *)
(** ** Quiz generation: what is kept, and in which form *)

Section QuizMore.

Lemma firstn_exact {A : Type} (l : list A) :
  firstn (List.length l) l = l.
Proof. induction l as [|x l IH]; simpl; [reflexivity | now rewrite IH]. Qed.

Lemma take_four_firstn {A : Type} (l : list A) :
  4 <= List.length l -> Py.take l 4 = firstn 4 l.
Proof.
  intros Hl. unfold Py.take, Str.clamp. change (4 <? 0)%Z with false.
  cbv iota. f_equal. lia.
Qed.

(** The item built from an accepted element. *)
Lemma mcq_entry_form (item entry : value) :
  mcq_accepts item = true ->
  mcq_entry item = Ok entry ->
  exists d q a key k,
    item = VDict d
    /\ Py.lookup d "q" = Some q
    /\ Py.lookup d "a" = Some (VList a)
    /\ Py.lookup d "key" = Some key
    /\ Py.int key = Ok k
    /\ entry = VDict [ ("q", q); ("a", VList (firstn 4 a)); ("key", VInt k) ].
Proof.
  intros Hacc Hentry.
  destruct (mcq_accepts_inv item Hacc)
    as (d & q & a & key & -> & Hq & Ha & Hk & Hlen).
  unfold mcq_entry in Hentry. simpl in Hentry.
  rewrite Hq, Ha, Hk in Hentry. simpl in Hentry.
  destruct (Py.int key) as [k|e] eqn:Hint; simpl in Hentry; [| discriminate].
  injection Hentry as <-.
  exists d, q, a, key, k. rewrite take_four_firstn by exact Hlen.
  repeat split; trivial.
Qed.

(** A quiz item passes the test again and is its own normal form. *)
Lemma quiz_item_fixed (item : value) :
  is_quiz_item item -> mcq_accepts item = true /\ mcq_entry item = Ok item.
Proof.
  intros (q & a & k & -> & Hlen). split.
  - unfold mcq_accepts. simpl. rewrite Hlen. reflexivity.
  - unfold mcq_entry. simpl. rewrite take_four_firstn by lia.
    rewrite <- Hlen at 1. now rewrite firstn_exact.
Qed.

Lemma key_converts_entry (item : value) :
  mcq_accepts item = true -> key_converts item = true ->
  exists entry, mcq_entry item = Ok entry.
Proof.
  intros Hacc Hconv.
  destruct (mcq_accepts_inv item Hacc)
    as (d & q & a & key & -> & Hq & Ha & Hk & Hlen).
  unfold key_converts in Hconv. unfold mcq_entry. simpl in *.
  rewrite Hq, Ha, Hk in *. simpl.
  destruct (Py.int key) as [k|e]; [| discriminate].
  simpl. eexists. reflexivity.
Qed.

Lemma rfind_from_bound (c : ascii) (s : string) (i : Z) :
  (0 <= i)%Z ->
  (Str.rfind_from c i s <= i + Str.len s - 1)%Z
  /\ (- 1 <= Str.rfind_from c i s)%Z.
Proof.
  revert i; induction s as [|d s IH]; intros i Hi.
  - cbn. lia.
  - cbn [Str.rfind_from]. destruct (IH (i + 1)%Z) as [Hup Hlow]; [lia |].
    unfold Str.len in *. cbn [String.length].
    destruct (0 <=? Str.rfind_from c (i + 1) s)%Z; [lia |].
    destruct (Ascii.eqb c d); lia.
Qed.

Lemma rfind_from_other_last (c d : ascii) (s : string) (i : Z) :
  Ascii.eqb c d = false ->
  Str.rfind_from c i (s ++ String d "") = Str.rfind_from c i s.
Proof.
  intros Hcd. revert i; induction s as [|x s IH]; intros i.
  - cbn. now rewrite Hcd.
  - cbn [append Str.rfind_from]. now rewrite IH.
Qed.

Lemma find_from_none (c : ascii) (s : string) (i : Z) :
  Str.contains c s = false -> Str.find_from c i s = (-1)%Z.
Proof.
  revert i; induction s as [|d s IH]; intros i Hs; [reflexivity |].
  cbn in *. apply orb_false_elim in Hs as [Hd Hs]. rewrite Hd. now apply IH.
Qed.

Lemma substring_zero (i : nat) (s : string) : String.substring i 0 s = "".
Proof.
  revert i; induction s as [|c s IH]; intros [|i]; simpl; trivial.
Qed.

(** Without an opening bracket, and with a last character that is not a
    closing bracket, the slice that [gen_mcq] parses is empty. *)
Lemma bracket_slice_empty (s : string) (d : ascii) :
  Str.contains "["%char (s ++ String d "") = false ->
  Ascii.eqb "]"%char d = false ->
  Str.slice (s ++ String d "")
    (Str.find "["%char (s ++ String d ""))
    (Str.rfind "]"%char (s ++ String d "") + 1)
  = "".
Proof.
  intros Hopen Hlast. unfold Str.find, Str.rfind.
  rewrite find_from_none by exact Hopen.
  rewrite rfind_from_other_last by exact Hlast.
  destruct (rfind_from_bound "]"%char s 0) as [Hup Hlow]; [lia |].
  unfold Str.slice, Str.clamp.
  assert (Hlen : Str.len (s ++ String d "") = (Str.len s + 1)%Z).
  { rewrite len_append. reflexivity. }
  rewrite Hlen. pose proof (len_nonneg s) as Hs.
  change (-1 <? 0)%Z with true. cbv iota.
  destruct (Z.ltb_spec (Str.rfind_from "]"%char 0 s + 1) 0) as [Hneg | Hpos];
    [lia |].
  replace (Z.to_nat (Z.min (Str.rfind_from "]"%char 0 s + 1) (Str.len s + 1)
                     - Z.max (-1 + (Str.len s + 1)) 0)) with 0 by lia.
  apply substring_zero.
Qed.

End QuizMore.

(** When the key of every element that passes the test converts with
    [int()], [gen_mcq] returns the items of the elements that pass, in the
    order of the array, cut to the first [n]: the other elements are
    skipped one by one. *)
Theorem gen_mcq_keeps_order :
  forall (R : Runtime) (client : Client) (model_id context : string) (n : Z)
         (items : list value),
    json_loads
      (Str.slice
         (ask_model client model_id mcq_system (mcq_user context n) temperature_mcq)
         (Str.find "["%char
            (ask_model client model_id mcq_system (mcq_user context n)
               temperature_mcq))
         (Str.rfind "]"%char
            (ask_model client model_id mcq_system (mcq_user context n)
               temperature_mcq) + 1))
    = Ok (VList items) ->
    forallb (fun item => implb (mcq_accepts item) (key_converts item)) items
    = true ->
    gen_mcq client model_id context n = Py.take (mcq_entries items) n.
Proof.
  intros R client model_id context n items Hloads Hconv.
  unfold gen_mcq, mcq_parse. rewrite Hloads. simpl.
  rewrite mcq_loop_entries; [reflexivity |].
  intros item Hin Hacc. rewrite forallb_forall in Hconv.
  specialize (Hconv item Hin). rewrite Hacc in Hconv.
  now apply key_converts_entry.
Qed.

Lemma gen_mcq_keeps_order_witness :
  @gen_mcq reference_runtime (answering mixed_response)
     "gemini-1.5-flash" "Sel adalah unit terkecil kehidupan." 2
  = [ VDict [ ("q", VStr "Q1");
              ("a", VList [VStr "A"; VStr "B"; VStr "C"; VStr "D"]);
              ("key", VInt 3) ];
      VDict [ ("q", VStr "Q3");
              ("a", VList [VStr "A"; VStr "B"; VStr "C"; VStr "D"]);
              ("key", VInt 1) ] ].
Proof.
  rewrite (gen_mcq_keeps_order reference_runtime (answering mixed_response)
             "gemini-1.5-flash" "Sel adalah unit terkecil kehidupan." 2
             [ VInt 7; VStr "teks";
               VDict [ ("q", VStr "Q1");
                       ("a", VList [VStr "A"; VStr "B"; VStr "C"; VStr "D"; VStr "E"]);
                       ("key", VStr "3"); ("hint", VStr "x") ];
               VDict [ ("q", VStr "Q2");
                       ("a", VList [VStr "A"; VStr "B"; VStr "C"]);
                       ("key", VInt 0) ];
               VDict [ ("q", VStr "Q3");
                       ("a", VList [VStr "A"; VStr "B"; VStr "C"; VStr "D"]);
                       ("key", VBool true) ];
               VDict [ ("a", VList [VStr "A"; VStr "B"; VStr "C"; VStr "D"]);
                       ("key", VInt 1) ];
               VDict [ ("q", VStr "Q4");
                       ("a", VList [VStr "A"; VStr "B"; VStr "C"; VStr "D"]);
                       ("key", VInt 9) ] ]).
  - vm_compute. reflexivity.
  - vm_compute. reflexivity.
  - vm_compute. reflexivity.
Defined.

(** The item kept for an element holds the question as it was, the first
    four options in their order and the key converted with [int()], of
    whatever value (no range is checked); every other field is dropped.
    Each returned item passes the test again and is left as it is by the
    normalisation. *)
Theorem gen_mcq_normal_form :
  forall (R : Runtime) (client : Client) (model_id context : string) (n : Z),
    (forall item entry : value,
        mcq_accepts item = true -> mcq_entry item = Ok entry ->
        exists d q a key k,
          item = VDict d
          /\ Py.lookup d "q" = Some q
          /\ Py.lookup d "a" = Some (VList a)
          /\ Py.lookup d "key" = Some key
          /\ Py.int key = Ok k
          /\ entry = VDict [ ("q", q); ("a", VList (firstn 4 a)); ("key", VInt k) ])
    /\ Forall (fun item => mcq_accepts item = true /\ mcq_entry item = Ok item)
         (gen_mcq client model_id context n).
Proof.
  intros R client model_id context n. split; [apply mcq_entry_form |].
  unfold gen_mcq. destruct (mcq_parse _ n) as [valid|e] eqn:Hparse;
    [| constructor].
  pose proof (mcq_parse_shape _ n valid Hparse) as Hshape.
  rewrite Forall_forall in *. intros item Hin.
  apply quiz_item_fixed. now apply Hshape.
Qed.

Lemma gen_mcq_normal_form_witness :
  (exists d q a key k,
      VDict [ ("q", VStr "Q1");
              ("a", VList [VStr "A"; VStr "B"; VStr "C"; VStr "D"; VStr "E"]);
              ("key", VStr "3"); ("hint", VStr "x") ]
      = VDict d
      /\ Py.lookup d "q" = Some q
      /\ Py.lookup d "a" = Some (VList a)
      /\ Py.lookup d "key" = Some key
      /\ Py.int key = Ok k
      /\ VDict [ ("q", VStr "Q1");
                 ("a", VList [VStr "A"; VStr "B"; VStr "C"; VStr "D"]);
                 ("key", VInt 3) ]
         = VDict [ ("q", q); ("a", VList (firstn 4 a)); ("key", VInt k) ])
  /\ Forall (fun item => mcq_accepts item = true /\ mcq_entry item = Ok item)
       (@gen_mcq reference_runtime (answering mixed_response)
          "gemini-1.5-flash" "Sel adalah unit terkecil kehidupan." 2).
Proof.
  destruct (gen_mcq_normal_form reference_runtime (answering mixed_response)
              "gemini-1.5-flash" "Sel adalah unit terkecil kehidupan." 2)
    as [Hform Hall].
  split; [apply Hform; reflexivity | exact Hall].
Defined.

(** When the generation call fails with an error text that holds no
    opening bracket, [gen_mcq] returns no item, as soon as the JSON parser
    rejects the empty text. *)
Theorem gen_mcq_failed_call :
  forall (R : Runtime) (client : Client) (model_id context : string) (n : Z)
         (e msg : string),
    client (mcq_request model_id context n) = Raise e ->
    Str.contains "["%char e = false ->
    json_loads "" = Raise msg ->
    gen_mcq client model_id context n = [].
Proof.
  intros R client model_id context n e msg Hfail Hopen Hempty.
  unfold gen_mcq, mcq_parse, ask_model.
  fold (mcq_request model_id context n). rewrite Hfail.
  replace ("(Gagal memanggil model: " ++ e ++ ")")
    with (("(Gagal memanggil model: " ++ e) ++ String ")"%char "")
    by (now rewrite append_assoc).
  rewrite bracket_slice_empty.
  - rewrite Hempty. reflexivity.
  - rewrite !contains_append, Hopen. reflexivity.
  - reflexivity.
Qed.

Lemma gen_mcq_failed_call_witness :
  @gen_mcq reference_runtime (fun _ => Raise "429 RESOURCE_EXHAUSTED]")
     "gemini-1.5-flash" "Sel adalah unit terkecil kehidupan." 5 = [].
Proof.
  apply (gen_mcq_failed_call reference_runtime _ _ _ _
           "429 RESOURCE_EXHAUSTED]" "Expecting value");
    reflexivity.
Defined.

(* ------------------------------------------------------------------ *)
(** ** Quiz grading *)

Section GradingFacts.

Lemma score_table_100 : score_table 100 = true.
Proof. vm_compute. reflexivity. Qed.

Lemma score_table_spec (bound : nat) :
  score_table bound = true ->
  forall n b : nat,
    1 <= n <= bound -> b <= n ->
    score_of (Z.of_nat b) (Z.of_nat n)
    = Ok (100 * Z.of_nat b / Z.of_nat n)%Z.
Proof.
  unfold score_table. intros Htab n b Hn Hb.
  rewrite forallb_forall in Htab.
  assert (Hin : In n (seq 1 bound)) by (apply in_seq; lia).
  specialize (Htab n Hin). rewrite forallb_forall in Htab.
  assert (Hin' : In b (seq 0 (S n))) by (apply in_seq; lia).
  specialize (Htab b Hin').
  destruct (score_of (Z.of_nat b) (Z.of_nat n)) as [z|e]; [| discriminate].
  apply Z.eqb_eq in Htab. now subst z.
Qed.

(** The score is the percentage of correct answers, rounded down. *)
Lemma score_of_floor (benar n : Z) :
  (0 <= benar <= n)%Z -> (1 <= n <= 100)%Z ->
  score_of benar n = Ok (100 * benar / n)%Z.
Proof.
  intros Hb Hn.
  pose proof (score_table_spec 100 score_table_100 (Z.to_nat n)
                (Z.to_nat benar)) as Hs.
  rewrite !Z2Nat.id in Hs by lia. apply Hs; lia.
Qed.

Lemma correct_rows_cons (row : value) (rows : list value) :
  correct_rows (row :: rows)
  = ((if marked_correct row then 1 else 0) + correct_rows rows)%Z.
Proof.
  unfold correct_rows. simpl. destruct (marked_correct row); simpl List.length; lia.
Qed.

Lemma correct_rows_bound (rows : list value) :
  (0 <= correct_rows rows <= Z.of_nat (List.length rows))%Z.
Proof.
  unfold correct_rows. pose proof (filter_length_le marked_correct rows). lia.
Qed.

(** Grading one quiz item whose key is in range. *)
Lemma grade_item_in_range (answers : list (string * value)) (i : Z)
    (item : value) :
  is_quiz_item item -> key_in_range item = true ->
  exists row ok,
    grade_item (VDict answers) i item = Ok (row, ok)
    /\ Py.getitem row "no" = Ok (VInt i)
    /\ marked_correct row = ok.
Proof.
  intros (q & a & k & -> & Hlen) Hrange.
  unfold key_in_range in Hrange. simpl in Hrange.
  apply andb_true_iff in Hrange as [Hlow Hup].
  apply Z.leb_le in Hlow. apply Z.ltb_lt in Hup.
  unfold grade_item. simpl.
  destruct (Py.lookup answers (mcq_widget i)) as [user_ans|]; simpl;
    rewrite Hlen; simpl Z.of_nat.
  all: set (k' := if (k <? 0)%Z then (k + 4)%Z else k).
  all: assert (Hk' : (0 <= k' < 4)%Z)
         by (unfold k'; destruct (Z.ltb_spec k 0); lia).
  all: assert (Hin : (0 <=? k')%Z && (k' <? 4)%Z = true)
         by (apply andb_true_iff; split; [apply Z.leb_le | apply Z.ltb_lt]; lia).
  all: rewrite Hin.
  all: destruct (nth_error a (Z.to_nat k')) as [correct|] eqn:Hnth;
         [| apply nth_error_None in Hnth; lia].
  all: simpl; eexists; eexists; split; [reflexivity |]; split; [reflexivity |].
  all: unfold marked_correct; simpl.
  all: match goal with |- (match ?b with _ => _ end) = _ => destruct b; reflexivity
       | |- _ => idtac end.
  all: match goal with |- context [Op.eq ?x ?y] => destruct (Op.eq x y); reflexivity end.
Qed.


Lemma grade_loop_in_range (answers : list (string * value))
    (items : list value) :
  Forall is_quiz_item items ->
  forallb key_in_range items = true ->
  forall (i : Z) (rows : list value) (benar : Z),
  exists rows',
    grade_loop (VDict answers) i items rows benar
    = Ok ((rows ++ rows')%list, (benar + correct_rows rows')%Z)
    /\ List.length rows' = List.length items
    /\ (forall (j : nat) (row : value),
           nth_error rows' j = Some row ->
           Py.getitem row "no" = Ok (VInt (i + Z.of_nat j))).
Proof.
  induction items as [|item items IH]; intros Hshape Hrange i rows benar.
  - exists []. simpl. rewrite app_nil_r. unfold correct_rows. simpl.
    rewrite Z.add_0_r. repeat split. intros [|j] row; discriminate.
  - inversion Hshape as [|? ? Hitem Hrest]; subst.
    simpl in Hrange. apply andb_true_iff in Hrange as [Hk Hks].
    destruct (grade_item_in_range answers i item Hitem Hk)
      as (row & ok & Hgrade & Hno & Hmark).
    destruct (IH Hrest Hks (i + 1)%Z (rows ++ [row])%list
                (benar + (if ok then 1 else 0))%Z)
      as (rows' & Hloop & Hlen & Hnos).
    exists (row :: rows'). simpl grade_loop. rewrite Hgrade. simpl.
    rewrite Hloop, <- app_assoc. simpl app.
    rewrite correct_rows_cons, Hmark. split; [f_equal; f_equal; lia |].
    split; [simpl; now rewrite Hlen |].
    intros [|j] r Hr; simpl in Hr.
    + injection Hr as <-. now rewrite Z.add_0_r.
    + rewrite (Hnos j r Hr). do 2 f_equal. lia.
Qed.


End GradingFacts.

(** Grading a quiz of one to a hundred items as [gen_mcq] builds them,
    whose keys index one of the four options (from -4 to 3, a negative key
    counting from the last option): the handler stores a result with one
    row per question, numbered from 1, and the score is the percentage of
    rows marked correct, rounded down. *)
Theorem submit_quiz_scores :
  forall (now : string) (s : Session) (items : list value)
         (answers : list (string * value)),
    quiz s = VList items ->
    quiz_answers s = VDict answers ->
    1 <= List.length items <= 100 ->
    Forall is_quiz_item items ->
    forallb key_in_range items = true ->
    exists rows : list value,
      submit_quiz now s
      = (Ok tt,
         set_last_quiz_result
           (quiz_result (100 * correct_rows rows / Z.of_nat (List.length rows))
              rows now) s)
      /\ List.length rows = List.length items
      /\ (forall (j : nat) (row : value),
             nth_error rows j = Some row ->
             Py.getitem row "no" = Ok (VInt (1 + Z.of_nat j))).
Proof.
  intros now s items answers Hquiz Hans Hlen Hshape Hrange.
  destruct (grade_loop_in_range answers items Hshape Hrange 1 [] 0)
    as (rows & Hloop & Hrows & Hnos).
  exists rows. split; [| split; [exact Hrows | exact Hnos]].
  unfold submit_quiz, and_then, lift, assign. rewrite Hquiz, Hans.
  destruct items as [|item items]; [simpl in Hlen; lia |].
  cbn [Py.truthy Py.iter]. rewrite Hloop. cbn [fst snd app].
  rewrite score_of_floor.
  - cbn [Py.len]. rewrite Hrows, Z.add_0_l. reflexivity.
  - pose proof (correct_rows_bound rows) as Hb. cbn [Py.len].
    rewrite <- Hrows. lia.
  - cbn [Py.len]. lia.
Qed.

Lemma submit_quiz_scores_witness :
  exists rows : list value,
    submit_quiz "2024-05-01T10:00:00" (graded_session [0; 1; -1]%Z)
    = (Ok tt,
       set_last_quiz_result
         (quiz_result (100 * correct_rows rows / Z.of_nat (List.length rows))
            rows "2024-05-01T10:00:00") (graded_session [0; 1; -1]%Z))
    /\ List.length rows = 3
    /\ (forall (j : nat) (row : value),
           nth_error rows j = Some row ->
           Py.getitem row "no" = Ok (VInt (1 + Z.of_nat j))).
Proof.
  apply (submit_quiz_scores "2024-05-01T10:00:00" (graded_session [0; 1; -1]%Z)
           (map (sample_item "Q") [0; 1; -1]%Z)
           [ ("mcq_1", VStr "A"); ("mcq_2", VNone); ("mcq_3", VStr "D") ]).
  - reflexivity.
  - reflexivity.
  - simpl. lia.
  - repeat constructor; eexists; eexists; eexists; split; reflexivity.
  - reflexivity.
Defined.



(* ------------------------------------------------------------------ *)
(** ** Delimited-text export: plain values, column order *)

Section CsvMore.
Context {R : Runtime}.

Lemma replace_absent (c : ascii) (t s : string) :
  Str.contains c s = false -> Str.replace c t s = s.
Proof.
  induction s as [|d s IH]; [reflexivity |]. cbn.
  intros Hs. apply orb_false_elim in Hs as [Hd Hs].
  now rewrite Hd, IH.
Qed.

Lemma distinct_NoDup (keys : list string) :
  distinct keys = true -> NoDup keys.
Proof.
  induction keys as [|k keys IH]; [constructor |]. cbn.
  intros Hd. apply andb_true_iff in Hd as [Hk Hd].
  constructor; [| now apply IH].
  intros Hin. apply negb_true_iff in Hk.
  assert (Hex : existsb (String.eqb k) keys = true).
  { apply existsb_exists. exists k. split; [exact Hin | apply String.eqb_refl]. }
  congruence.
Qed.

(** Looking up the keys of a record in their order gives its values. *)
Lemma row_get_own_keys (r : list (string * value)) :
  NoDup (map fst r) -> map (row_get r) (map fst r) = map snd r.
Proof.
  induction r as [|[k v] r IH]; [reflexivity |].
  cbn [map fst snd]. intros Hnd. inversion Hnd as [|? ? Hk Hrest]; subst.
  f_equal.
  - unfold row_get. cbn. now rewrite String.eqb_refl.
  - rewrite <- (IH Hrest). apply map_ext_in. intros c Hc.
    unfold row_get. cbn.
    destruct (String.eqb c k) eqn:Hck; [| reflexivity].
    apply String.eqb_eq in Hck. subst c. contradiction.
Qed.

Lemma csv_line_own_keys (r : list (string * value)) :
  NoDup (map fst r) -> csv_line (map fst r) r = csv_values r.
Proof.
  intros Hnd. unfold csv_line, csv_values. f_equal.
  rewrite <- (map_map (row_get r) csv_field), (row_get_own_keys r Hnd).
  now rewrite map_map.
Qed.

Lemma csv_lines_uniform (first : list (string * value))
    (rest : list (list (string * value))) :
  distinct (map fst first) = true ->
  Forall (fun r => map fst r = map fst first) rest ->
  csv_lines (first :: rest)
  = Str.join "," (map fst first) :: map csv_values (first :: rest).
Proof.
  intros Hdist Hsame. unfold csv_lines. f_equal.
  apply distinct_NoDup in Hdist.
  apply map_ext_in. intros r [<- | Hin].
  - now apply csv_line_own_keys.
  - rewrite Forall_forall in Hsame. rewrite <- (Hsame r Hin).
    apply csv_line_own_keys. now rewrite (Hsame r Hin).
Qed.

Lemma encode_utf8_nonempty (c : ascii) (s : string) :
  encode_utf8 (String c s) <> [].
Proof. destruct c as [[] [] [] [] [] [] [] []]; discriminate. Qed.

End CsvMore.

(** A value without a comma, a line break or a double quote is written
    as it is, with no quoting. *)
Theorem csv_field_verbatim :
  forall (R : Runtime) (x : value),
    Str.contains Str.comma (Py.str x) = false ->
    Str.contains "010"%char (Py.str x) = false ->
    Str.contains Str.dquote (Py.str x) = false ->
    csv_field x = Py.str x.
Proof.
  intros R x Hc Hn Hq.
  rewrite (csv_field_plain x Hc Hn). now apply replace_absent.
Qed.

Lemma csv_field_verbatim_witness :
  @csv_field reference_runtime (VStr "2024-05-01T10:00:00.123456")
  = "2024-05-01T10:00:00.123456"
  /\ @csv_field reference_runtime (VBool true) = "True"
  /\ @csv_field reference_runtime (VInt (-3)) = "-3"
  /\ @csv_field reference_runtime VNone = "None".
Proof.
  split; [| split; [| split]];
    apply (csv_field_verbatim reference_runtime); reflexivity.
Defined.

(** When every record has the keys of the first one in the same order,
    the export is the header followed by one line per record, the values
    of the record written in their order. *)
Theorem make_csv_bytes_uniform_rows :
  forall (R : Runtime) (first : list (string * value))
         (rest : list (list (string * value))),
    distinct (map fst first) = true ->
    Forall (fun r => map fst r = map fst first) rest ->
    make_csv_bytes (first :: rest)
    = encode_utf8
        (Str.join Str.nl
           (Str.join "," (map fst first) :: map csv_values (first :: rest))).
Proof.
  intros R first rest Hdist Hsame.
  unfold make_csv_bytes. now rewrite csv_lines_uniform.
Qed.

Lemma make_csv_bytes_uniform_rows_witness :
  @make_csv_bytes reference_runtime uniform_rows
  = encode_utf8
      ("ts,role,text" ++ Str.nl
       ++ "2024-05-01T10:00:00,user,Apa itu sel?" ++ Str.nl
       ++ "2024-05-01T10:00:05,assistant,"
       ++ jtext "'Sel, atau ''cell''," ++ Str.nl ++ jtext "adalah unit.'").
Proof.
  unfold uniform_rows.
  rewrite (make_csv_bytes_uniform_rows reference_runtime).
  - vm_compute. reflexivity.
  - reflexivity.
  - repeat constructor.
Defined.

(** The export is empty for an empty record list only: any record, even
    one without keys, gives at least the line break after the header. *)
Theorem make_csv_bytes_empty_iff :
  forall (R : Runtime) (rows : list (list (string * value))),
    make_csv_bytes rows = [] <-> rows = [].
Proof.
  intros R rows. split; [| now intros ->].
  destruct rows as [|first rest]; [reflexivity |].
  unfold make_csv_bytes, csv_lines. cbn [map].
  set (header := Str.join "," (map fst first)).
  set (line := csv_line (map fst first) first).
  set (lines := map (csv_line (map fst first)) rest).
  change (Str.join Str.nl (header :: line :: lines))
    with (header ++ Str.nl ++ Str.join Str.nl (line :: lines)).
  destruct header as [|c header]; intros Hempty; exfalso.
  - revert Hempty. apply encode_utf8_nonempty.
  - revert Hempty. apply encode_utf8_nonempty.
Qed.

(* ------------------------------------------------------------------ *)
(** ** Import: defaults, rejected documents, repetition *)

Section ImportMore.
Context {R : Runtime}.

(** What the handler does with a document that reads as a dict [d]. *)
Lemma import_json_of_dict (up : list byte) (s : Session)
    (d : list (string * value)) :
  (text <- decode_utf8 up ;; json_loads text) = Ok (VDict d) ->
  import_json up s
  = (Ok (Success "Berhasil di-import. Buka tab Chat/Quiz untuk melihat hasilnya."),
     mkSession (field_or d "messages" (VList []))
       (field_or d "kb_text" (VStr ""))
       (quiz s) (quiz_answers s)
       (if Py.truthy (field_or d "last_quiz_result" VNone)
        then Some (field_or d "last_quiz_result" VNone)
        else last_quiz_result s)).
Proof.
  intros Hread.
  unfold import_json, try_except, and_then, lift, assign, ret, field_or.
  rewrite Hread. cbn.
  destruct (Py.lookup d "messages"), (Py.lookup d "kb_text"),
    (Py.lookup d "last_quiz_result") as [q|]; cbn;
    try destruct (Py.truthy q); reflexivity.
Qed.

(** What the handler does with a document that reads as something else. *)
Lemma import_json_of_other (up : list byte) (s : Session) (v : value) :
  (text <- decode_utf8 up ;; json_loads text) = Ok v ->
  Py.isinstance_dict v = false ->
  import_json up s
  = (Ok (Error ("Gagal import JSON: '" ++ Py.type_name v
                ++ "' object has no attribute 'get'")), s).
Proof.
  intros Hread Hv.
  unfold import_json, try_except, and_then, lift, assign, ret.
  rewrite Hread. destruct v; try discriminate; reflexivity.
Qed.

Lemma comprehension_turns (now : nat -> string) (pairs : list (value * value))
    (i : nat) :
  comprehension
    (fun i m =>
       role <- Py.getitem m "role" ;;
       text <- Py.getitem m "text" ;;
       Ok [ ("ts", VStr (now i)); ("role", role); ("text", text) ])
    i (map (fun p => VDict [ ("role", fst p); ("text", snd p) ]) pairs)
  = Ok (map (fun ip : nat * (value * value) =>
               [ ("ts", VStr (now (fst ip))); ("role", fst (snd ip));
                 ("text", snd (snd ip)) ])
            (numbered i pairs)).
Proof.
  revert i; induction pairs as [|[r t] pairs IH]; intros i; [reflexivity |].
  cbn [map comprehension numbered]. cbn [Py.getitem Py.lookup String.eqb
    Ascii.eqb Bool.eqb fst snd bind]. rewrite IH. reflexivity.
Qed.

End ImportMore.

(** A document that reads as a dict is always imported: [messages] and
    [kb_text] are overwritten by its values, or by the empty list and the
    empty string when the key is missing; the quiz and its answers are
    left alone; the stored quiz result is replaced only when the document
    holds a non-empty one, and is never cleared. *)
Theorem import_json_overwrites :
  forall (R : Runtime) (up : list byte) (s : Session)
         (d : list (string * value)),
    (text <- decode_utf8 up ;; json_loads text) = Ok (VDict d) ->
    fst (import_json up s)
    = Ok (Success "Berhasil di-import. Buka tab Chat/Quiz untuk melihat hasilnya.")
    /\ messages (snd (import_json up s)) = field_or d "messages" (VList [])
    /\ kb_text (snd (import_json up s)) = field_or d "kb_text" (VStr "")
    /\ quiz (snd (import_json up s)) = quiz s
    /\ quiz_answers (snd (import_json up s)) = quiz_answers s
    /\ last_quiz_result (snd (import_json up s))
       = if Py.truthy (field_or d "last_quiz_result" VNone)
         then Some (field_or d "last_quiz_result" VNone)
         else last_quiz_result s.
Proof.
  intros R up s d Hread. rewrite (import_json_of_dict up s d Hread).
  repeat split.
Qed.

Lemma import_json_overwrites_witness :
  @import_json reference_runtime (encode_utf8 (jtext "{'kb_text': 'baru', 'last_quiz_result': {}}"))
     sample_session
  = (Ok (Success "Berhasil di-import. Buka tab Chat/Quiz untuk melihat hasilnya."),
     mkSession (VList []) (VStr "baru") (quiz sample_session)
       (quiz_answers sample_session) (last_quiz_result sample_session)).
Proof.
  pose proof (import_json_overwrites reference_runtime
                (encode_utf8 (jtext "{'kb_text': 'baru', 'last_quiz_result': {}}"))
                sample_session
                [ ("kb_text", VStr "baru"); ("last_quiz_result", VDict []) ])
    as Himp.
  destruct Himp as (Hnote & Hm & Hk & Hq & Ha & Hl); [vm_compute; reflexivity |].
  destruct (@import_json reference_runtime _ sample_session) as [note s'].
  cbn [fst snd] in *. subst note. destruct s'. cbn in *. now subst.
Defined.

(** A document that parses to anything but a dict (a list, a string, a
    number, [null]) is reported as an error naming its type, and the
    session is left as it was. *)
Theorem import_json_rejects_non_dict :
  forall (R : Runtime) (up : list byte) (s : Session) (v : value),
    (text <- decode_utf8 up ;; json_loads text) = Ok v ->
    Py.isinstance_dict v = false ->
    import_json up s
    = (Ok (Error ("Gagal import JSON: '" ++ Py.type_name v
                  ++ "' object has no attribute 'get'")), s).
Proof. intros R up s v. apply import_json_of_other. Qed.

Lemma import_json_rejects_non_dict_witness :
  @import_json reference_runtime
     (encode_utf8 (jtext "[{'role': 'user', 'text': 'hai'}]")) sample_session
  = (Ok (Error "Gagal import JSON: 'list' object has no attribute 'get'"),
     sample_session).
Proof.
  apply (import_json_rejects_non_dict reference_runtime _ sample_session
           (VList [ VDict [ ("role", VStr "user"); ("text", VStr "hai") ] ]));
    reflexivity.
Defined.

(** Importing the same document a second time changes nothing more. *)
Theorem import_json_idempotent :
  forall (R : Runtime) (up : list byte) (s : Session),
    import_json up (snd (import_json up s)) = import_json up s.
Proof.
  intros R up s.
  destruct (text <- decode_utf8 up ;; json_loads text) as [v|e] eqn:Hread.
  - destruct v as [| | | | | |d].
    7: { rewrite !(import_json_of_dict up _ d Hread). cbn [snd].
         destruct (Py.truthy (field_or d "last_quiz_result" VNone)); reflexivity. }
    all: rewrite !(import_json_of_other up _ _ Hread) by reflexivity;
      reflexivity.
  - unfold import_json, try_except, and_then, lift, assign, ret.
    rewrite Hread. reflexivity.
Qed.

(** The import checks no shape: a document whose [messages] is not a
    sequence is imported with success, and at the next run of the script
    the loop of the chat tab that shows the history raises on it. *)
Theorem import_json_unchecked_messages :
  forall (R : Runtime) (up : list byte) (s : Session)
         (d : list (string * value)) (v : value) (e : string),
    (text <- decode_utf8 up ;; json_loads text) = Ok (VDict d) ->
    Py.lookup d "messages" = Some v ->
    Py.iter v = Raise e ->
    fst (import_json up s)
    = Ok (Success "Berhasil di-import. Buka tab Chat/Quiz untuk melihat hasilnya.")
    /\ show_history (messages (snd (import_json up s))) = Raise e.
Proof.
  intros R up s d v e Hread Hv Hiter.
  rewrite (import_json_of_dict up s d Hread). split; [reflexivity |].
  unfold show_history, field_or. cbn [snd messages].
  rewrite Hv, Hiter. reflexivity.
Qed.

Lemma import_json_unchecked_messages_witness :
  fst (@import_json reference_runtime
         (encode_utf8 (jtext "{'messages': 5}")) sample_session)
  = Ok (Success "Berhasil di-import. Buka tab Chat/Quiz untuk melihat hasilnya.")
  /\ show_history
       (messages (snd (@import_json reference_runtime
                         (encode_utf8 (jtext "{'messages': 5}"))
                         sample_session)))
     = Raise "'int' object is not iterable".
Proof.
  apply (import_json_unchecked_messages reference_runtime _ sample_session
           [ ("messages", VInt 5) ] (VInt 5)); reflexivity.
Defined.

(* ------------------------------------------------------------------ *)
(** ** The export tab *)

Section ExportTabFacts.
Context {R : Runtime}.

Lemma chat_rows_lines (now : nat -> string) (p : value * value)
    (pairs : list (value * value)) (i : nat) :
  csv_lines
    (map (fun ip : nat * (value * value) =>
            [ ("ts", VStr (now (fst ip))); ("role", fst (snd ip));
              ("text", snd (snd ip)) ])
         (numbered i (p :: pairs)))
  = "ts,role,text" :: map (chat_line now) (numbered i (p :: pairs)).
Proof.
  cbn [numbered map]. rewrite csv_lines_uniform.
  - cbn [map fst]. f_equal. cbn [map]. f_equal.
    rewrite map_map. reflexivity.
  - reflexivity.
  - rewrite Forall_forall. intros r Hr.
    apply in_map_iff in Hr as (ip & <- & _). reflexivity.
Qed.

End ExportTabFacts.

(** The chat export of a history of turns, each a dict with a role and a
    text: nothing for an empty history; otherwise the header
    [ts,role,text] and one line per turn, in the order of the chat, made
    of the time the row was built, the role and the text. *)
Theorem chat_csv_one_line_per_turn :
  forall (R : Runtime) (now : nat -> string) (s : Session)
         (pairs : list (value * value)),
    messages s = turns pairs ->
    chat_csv now s
    = Ok (match pairs with
          | [] => []
          | _ :: _ =>
              encode_utf8
                (Str.join Str.nl
                   ("ts,role,text" :: map (chat_line now) (numbered 0 pairs)))
          end).
Proof.
  intros R now s pairs Hm. unfold chat_csv, chat_rows. rewrite Hm.
  unfold turns. cbn [Py.iter bind]. rewrite comprehension_turns. cbn [bind].
  destruct pairs as [|p pairs]; [reflexivity |].
  rewrite <- (chat_rows_lines now p pairs 0). reflexivity.
Qed.

Lemma chat_csv_one_line_per_turn_witness :
  @chat_csv reference_runtime
     (fun i => "2024-05-01T10:00:0" ++ Str.of_Z (Z.of_nat i)) sample_session
  = Ok (encode_utf8
          ("ts,role,text" ++ Str.nl
           ++ "2024-05-01T10:00:00,user," ++ jtext "Apa itu ''sel''?" ++ Str.nl
           ++ "2024-05-01T10:00:01,assistant,"
           ++ jtext "'Sel adalah unit terkecil kehidupan." ++ Str.nl
           ++ jtext "*Sumber: KB*'")).
Proof.
  rewrite (chat_csv_one_line_per_turn reference_runtime _ sample_session
             [ (VStr "user", VStr (jtext "Apa itu 'sel'?"));
               (VStr "assistant",
                VStr ("Sel adalah unit terkecil kehidupan." ++ Str.nl
                      ++ "*Sumber: KB*")) ]).
  - vm_compute. reflexivity.
  - reflexivity.
Defined.

(* ------------------------------------------------------------------ *)
(** ** The quiz export after grading *)

Section QuizExportFacts.
Context {R : Runtime}.

(** Every row the grading of an item returns has the five keys. *)
Lemma grade_item_row (answers : value) (i : Z) (item : value)
    (r : value * bool) :
  grade_item answers i item = Ok r -> graded_row (fst r).
Proof.
  unfold grade_item.
  destruct (Py.get answers (mcq_widget i) VNone) as [user_ans|];
    [cbn [bind] | discriminate].
  destruct (Py.getitem item "a") as [a|]; [cbn [bind] | discriminate].
  destruct (Py.getitem item "key") as [key|]; [cbn [bind] | discriminate].
  destruct (Op.index a key) as [correct|]; [cbn [bind] | discriminate].
  destruct (Py.getitem item "q") as [q|]; [cbn [bind] | discriminate].
  intros [= <-]. cbn [fst]. unfold graded_row. repeat eexists.
Qed.

Lemma grade_loop_rows (answers : value) (items : list value) :
  forall (i : Z) (rows : list value) (benar : Z) (res : list value * Z),
    grade_loop answers i items rows benar = Ok res ->
    Forall graded_row rows -> Forall graded_row (fst res).
Proof.
  induction items as [|item items IH]; intros i rows benar res.
  - intros [= <-]. trivial.
  - cbn [grade_loop].
    destruct (grade_item answers i item) as [r|] eqn:Hitem;
      [cbn [bind] | discriminate].
    intros Hloop Hrows. apply (IH _ _ _ _ Hloop).
    apply Forall_app. split; [exact Hrows |].
    constructor; [exact (grade_item_row _ _ _ _ Hitem) | constructor].
Qed.

(** What grading stores for a quiz whose keys are in range. *)
Lemma submit_quiz_rows (now : string) (s : Session) (items : list value)
    (answers : list (string * value)) :
  quiz s = VList items ->
  quiz_answers s = VDict answers ->
  1 <= List.length items <= 100 ->
  Forall is_quiz_item items ->
  forallb key_in_range items = true ->
  exists (score : Z) (rows : list value),
    submit_quiz now s
    = (Ok tt, set_last_quiz_result (quiz_result score rows now) s)
    /\ List.length rows = List.length items
    /\ Forall graded_row rows.
Proof.
  intros Hquiz Hans Hlen Hshape Hrange.
  destruct (grade_loop_in_range answers items Hshape Hrange 1 [] 0)
    as (rows & Hloop & Hrows & _).
  pose proof (grade_loop_rows _ _ _ _ _ _ Hloop (Forall_nil _)) as Hform.
  cbn [fst app] in Hform.
  exists (100 * correct_rows rows / Z.of_nat (List.length items))%Z, rows.
  split; [| split; [exact Hrows | exact Hform]].
  unfold submit_quiz, and_then, lift, assign. rewrite Hquiz, Hans.
  destruct items as [|item items]; [simpl in Hlen; lia |].
  cbn [Py.truthy Py.iter]. rewrite Hloop. cbn [fst snd app].
  rewrite score_of_floor.
  - cbn [Py.len]. rewrite Z.add_0_l. reflexivity.
  - pose proof (correct_rows_bound rows) as Hb. cbn [Py.len].
    rewrite <- Hrows. lia.
  - cbn [Py.len]. lia.
Qed.

(** The records of the quiz export, for rows with the five keys. *)
Lemma quiz_rows_graded (score : Z) (rows : list value) (now : string) :
  Forall graded_row rows ->
  quiz_rows (quiz_result score rows now) = Ok (map quiz_record rows).
Proof.
  intros Hrows. unfold quiz_rows, quiz_result.
  cbn [Py.getitem Py.lookup String.eqb Ascii.eqb Bool.eqb bind Py.iter].
  generalize 0 at 1. induction Hrows as [|row rows Hrow _ IH]; intros i;
    [reflexivity |].
  cbn [comprehension map]. rewrite IH.
  destruct Hrow as (no & question & answer & correct & is_correct & ->).
  reflexivity.
Qed.

Lemma quiz_record_line (row : value) :
  csv_values (quiz_record row) = quiz_line row.
Proof. reflexivity. Qed.

End QuizExportFacts.

(** After grading a quiz of one to a hundred items whose keys index one
    of the four options, the quiz export of the export tab never fails on
    the stored result: it is the header
    [no,question,user_answer,correct,is_correct] followed by one line per
    question, in order, holding the number, the question, the answer (the
    empty text when none was chosen), the correct option and the mark. *)
Theorem quiz_csv_after_grading :
  forall (R : Runtime) (now : string) (s : Session) (items : list value)
         (answers : list (string * value)),
    quiz s = VList items ->
    quiz_answers s = VDict answers ->
    1 <= List.length items <= 100 ->
    Forall is_quiz_item items ->
    forallb key_in_range items = true ->
    quiz_csv (snd (submit_quiz now s))
    = Some (Ok (encode_utf8
                  (Str.join Str.nl
                     ("no,question,user_answer,correct,is_correct"
                      :: map quiz_line (stored_rows (snd (submit_quiz now s)))))))
    /\ List.length (stored_rows (snd (submit_quiz now s)))
       = List.length items.
Proof.
  intros R now s items answers Hquiz Hans Hlen Hshape Hrange.
  destruct (submit_quiz_rows now s items answers Hquiz Hans Hlen Hshape Hrange)
    as (score & rows & -> & Hrows & Hform).
  cbn [snd]. unfold quiz_csv, stored_rows.
  cbn [last_quiz_result set_last_quiz_result].
  rewrite (quiz_rows_graded score rows now Hform).
  change (Py.getitem (quiz_result score rows now) "rows") with (Ok (VList rows)).
  cbn [bind]. split; [| exact Hrows].
  destruct rows as [|row rows]; [simpl in Hrows; lia |].
  cbn [map make_csv_bytes]. rewrite csv_lines_uniform.
  - cbn [map]. rewrite map_map. reflexivity.
  - reflexivity.
  - rewrite Forall_forall. intros r Hr.
    apply in_map_iff in Hr as (row' & <- & _). reflexivity.
Qed.

Lemma quiz_csv_after_grading_witness :
  @quiz_csv reference_runtime
    (snd (submit_quiz "2024-05-01T10:00:00" (graded_session [0; 1; -1]%Z)))
  = Some (Ok (encode_utf8
                ("no,question,user_answer,correct,is_correct" ++ Str.nl
                 ++ "1,Q,A,A,True" ++ Str.nl
                 ++ "2,Q,,B,False" ++ Str.nl
                 ++ "3,Q,D,D,True"))).
Proof.
  destruct (quiz_csv_after_grading reference_runtime "2024-05-01T10:00:00"
              (graded_session [0; 1; -1]%Z)
              (map (sample_item "Q") [0; 1; -1]%Z)
              [ ("mcq_1", VStr "A"); ("mcq_2", VNone); ("mcq_3", VStr "D") ])
    as [Hcsv _].
  - reflexivity.
  - reflexivity.
  - simpl. lia.
  - repeat constructor; eexists; eexists; eexists; split; reflexivity.
  - reflexivity.
  - rewrite Hcsv. vm_compute. reflexivity.
Defined.

(* ------------------------------------------------------------------ *)
(** ** The reference codecs read back what they write *)

Section CodecFacts.

Ltac by_bits c :=
  destruct c as [[] [] [] [] [] [] [] []].

(** UTF-8: one character. *)
Lemma decode_encode_char (c : ascii) (s : string) :
  decode_utf8_latin (encode_utf8 (String c s))
  = (t <- decode_utf8_latin (encode_utf8 s) ;; Ok (String c t)).
Proof. by_bits c; reflexivity. Qed.

Lemma decode_encode_utf8 (s : string) :
  decode_utf8_latin (encode_utf8 s) = Ok s.
Proof.
  induction s as [|c s IH]; [reflexivity |].
  rewrite decode_encode_char, IH. reflexivity.
Qed.

(** JSON strings: one character and its escape. *)
Lemma scan_string_escape_char (c : ascii) (tail : string) :
  Json.scan_string (Json.escape_char c ++ tail)
  = (p <- Json.scan_string tail ;; Ok (String c (fst p), snd p)).
Proof. by_bits c; reflexivity. Qed.

Lemma scan_string_escape (s k : string) :
  Json.scan_string (Json.escape s ++ String Str.dquote k) = Ok (s, k).
Proof.
  induction s as [|c s IH]; [reflexivity |].
  simpl Json.escape. rewrite append_assoc, scan_string_escape_char, IH.
  reflexivity.
Qed.

Lemma scan_string_quote (s k : string) :
  Json.quote s ++ k = String Str.dquote (Json.escape s ++ String Str.dquote k).
Proof. unfold Json.quote. simpl. now rewrite append_assoc. Qed.

End CodecFacts.

Section NumberFacts.

Lemma digit_cases (d : Z) :
  (0 <= d < 10)%Z ->
  d = 0%Z \/ d = 1%Z \/ d = 2%Z \/ d = 3%Z \/ d = 4%Z \/ d = 5%Z \/ d = 6%Z
  \/ d = 7%Z \/ d = 8%Z \/ d = 9%Z.
Proof. lia. Qed.

Ltac each_digit H :=
  destruct (digit_cases _ H) as [-> | [-> | [-> | [-> | [-> | [-> | [-> | [-> | [-> | ->]]]]]]]]].

Lemma digit_char_spec (d : Z) :
  (0 <= d < 10)%Z ->
  Py.is_digit (digit_char d) = true /\ Py.digit (digit_char d) = d.
Proof. intros H. each_digit H; split; reflexivity. Qed.

Lemma mod10_range (n : Z) : (0 <= n mod 10 < 10)%Z.
Proof. apply Z.mod_pos_bound. lia. Qed.

Lemma digits_S (fuel : nat) (n : Z) (acc : string) :
  Str.digits (S fuel) n acc
  = if (n <? 10)%Z then String (digit_char (n mod 10)) acc
    else Str.digits fuel (n / 10) (String (digit_char (n mod 10)) acc).
Proof. reflexivity. Qed.

Lemma digits_app (fuel : nat) (n : Z) (acc : string) :
  Str.digits fuel n acc = Str.digits fuel n "" ++ acc.
Proof.
  revert n acc; induction fuel as [|fuel IH]; intros n acc.
  - reflexivity.
  - rewrite !digits_S. destruct (n <? 10)%Z; [reflexivity |].
    rewrite IH. rewrite (IH _ (String _ "")).
    now rewrite append_assoc.
Qed.

Lemma digits_value_app (a b : string) (x : Z) :
  Json.digits_value (a ++ b) x = Json.digits_value b (Json.digits_value a x).
Proof. revert x; induction a as [|c a IH]; intros x; simpl; [reflexivity | apply IH]. Qed.

Lemma digits_value_one (c : ascii) (x : Z) :
  Json.digits_value (String c "") x = (10 * x + Py.digit c)%Z.
Proof. reflexivity. Qed.

(** The digits of [n] read back as [n]. *)
Lemma digits_value_digits (fuel : nat) (n : Z) :
  (0 <= n < 2 ^ Z.of_nat fuel)%Z ->
  Json.digits_value (Str.digits fuel n "") 0 = n.
Proof.
  revert n; induction fuel as [|fuel IH]; intros n Hn.
  - simpl in Hn. simpl. lia.
  - rewrite digits_S.
    destruct (digit_char_spec _ (mod10_range n)) as [_ Hd].
    destruct (Z.ltb_spec n 10) as [Hlt | Hge].
    + rewrite digits_value_one, Hd. rewrite Z.mod_small by lia. lia.
    + rewrite digits_app, digits_value_app, IH.
      * rewrite digits_value_one, Hd. pose proof (Z.div_mod n 10). lia.
      * rewrite Nat2Z.inj_succ, Z.pow_succ_r in Hn by lia.
        split; [apply Z.div_pos; lia |].
        apply Z.div_lt_upper_bound; lia.
Qed.

Lemma digit_run_nil : digit_run "".
Proof.
  intros [|c k] Hk; [reflexivity |]. simpl in *.
  apply orb_true_iff in Hk as [Hk | Hk]; apply Ascii.eqb_eq in Hk; subst c;
    reflexivity.
Qed.

Lemma span_digits_cons (c : ascii) (s : string) :
  Json.span_digits (String c s)
  = if Py.is_digit c
    then let (ds, rest) := Json.span_digits s in (String c ds, rest)
    else ("", String c s).
Proof. reflexivity. Qed.

Lemma digit_run_cons (d : Z) (s : string) :
  (0 <= d < 10)%Z -> digit_run s -> digit_run (String (digit_char d) s).
Proof.
  intros Hd Hs k Hk. cbn [append]. rewrite span_digits_cons.
  destruct (digit_char_spec d Hd) as [-> _]. now rewrite (Hs k Hk).
Qed.

Lemma digit_run_digits (fuel : nat) (n : Z) (acc : string) :
  digit_run acc -> digit_run (Str.digits fuel n acc).
Proof.
  revert n acc; induction fuel as [|fuel IH]; intros n acc Hacc.
  - exact Hacc.
  - rewrite digits_S.
    pose proof (digit_run_cons _ _ (mod10_range n) Hacc) as Hrun.
    destruct (n <? 10)%Z; [exact Hrun | now apply IH].
Qed.

(** A positive number starts with a digit from 1 to 9. *)
Lemma digits_head (fuel : nat) (n : Z) (acc : string) :
  (0 < n < 2 ^ Z.of_nat fuel)%Z ->
  exists d s, (1 <= d < 10)%Z /\ Str.digits fuel n acc = String (digit_char d) s.
Proof.
  revert n acc; induction fuel as [|fuel IH]; intros n acc Hn.
  - simpl in Hn. lia.
  - rewrite digits_S.
    destruct (Z.ltb_spec n 10) as [Hlt | Hge].
    + exists n, acc. rewrite Z.mod_small by lia. split; [lia | reflexivity].
    + apply IH.
      rewrite Nat2Z.inj_succ, Z.pow_succ_r in Hn by lia.
      split; [apply Z.div_str_pos; lia | apply Z.div_lt_upper_bound; lia].
Qed.

Lemma of_nonneg_bound (n : Z) :
  (0 <= n)%Z -> (0 <= n < 2 ^ Z.of_nat (S (Z.to_nat (Z.log2 n))))%Z.
Proof.
  intros Hn. rewrite Nat2Z.inj_succ, Z2Nat.id by apply Z.log2_nonneg.
  destruct (Z.eq_dec n 0) as [-> | Hne]; [simpl; lia |].
  pose proof (Z.log2_spec n). lia.
Qed.

Lemma follow_no_frac (k : string) :
  follow k = true ->
  Json.span_frac k = ("", k) /\ Json.span_exp k = (None, k).
Proof.
  destruct k as [|c k]; [now split |]. simpl.
  intros Hk. apply orb_true_iff in Hk as [Hk | Hk];
    apply Ascii.eqb_eq in Hk; subst c; split; reflexivity.
Qed.

(** A positive number is read back by [scan_number]. *)
Lemma scan_digits_positive (n : Z) (k : string) :
  (0 < n)%Z -> follow k = true ->
  Json.span_int (Str.of_nonneg n ++ k) = (Str.of_nonneg n, k)
  /\ Json.digits_value (Str.of_nonneg n) 0 = n
  /\ exists d s, (1 <= d < 10)%Z /\ Str.of_nonneg n = String (digit_char d) s.
Proof.
  intros Hn Hk. unfold Str.of_nonneg.
  pose proof (of_nonneg_bound n (Z.lt_le_incl _ _ Hn)) as Hb.
  destruct (digits_head _ n "" (conj Hn (proj2 Hb))) as (d & s & Hd & Hhead).
  split; [| split].
  - rewrite Hhead.
    assert (Hspan : Json.span_int (String (digit_char d) s ++ k)
                    = Json.span_digits (String (digit_char d) s ++ k)).
    { assert (Hd' : (0 <= d < 10)%Z) by lia.
      destruct (digit_cases _ Hd') as [-> | [-> | [-> | [-> | [-> | [-> | [-> | [-> | [-> | ->]]]]]]]]];
        solve [lia | reflexivity]. }
    rewrite Hspan, <- Hhead.
    apply (digit_run_digits _ n "" digit_run_nil k Hk).
  - now apply digits_value_digits.
  - now exists d, s.
Qed.

Lemma scan_number_of_Z (z : Z) (k : string) :
  follow k = true ->
  Json.scan_number (Str.of_Z z ++ k) = Some (VInt z, k).
Proof.
  intros Hk. destruct (follow_no_frac k Hk) as [Hfrac Hexp].
  unfold Str.of_Z. destruct (Z.ltb_spec z 0) as [Hneg | Hpos].
  - assert (Hn : (0 < - z)%Z) by lia.
    destruct (scan_digits_positive (- z) k Hn Hk) as (Hspan & Hval & d & s & Hd & Hhead).
    unfold Json.scan_number. cbn [append]. cbv beta iota. rewrite Hspan.
    rewrite Hhead at 1. rewrite Hfrac, Hexp, Hval.
    now rewrite Z.opp_involutive.
  - destruct (Z.eq_dec z 0) as [-> | Hne].
    + unfold Json.scan_number, Str.of_nonneg. cbn. now rewrite Hfrac, Hexp.
    + assert (Hn : (0 < z)%Z) by lia.
      destruct (scan_digits_positive z k Hn Hk) as (Hspan & Hval & d & s & Hd & Hhead).
      unfold Json.scan_number.
      assert (Hsign : match Str.of_nonneg z ++ k with
                      | String "-"%char t => (true, t)
                      | _ => (false, Str.of_nonneg z ++ k)
                      end = (false, Str.of_nonneg z ++ k)).
      { rewrite Hhead. assert (Hd' : (0 <= d < 10)%Z) by lia.
        destruct (digit_cases _ Hd') as [-> | [-> | [-> | [-> | [-> | [-> | [-> | [-> | [-> | ->]]]]]]]]];
          reflexivity. }
      rewrite Hsign, Hspan. rewrite Hhead at 1. now rewrite Hfrac, Hexp, Hval.
Qed.

End NumberFacts.

Section ParserFacts.

Ltac by_bits c :=
  destruct c as [[] [] [] [] [] [] [] []].

(** The equations of the parser, one per call. *)
Lemma scan_once_string (f : nat) (s : string) :
  Json.scan_once (S f) (String Str.dquote s)
  = (p <- Json.scan_string s ;; Ok (VStr (fst p), snd p)).
Proof. reflexivity. Qed.

Lemma scan_once_list (f : nat) (s : string) (c : ascii) (body : string) :
  Json.skip_ws s = String c body ->
  starter c = true ->
  Json.scan_once (S f) (String "["%char s)
  = (p <- Json.scan_items f (String c body) ;; Ok (VList (fst p), snd p)).
Proof.
  intros Hskip Hc.
  change (Json.scan_once (S f) (String "["%char s))
    with (match Json.skip_ws s with
          | String "]"%char rest => Ok (VList [], rest)
          | body0 =>
              p <- Json.scan_items f body0 ;; Ok (VList (fst p), snd p)
          end).
  rewrite Hskip. by_bits c; try discriminate Hc; reflexivity.
Qed.

Lemma scan_once_dict (f : nat) (s body : string) :
  Json.skip_ws s = String Str.dquote body ->
  Json.scan_once (S f) (String "{"%char s)
  = (p <- Json.scan_pairs f body [] ;; Ok (VDict (fst p), snd p)).
Proof.
  intros Hskip.
  change (Json.scan_once (S f) (String "{"%char s))
    with (match Json.skip_ws s with
          | String "}"%char rest => Ok (VDict [], rest)
          | String q body0 =>
              if Ascii.eqb q Str.dquote then
                p <- Json.scan_pairs f body0 [] ;; Ok (VDict (fst p), snd p)
              else
                Raise "Expecting property name enclosed in double quotes"
          | EmptyString =>
              Raise "Expecting property name enclosed in double quotes"
          end).
  rewrite Hskip. reflexivity.
Qed.

Lemma scan_items_step (f : nat) (s : string) :
  Json.scan_items (S f) s
  = (p <- Json.scan_once f s ;;
     match Json.skip_ws (snd p) with
     | String "]"%char rest => Ok ([fst p], rest)
     | String ","%char rest =>
         r <- Json.scan_items f (Json.skip_ws rest) ;;
         Ok (fst p :: fst r, snd r)
     | _ => Raise "Expecting ',' delimiter"
     end).
Proof. reflexivity. Qed.

Lemma scan_pairs_step (f : nat) (s : string) (acc : list (string * value)) :
  Json.scan_pairs (S f) s acc
  = (k <- Json.scan_string s ;;
     match Json.skip_ws (snd k) with
     | String ":"%char rest =>
         p <- Json.scan_once f (Json.skip_ws rest) ;;
         let acc' := Py.store acc (fst k) (fst p) in
         match Json.skip_ws (snd p) with
         | String "}"%char rest' => Ok (acc', rest')
         | String ","%char rest' =>
             match Json.skip_ws rest' with
             | String q body =>
                 if Ascii.eqb q Str.dquote then Json.scan_pairs f body acc'
                 else
                   Raise "Expecting property name enclosed in double quotes"
             | EmptyString =>
                 Raise "Expecting property name enclosed in double quotes"
             end
         | _ => Raise "Expecting ',' delimiter"
         end
     | _ => Raise "Expecting ':' delimiter"
     end).
Proof. reflexivity. Qed.

(** A number at the head of the text is what [scan_once] returns. *)
Lemma scan_once_number (f : nat) (c : ascii) (s : string)
    (r : value * string) :
  Py.is_digit c || Ascii.eqb c "-"%char = true ->
  Json.scan_number (String c s) = Some r ->
  Json.scan_once (S f) (String c s) = Ok r.
Proof.
  intros Hc Hnum.
  assert (Hatom : Json.scan_once (S f) (String c s)
                  = match Json.scan_number (String c s) with
                    | Some r0 => Ok r0
                    | None => Json.scan_atom (String c s)
                    end).
  { by_bits c; try discriminate Hc;
      destruct (Json.scan_number _) as [r0|] eqn:Hn;
      unfold Json.scan_once, Json.scan_atom;
      cbn [Ascii.eqb Bool.eqb Str.dquote andb];
      unfold Json.scan_atom; rewrite ?Hn; reflexivity. }
  now rewrite Hatom, Hnum.
Qed.

Lemma skip_ws_indent (n : nat) (s : string) :
  Json.skip_ws (Json.indent n ++ s) = Json.skip_ws s.
Proof. induction n as [|n IH]; [reflexivity | exact IH]. Qed.

Lemma skip_ws_line (n : nat) (s : string) :
  Json.skip_ws (Str.nl ++ Json.indent n ++ s) = Json.skip_ws s.
Proof. exact (skip_ws_indent n s). Qed.

Lemma starter_not_ws (c : ascii) (s : string) :
  starter c = true -> Json.skip_ws (String c s) = String c s.
Proof. intros Hc. by_bits c; try discriminate Hc; reflexivity. Qed.

End ParserFacts.

Section EmitFacts.

Lemma emit_list_cons (x : value) (xs : list value) (level : nat) (k : string) :
  Json.emit (VList (x :: xs)) level k
  = "[" ++ Str.nl ++ Json.indent (S level)
    ++ Json.emit x (S level) (Json.emit_items level k xs).
Proof.
  cbn [Json.emit]. do 4 f_equal.
  induction xs as [|y ys IH]; [reflexivity |].
  cbn [Json.emit_items]. now rewrite <- IH.
Qed.

Lemma emit_dict_cons (key : string) (x : value)
    (more : list (string * value)) (level : nat) (k : string) :
  Json.emit (VDict ((key, x) :: more)) level k
  = "{" ++ Str.nl ++ Json.indent (S level) ++ Json.quote key ++ ": "
    ++ Json.emit x (S level) (Json.emit_fields level k more).
Proof.
  cbn [Json.emit]. do 6 f_equal.
  induction more as [|[key' y] more IH]; [reflexivity |].
  cbn [Json.emit_fields]. now rewrite <- IH.
Qed.

Lemma plain_dict (fields : list (string * value)) :
  plain (VDict fields) = distinct (map fst fields) && plain_fields fields.
Proof.
  reflexivity.
Qed.

Lemma weight_list (items : list value) :
  weight (VList items) = S (weight_items items).
Proof.
  reflexivity.
Qed.

Lemma weight_dict (fields : list (string * value)) :
  weight (VDict fields) = S (weight_fields fields).
Proof.
  reflexivity.
Qed.

(** The first character of a printed number. *)
Lemma of_Z_head (z : Z) :
  exists c s, Str.of_Z z = String c s
              /\ Py.is_digit c || Ascii.eqb c "-"%char = true.
Proof.
  unfold Str.of_Z. destruct (Z.ltb_spec z 0) as [Hneg | Hpos].
  - eexists. eexists. split; reflexivity.
  - destruct (Z.eq_dec z 0) as [-> | Hne].
    + eexists. eexists. split; reflexivity.
    + assert (Hz : (0 < z)%Z) by lia.
      destruct (scan_digits_positive z "" Hz eq_refl)
        as (_ & _ & d & s & Hd & Hhead).
      exists (digit_char d), s. split; [exact Hhead |].
      assert (Hd' : (0 <= d < 10)%Z) by lia.
      destruct (digit_char_spec d Hd') as [-> _]. reflexivity.
Qed.

Lemma number_head_starter (c : ascii) :
  Py.is_digit c || Ascii.eqb c "-"%char = true -> starter c = true.
Proof.
  unfold starter. intros Hc. apply orb_true_iff in Hc as [Hc | Hc].
  - now rewrite Hc.
  - apply Ascii.eqb_eq in Hc. subst c. reflexivity.
Qed.

(** A printed plain value starts with one of the starting characters. *)
Lemma emit_starts (v : value) (level : nat) (k : string) :
  plain v = true -> starts (Json.emit v level k) = true.
Proof.
  destruct v as [| [|] | z | f | s | [|x xs] | [|[key x] more]];
    try reflexivity; try discriminate.
  intros _. cbn [Json.emit].
  destruct (of_Z_head z) as (c & s & -> & Hc).
  cbn [append starts]. now apply number_head_starter.
Qed.

Lemma skip_ws_emit (v : value) (level : nat) (k : string) :
  plain v = true -> Json.skip_ws (Json.emit v level k) = Json.emit v level k.
Proof.
  intros Hv. pose proof (emit_starts v level k Hv) as Hs.
  destruct (Json.emit v level k) as [|c s]; [discriminate |].
  now apply starter_not_ws.
Qed.

Lemma follow_emit_items (level : nat) (k : string) (xs : list value) :
  follow (Json.emit_items level k xs) = true.
Proof. destruct xs; reflexivity. Qed.

Lemma follow_emit_fields (level : nat) (k : string)
    (more : list (string * value)) :
  follow (Json.emit_fields level k more) = true.
Proof. destruct more as [|[key y] more]; reflexivity. Qed.

Lemma store_fresh (acc : list (string * value)) (key : string) (x : value) :
  ~ In key (map fst acc) -> Py.store acc key x = (acc ++ [(key, x)])%list.
Proof.
  induction acc as [|[k' v'] acc IH]; intros Hfresh; [reflexivity |].
  cbn [Py.store app]. cbn [map fst In] in Hfresh.
  destruct (String.eqb key k') eqn:Hk.
  - apply String.eqb_eq in Hk. subst k'. tauto.
  - rewrite IH by tauto. reflexivity.
Qed.

End EmitFacts.

Section RoundTripFacts.

Lemma weight_pos (v : value) : 1 <= weight v.
Proof. destruct v; cbn; lia. Qed.

(** The parser after the last element and between two elements. *)
Lemma scan_items_last (f level : nat) (s k : string) (x : value) :
  Json.scan_once f s = Ok (x, Str.nl ++ Json.indent level ++ "]" ++ k) ->
  Json.scan_items (S f) s = Ok ([x], k).
Proof.
  intros Hx. rewrite scan_items_step, Hx. cbn [bind fst snd].
  rewrite skip_ws_line. reflexivity.
Qed.

Lemma scan_items_more (f level : nat) (s t : string) (x : value) :
  Json.scan_once f s = Ok (x, "," ++ Str.nl ++ Json.indent level ++ t) ->
  Json.scan_items (S f) s
  = (r <- Json.scan_items f (Json.skip_ws t) ;; Ok (x :: fst r, snd r)).
Proof.
  intros Hx. rewrite scan_items_step, Hx. cbn [bind fst snd].
  change (Json.skip_ws ("," ++ Str.nl ++ Json.indent level ++ t))
    with (String ","%char (Str.nl ++ Json.indent level ++ t)).
  cbv beta iota. rewrite skip_ws_line. reflexivity.
Qed.

Lemma scan_pairs_last (f level : nat) (key s k : string) (x : value)
    (acc : list (string * value)) :
  Json.scan_once f s = Ok (x, Str.nl ++ Json.indent level ++ "}" ++ k) ->
  Json.skip_ws s = s ->
  Json.scan_pairs (S f)
    (Json.escape key ++ String Str.dquote (": " ++ s)) acc
  = Ok (Py.store acc key x, k).
Proof.
  intros Hx Hs. rewrite scan_pairs_step, scan_string_escape.
  cbn [bind fst snd].
  change (Json.skip_ws (": " ++ s)) with (String ":"%char (" " ++ s)).
  cbv beta iota.
  change (Json.skip_ws (" " ++ s)) with (Json.skip_ws s).
  rewrite Hs, Hx. cbn [bind fst snd]. rewrite skip_ws_line. reflexivity.
Qed.

Lemma scan_pairs_more (f level : nat) (key key' s t : string) (x : value)
    (acc : list (string * value)) :
  Json.scan_once f s
  = Ok (x, "," ++ Str.nl ++ Json.indent level ++ Json.quote key' ++ t) ->
  Json.skip_ws s = s ->
  Json.scan_pairs (S f)
    (Json.escape key ++ String Str.dquote (": " ++ s)) acc
  = Json.scan_pairs f (Json.escape key' ++ String Str.dquote t)
      (Py.store acc key x).
Proof.
  intros Hx Hs. rewrite scan_pairs_step, scan_string_escape.
  cbn [bind fst snd].
  change (Json.skip_ws (": " ++ s)) with (String ":"%char (" " ++ s)).
  cbv beta iota.
  change (Json.skip_ws (" " ++ s)) with (Json.skip_ws s).
  rewrite Hs, Hx. cbn [bind fst snd].
  change (Json.skip_ws
            ("," ++ Str.nl ++ Json.indent level ++ Json.quote key' ++ t))
    with (String ","%char
            (Str.nl ++ Json.indent level ++ Json.quote key' ++ t)).
  cbv beta iota. rewrite skip_ws_line, scan_string_quote. reflexivity.
Qed.

(** Reading what the printer wrote: a value, the elements of a list and
    the members of a dict, with fuel for the nodes of the value. *)
Lemma scan_emit (f : nat) :
  (forall v level k,
      plain v = true -> weight v <= f -> follow k = true ->
      Json.scan_once f (Json.emit v level k) = Ok (v, k))
  /\ (forall x xs level k,
         plain x = true -> forallb plain xs = true ->
         weight_items (x :: xs) <= f ->
         Json.scan_items f
           (Json.emit x (S level) (Json.emit_items level k xs))
         = Ok (x :: xs, k))
  /\ (forall key x more acc level k,
         plain x = true -> plain_fields more = true ->
         NoDup (map fst acc ++ key :: map fst more) ->
         weight_fields ((key, x) :: more) <= f ->
         Json.scan_pairs f
           (Json.escape key
            ++ String Str.dquote
                 (": " ++ Json.emit x (S level)
                            (Json.emit_fields level k more))) acc
         = Ok ((acc ++ (key, x) :: more)%list, k)).
Proof.
  induction f as [|f (IHa & IHb & IHc)].
  { split; [| split].
    - intros v level k _ Hw _. pose proof (weight_pos v). lia.
    - intros x xs level k _ _ Hw. cbn in Hw. lia.
    - intros key x more acc level k _ _ _ Hw. cbn in Hw. lia. }
  split; [| split].
  - intros v level k Hv Hw Hk.
    destruct v as [| b | z | fl | s | items | fields].
    + reflexivity.
    + destruct b; reflexivity.
    + cbn [Json.emit]. destruct (of_Z_head z) as (c & s & Hs & Hc).
      pose proof (scan_number_of_Z z k Hk) as Hnum.
      rewrite Hs in Hnum |- *. cbn [append] in Hnum |- *.
      now apply scan_once_number.
    + discriminate Hv.
    + cbn [Json.emit].
      rewrite scan_string_quote, scan_once_string, scan_string_escape.
      reflexivity.
    + destruct items as [|x xs]; [reflexivity |].
      cbn [plain forallb] in Hv. apply andb_true_iff in Hv as [Hx Hxs].
      rewrite weight_list in Hw. rewrite emit_list_cons.
      pose proof (emit_starts x (S level) (Json.emit_items level k xs) Hx)
        as Hst.
      pose proof (IHb x xs level k Hx Hxs ltac:(lia)) as Hitems.
      destruct (Json.emit x (S level) (Json.emit_items level k xs))
        as [|c body]; [discriminate Hst |].
      cbn [starts] in Hst.
      change (Json.scan_once (S f)
                (String "["%char
                   (Str.nl ++ Json.indent (S level) ++ String c body))
              = Ok (VList (x :: xs), k)).
      rewrite (scan_once_list f _ c body).
      * rewrite Hitems. reflexivity.
      * rewrite skip_ws_line. now apply starter_not_ws.
      * exact Hst.
    + destruct fields as [|[key x] more]; [reflexivity |].
      rewrite plain_dict in Hv. apply andb_true_iff in Hv as [Hd Hv].
      cbn [plain_fields] in Hv. apply andb_true_iff in Hv as [Hx Hmore].
      apply distinct_NoDup in Hd. cbn [map fst] in Hd.
      rewrite weight_dict in Hw. rewrite emit_dict_cons.
      pose proof (IHc key x more [] level k Hx Hmore Hd ltac:(lia))
        as Hpairs.
      change (Json.scan_once (S f)
                (String "{"%char
                   (Str.nl ++ Json.indent (S level) ++ Json.quote key
                    ++ ": " ++ Json.emit x (S level)
                                 (Json.emit_fields level k more)))
              = Ok (VDict ((key, x) :: more), k)).
      rewrite (scan_once_dict f _
                 (Json.escape key
                  ++ String Str.dquote
                       (": " ++ Json.emit x (S level)
                                  (Json.emit_fields level k more)))).
      * rewrite Hpairs. reflexivity.
      * rewrite skip_ws_line, scan_string_quote. reflexivity.
  - intros x xs level k Hx Hxs Hw. cbn [weight_items] in Hw.
    pose proof (IHa x (S level) (Json.emit_items level k xs) Hx
                  ltac:(lia) (follow_emit_items level k xs)) as Hhead.
    destruct xs as [|y ys].
    + now apply scan_items_last with (level := level).
    + cbn [forallb] in Hxs. apply andb_true_iff in Hxs as [Hy Hys].
      cbn [Json.emit_items] in Hhead |- *.
      rewrite (scan_items_more f (S level) _ _ x Hhead).
      rewrite skip_ws_emit by exact Hy.
      rewrite (IHb y ys level k Hy Hys) by (cbn [weight_items] in *; lia).
      reflexivity.
  - intros key x more acc level k Hx Hmore Hnd Hw.
    cbn [weight_fields] in Hw.
    pose proof (IHa x (S level) (Json.emit_fields level k more) Hx
                  ltac:(lia) (follow_emit_fields level k more)) as Hhead.
    assert (Hfresh : ~ In key (map fst acc)).
    { apply NoDup_remove_2 in Hnd. intros Hin. apply Hnd.
      apply in_or_app. now left. }
    pose proof (skip_ws_emit x (S level) (Json.emit_fields level k more) Hx)
      as Hskip.
    destruct more as [|[key' y] more'].
    + rewrite (scan_pairs_last f level key _ k x acc Hhead Hskip).
      now rewrite store_fresh.
    + cbn [plain_fields] in Hmore.
      apply andb_true_iff in Hmore as [Hy Hmore'].
      cbn [Json.emit_fields] in Hhead, Hskip |- *.
      rewrite (scan_pairs_more f (S level) key key' _ _ x acc Hhead Hskip).
      rewrite store_fresh by exact Hfresh.
      rewrite (IHc key' y more' (acc ++ [(key, x)])%list level k Hy Hmore').
      * now rewrite <- app_assoc.
      * rewrite map_app, <- app_assoc. exact Hnd.
      * cbn [weight_fields] in *. lia.
Qed.

End RoundTripFacts.

Section ReferenceRoundTrip.

Lemma of_Z_length (z : Z) : 1 <= String.length (Str.of_Z z).
Proof. destruct (of_Z_head z) as (c & s & -> & _). cbn. lia. Qed.

Lemma nl_length : String.length Str.nl = 1.
Proof. reflexivity. Qed.

(** The printed text is at least as long as the value has nodes. *)
Lemma emit_length (n : nat) :
  (forall v level k,
      plain v = true -> weight v < n ->
      weight v + String.length k <= String.length (Json.emit v level k))
  /\ (forall xs level k,
         forallb plain xs = true -> weight_items xs < n ->
         weight_items xs + 2 + String.length k
         <= String.length (Json.emit_items level k xs))
  /\ (forall more level k,
         plain_fields more = true -> weight_fields more < n ->
         weight_fields more + 2 + String.length k
         <= String.length (Json.emit_fields level k more)).
Proof.
  induction n as [|n (IHa & IHb & IHc)].
  { split; [| split]; intros; lia. }
  split; [| split].
  - intros v level k Hv Hw.
    destruct v as [| b | z | fl | s | items | fields].
    + cbn. rewrite ?length_append. lia.
    + destruct b; cbn; rewrite ?length_append; lia.
    + cbn [Json.emit weight]. rewrite length_append.
      pose proof (of_Z_length z). lia.
    + discriminate Hv.
    + cbn [Json.emit weight]. rewrite scan_string_quote.
      cbn [String.length]. rewrite length_append. cbn [String.length]. lia.
    + destruct items as [|x xs]; [cbn; lia |].
      cbn [plain forallb] in Hv. apply andb_true_iff in Hv as [Hx Hxs].
      rewrite weight_list in Hw |- *. cbn [weight_items] in Hw |- *.
      rewrite emit_list_cons, !length_append.
      pose proof (IHa x (S level) (Json.emit_items level k xs) Hx
                    ltac:(lia)).
      pose proof (IHb xs level k Hxs ltac:(lia)). lia.
    + destruct fields as [|[key x] more]; [cbn; lia |].
      rewrite plain_dict in Hv. apply andb_true_iff in Hv as [_ Hv].
      cbn [plain_fields] in Hv. apply andb_true_iff in Hv as [Hx Hmore].
      rewrite weight_dict in Hw |- *. cbn [weight_fields] in Hw |- *.
      rewrite emit_dict_cons, !length_append.
      pose proof (IHa x (S level) (Json.emit_fields level k more) Hx
                    ltac:(lia)).
      pose proof (IHc more level k Hmore ltac:(lia)). lia.
  - intros xs level k Hxs Hw. destruct xs as [|y ys].
    + cbn [Json.emit_items weight_items]. rewrite !length_append, nl_length.
      cbn [String.length]. lia.
    + cbn [forallb] in Hxs. apply andb_true_iff in Hxs as [Hy Hys].
      cbn [Json.emit_items weight_items] in Hw |- *.
      rewrite !length_append, nl_length. cbn [String.length].
      pose proof (IHa y (S level) (Json.emit_items level k ys) Hy
                    ltac:(lia)).
      pose proof (IHb ys level k Hys ltac:(lia)). lia.
  - intros more level k Hmore Hw. destruct more as [|[key' y] more'].
    + cbn [Json.emit_fields weight_fields].
      rewrite !length_append, nl_length. cbn [String.length]. lia.
    + cbn [plain_fields] in Hmore.
      apply andb_true_iff in Hmore as [Hy Hmore'].
      cbn [Json.emit_fields weight_fields] in Hw |- *.
      rewrite !length_append, nl_length. cbn [String.length].
      pose proof (IHa y (S level) (Json.emit_fields level k more') Hy
                    ltac:(lia)).
      pose proof (IHc more' level k Hmore' ltac:(lia)). lia.
Qed.

(** The reference parser reads back what the reference printer wrote. *)
Lemma loads_dumps (v : value) :
  plain v = true -> Json.loads (Json.dumps v) = Ok v.
Proof.
  intros Hv. unfold Json.loads, Json.dumps.
  rewrite skip_ws_emit by exact Hv.
  destruct (scan_emit (2 * String.length (Json.emit v 0 "") + 2))
    as (Hscan & _).
  destruct (emit_length (S (weight v))) as (Hlen & _).
  pose proof (Hlen v 0 "" Hv ltac:(lia)) as Hbound.
  rewrite Hscan; [reflexivity | exact Hv | lia | reflexivity].
Qed.

Lemma plain_dump (s : Session) :
  plain_session s = true -> plain (dump s) = true.
Proof.
  unfold plain_session, dump. intros Hs.
  apply andb_true_iff in Hs as [Hs Hq]. apply andb_true_iff in Hs as [Hm Hk].
  rewrite plain_dict. cbn [plain_fields].
  rewrite Hm, Hk. destruct (last_quiz_result s) as [r|]; [rewrite Hq |];
    reflexivity.
Qed.


End ReferenceRoundTrip.



(** With the reference JSON printer and parser and UTF-8 for the modelled
    characters, importing the document the export tab offers for a session
    without floats and repeated keys always succeeds: it puts the
    messages and the knowledge text of the exported session into the
    current one, leaves the quiz and its answers alone, and replaces the
    quiz result only when the exported one is present and non-empty; an
    exported session without a result leaves the current result in
    place. *)
Theorem export_then_import_reference :
  forall s s0 : Session,
    plain_session s = true ->
    @import_json reference_runtime (@json_bytes reference_runtime s) s0
    = (Ok (Success "Berhasil di-import. Buka tab Chat/Quiz untuk melihat hasilnya."),
       mkSession (messages s) (kb_text s) (quiz s0) (quiz_answers s0)
         (match last_quiz_result s with
          | Some r => if Py.truthy r then Some r else last_quiz_result s0
          | None => last_quiz_result s0
          end)).
Proof.
  intros s s0 Hs. apply import_json_of_dump.
  unfold json_bytes. cbn [decode_utf8 json_dumps json_loads reference_runtime].
  rewrite decode_encode_utf8. cbn [bind].
  apply loads_dumps. now apply plain_dump.
Qed.

Lemma export_then_import_reference_witness :
  plain_session sample_session = true
  /\ @import_json reference_runtime
       (@json_bytes reference_runtime sample_session) fresh_session
     = (Ok (Success "Berhasil di-import. Buka tab Chat/Quiz untuk melihat hasilnya."),
        mkSession (messages sample_session) (kb_text sample_session)
          (VList []) (VDict []) (last_quiz_result sample_session)).
Proof.
  split; [reflexivity |].
  exact (export_then_import_reference sample_session fresh_session eq_refl).
Defined.
